(** * mymind: the recall pipeline of the "second brain" service

    A shallow embedding of [src/components/InputArea.tsx] (the service
    part: [cosineSimilarity], [getEmbedding], [analyzeContent],
    [parseSearchIntent], [queryBrain]) and of the data types of
    [src/types.ts], followed by the handlers and derived values of the
    application around it: [src/App.tsx],
    [src/components/ChatInterface.tsx], [src/components/MemoryCard.tsx]
    and the composer of [src/components/InputArea.tsx].

    Conventions of the embedding:
    - a JavaScript [number] that holds an embedding component, a
      similarity score or a number parsed from JSON is an IEEE-754
      binary64 value ([float], the kernel's primitive floats), so the
      arithmetic of [cosineSimilarity] is the one JavaScript performs;
    - the timestamp of a note ([createdAt]: epoch milliseconds) is a
      [Z], compared exactly with the numbers of an intent;
    - a string is its sequence of UTF-16 code units ([str]), so that
      [length], [slice] and [===] are those of JavaScript;
      [String.prototype.toLowerCase] and the conversions between numbers
      and strings belong to the platform ([Runtime]);
    - what [JSON.parse] returns is a [Value]; the casts [as ParsedIntent]
      and [as ProcessingResult] check nothing, so the service works on
      the value as it is, and an operation that raises a [TypeError]
      yields [None];
    - [console.log] and [console.error] are not modelled;
    - arrays that the code filters, sorts or slices live in a store
      ([World]) and are handled through references, so that the in-place
      [sort] is a write to the store;
    - the remote model is a pair of functions from requests to responses,
      and every call is recorded in the [calls] log of the [World];
      prompt texts are represented by the values interpolated in them. *)

From Stdlib Require Import ZArith NArith Bool Lia.
From Stdlib.Strings Require Import Byte.
From Stdlib Require Import Floats.
From stdpp Require Import base list sorting.

Local Open Scope Z_scope.
Local Open Scope list_scope.

(** ** Strings *)

Definition str := list N.

(** The literals of this file are UTF-8 text; they denote the code units
    of that text in UTF-16 (a character outside the basic plane is a
    surrogate pair). *)
Module Literal.

Inductive t :=
| empty
| unit (u : N) (s : t).

Fixpoint pack (l : list N) : t :=
  match l with
  | [] => empty
  | u :: l' => unit u (pack l')
  end.

Fixpoint unpack (s : t) : list N :=
  match s with
  | empty => []
  | unit u s' => u :: unpack s'
  end.

Definition continuation (b : N) : N := N.land b 63.

Definition ofCodePoint (c : N) : list N :=
  if (c <? 65536)%N then [c]
  else [(55296 + N.shiftr (c - 65536) 10)%N;
        (56320 + N.land (c - 65536) 1023)%N].

Fixpoint decode (fuel : nat) (l : list N) : list N :=
  match fuel with
  | O => []
  | S fuel =>
      match l with
      | [] => []
      | b0 :: l1 =>
          if (b0 <? 128)%N then b0 :: decode fuel l1
          else if (b0 <? 224)%N then
            match l1 with
            | b1 :: l2 =>
                ofCodePoint (N.shiftl (N.land b0 31) 6 + continuation b1)%N
                ++ decode fuel l2
            | _ => []
            end
          else if (b0 <? 240)%N then
            match l1 with
            | b1 :: b2 :: l3 =>
                ofCodePoint
                  (N.shiftl (N.land b0 15) 12 + N.shiftl (continuation b1) 6
                   + continuation b2)%N
                ++ decode fuel l3
            | _ => []
            end
          else
            match l1 with
            | b1 :: b2 :: b3 :: l4 =>
                ofCodePoint
                  (N.shiftl (N.land b0 7) 18 + N.shiftl (continuation b1) 12
                   + N.shiftl (continuation b2) 6 + continuation b3)%N
                ++ decode fuel l4
            | _ => []
            end
      end
  end.

Definition parse (l : list byte) : t :=
  pack (decode (length l) (map Byte.to_N l)).

(** Only texts of ASCII characters are displayed as literals. *)
Definition print (s : t) : option (list byte) :=
  foldr (fun u acc =>
           match acc, Byte.of_N u with
           | Some l, Some b => if (u <? 128)%N then Some (b :: l) else None
           | _, _ => None
           end) (Some []) (unpack s).

End Literal.

Declare Scope js_scope.
Delimit Scope js_scope with js.

#[warnings="-via-type-remapping,-via-type-mismatch"]
String Notation str Literal.parse Literal.print
  (via Literal.t mapping [[nil] => Literal.empty, [cons] => Literal.unit])
  : js_scope.

Local Open Scope js_scope.

(** ** JavaScript built-ins used by the service *)

Module JS.

(** [s === t] on strings. *)
Fixpoint eqb (s t : str) : bool :=
  match s, t with
  | [], [] => true
  | u :: s', v :: t' => N.eqb u v && eqb s' t'
  | _, _ => false
  end.

(** [s.slice(0, n)]: the first [n] code units. *)
Definition slice0 (n : nat) (s : str) : str := take n s.

(** [s.startsWith(p)] and the removal of a prefix of known length. *)
Fixpoint startsWith (p s : str) : bool :=
  match p, s with
  | [], _ => true
  | u :: p', v :: s' => N.eqb u v && startsWith p' s'
  | _ :: _, [] => false
  end.

Definition dropPrefix (p s : str) : str := drop (length p) s.

(** Truthiness of a string: the empty string is falsy. *)
Definition truthy (s : str) : bool :=
  match s with
  | [] => false
  | _ :: _ => true
  end.

(** [Array.prototype.includes] on strings (SameValueZero is string
    equality). *)
Definition includes (l : list str) (x : str) : bool :=
  existsb (eqb x) l.

(** [Array.from(new Set(l))]: the distinct elements in order of first
    occurrence. *)
Fixpoint distinct (seen l : list str) : list str :=
  match l with
  | [] => []
  | x :: l' =>
      if includes seen x then distinct seen l'
      else x :: distinct (x :: seen) l'
  end.

(** [Array.prototype.sort(comparefn)].  ECMAScript reads the number [v]
    returned by [comparefn(x, y)] as: [v < 0], [x] goes first; [v > 0],
    [y] goes first; otherwise (zero or NaN) they are equal.  The sort is
    stable; for a consistent comparator its result is determined, and
    it is the one of this insertion sort. *)
Fixpoint insert {A} (cmp : A -> A -> comparison) (x : A) (l : list A) : list A :=
  match l with
  | [] => [x]
  | y :: l' =>
      match cmp x y with
      | Gt => y :: insert cmp x l'
      | _ => x :: y :: l'
      end
  end.

Definition sort {A} (cmp : A -> A -> comparison) (l : list A) : list A :=
  foldr (insert cmp) [] l.

(** The sign of a comparator's result, for the two kinds of number. *)
Definition signZ (v : Z) : comparison := Z.compare v 0.

Definition signF (v : float) : comparison :=
  if PrimFloat.ltb v 0%float then Lt
  else if PrimFloat.ltb 0%float v then Gt
  else Eq.

(** A callback that may throw, under [Array.prototype.some] and
    [Array.prototype.filter]: the elements are visited in order and the
    first exception ends the loop. *)
Fixpoint someM {A} (p : A -> option bool) (l : list A) : option bool :=
  match l with
  | [] => Some false
  | x :: l' =>
      match p x with
      | Some true => Some true
      | Some false => someM p l'
      | None => None
      end
  end.

Fixpoint filterM {A} (p : A -> option bool) (l : list A) : option (list A) :=
  match l with
  | [] => Some []
  | x :: l' =>
      match p x with
      | Some b =>
          match filterM p l' with
          | Some r => Some (if b then x :: r else r)
          | None => None
          end
      | None => None
      end
  end.

End JS.

Module JSString.

(** The white space and line terminators of ECMAScript: TAB, LF, VT, FF,
    CR, SP, NBSP, U+1680, U+2000 to U+200A, LS, PS, U+202F, U+205F,
    U+3000 and the byte order mark.  Each is one code unit. *)
Definition isWhiteSpace (u : N) : bool :=
  ((9 <=? u) && (u <=? 13) || (u =? 32) || (u =? 160) || (u =? 5760)
   || (8192 <=? u) && (u <=? 8202) || (u =? 8232) || (u =? 8233)
   || (u =? 8239) || (u =? 8287) || (u =? 12288) || (u =? 65279))%N.

Fixpoint trimStart (s : str) : str :=
  match s with
  | [] => []
  | u :: s' => if isWhiteSpace u then trimStart s' else s
  end.

Fixpoint trimEnd (s : str) : str :=
  match s with
  | [] => []
  | u :: s' =>
      match trimEnd s' with
      | [] => if isWhiteSpace u then [] else [u]
      | rest => u :: rest
      end
  end.

(** [String.prototype.trim]. *)
Definition trim (s : str) : str := trimEnd (trimStart s).

End JSString.

(** ** Numbers

    A number parsed from JSON is a double; the timestamp of a note is an
    integer.  The relational operators compare the two exactly. *)
Module Number.

(** [ToBoolean]: [+0], [-0] and [NaN] are falsy. *)
Definition truthy (f : float) : bool :=
  match Prim2SF f with
  | S754_zero _ | S754_nan => false
  | _ => true
  end.

(** The order of the integer [z] and the double [f]; [None] when [f] is
    [NaN].  A finite double is [m * 2 ^ e]. *)
Definition compare (z : Z) (f : float) : option comparison :=
  match Prim2SF f with
  | S754_nan => None
  | S754_infinity negative => Some (if negative then Gt else Lt)
  | S754_zero _ => Some (z ?= 0)
  | S754_finite negative m e =>
      let v := if negative then Z.neg m else Z.pos m in
      if 0 <=? e then Some (z ?= v * 2 ^ e)
      else Some (z * 2 ^ (- e) ?= v)
  end.

(** [z < f] and [z > f]. *)
Definition lt (z : Z) (f : float) : bool :=
  match compare z f with
  | Some Lt => true
  | _ => false
  end.

Definition gt (z : Z) (f : float) : bool :=
  match compare z f with
  | Some Gt => true
  | _ => false
  end.

End Number.

(** ** Arithmetic of [number]

    [cosineSimilarity] is written once over the operations it uses, so
    that a property that does not depend on rounding can be stated for
    every arithmetic.  The program runs the binary64 instance. *)

Class Arithmetic (num : Type) := {
  zero : num;
  add : num -> num -> num;
  mul : num -> num -> num;
  div : num -> num -> num;
  sqrt : num -> num;
  eqb : num -> num -> bool   (* [===] on numbers *)
}.

#[export] Instance binary64 : Arithmetic float := {|
  zero := 0%float;
  add := PrimFloat.add;
  mul := PrimFloat.mul;
  div := PrimFloat.div;
  sqrt := PrimFloat.sqrt;
  eqb := PrimFloat.eqb
|}.

Section CosineSimilarity.
Context {num : Type} `{Arithmetic num}.

(** The body of the [for] loop, run over the two vectors in step. *)
Fixpoint accumulate (vecA vecB : list num) (dotProduct normA normB : num)
  : num * num * num :=
  match vecA, vecB with
  | a :: vecA', b :: vecB' =>
      accumulate vecA' vecB'
        (add dotProduct (mul a b)) (add normA (mul a a)) (add normB (mul b b))
  | _, _ => (dotProduct, normA, normB)
  end.

Definition cosineSimilarity (vecA vecB : option (list num)) : num :=
  match vecA, vecB with
  | Some vecA, Some vecB =>
      if negb (Nat.eqb (length vecA) (length vecB)) then zero
      else
        let '(dotProduct, normA, normB) := accumulate vecA vecB zero zero zero in
        if (eqb normA zero || eqb normB zero)%bool then zero
        else div dotProduct (mul (sqrt normA) (sqrt normB))
  | _, _ => zero
  end.
End CosineSimilarity.

(** ** Data model ([src/types.ts]) *)

Inductive Language := en | zh.

Inductive ContentType := TEXT | IMAGE | LINK.

Module Memory.
Record t := mk {
  id : str;
  originalContent : str;
  type : ContentType;
  imageData : option str;
  summary : str;
  tags : list str;
  category : str;
  createdAt : Z;
  embedding : option (list float)
}.
End Memory.

(** The interface [ParsedIntent] of the service (and [SearchFilters],
    its fields other than [keywords]): what an intent is declared to
    be.  A timestamp is an integer number of milliseconds. *)
Module ParsedIntent.
Record t := mk {
  keywords : str;
  category : option str;
  tags : list str;
  startDate : option Z;
  endDate : option Z
}.
End ParsedIntent.

(** ** Values

    What [JSON.parse] can return, and [undefined]. *)
#[warnings="-register-all"]
Inductive Value :=
| VUndefined
| VNull
| VBool (b : bool)
| VNumber (n : float)
| VString (s : str)
| VArray (elements : list Value)
| VObject (props : list (str * Value)).

(** [ToBoolean]. *)
Definition truthyValue (v : Value) : bool :=
  match v with
  | VUndefined | VNull => false
  | VBool b => b
  | VNumber n => Number.truthy n
  | VString s => JS.truthy s
  | VArray _ | VObject _ => true
  end.

Module Obj.
(** [props[k]] of an object literal: [undefined] when absent. *)
Fixpoint lookup (k : str) (props : list (str * Value)) : Value :=
  match props with
  | [] => VUndefined
  | (k', v) :: props' => if JS.eqb k k' then v else lookup k props'
  end.

(** Whether the object has an own property [k]. *)
Definition has (k : str) (props : list (str * Value)) : bool :=
  existsb (fun kv => JS.eqb k (fst kv)) props.

(** [v.k], for a name [k] that no prototype defines ([category],
    [tags], [summary], [keywords], [startDate], [endDate]): a
    [TypeError] ([None]) on [null] and [undefined], the own property of
    an object, [undefined] on a primitive or an array. *)
Definition get (v : Value) (k : str) : option Value :=
  match v with
  | VUndefined | VNull => None
  | VObject props => Some (lookup k props)
  | _ => Some VUndefined
  end.

(** [props] without the key [k]. *)
Definition remove (k : str) (props : list (str * Value))
  : list (str * Value) :=
  List.filter (fun kv => negb (JS.eqb k (fst kv))) props.

(** [props] with [k] set to [v]: an existing key keeps its place. *)
Fixpoint set (k : str) (v : Value) (props : list (str * Value))
  : list (str * Value) :=
  match props with
  | [] => [(k, v)]
  | (k', v') :: props' =>
      if JS.eqb k k' then (k, v) :: props' else (k', v') :: set k v props'
  end.

(** The decimal digits of an array index. *)
Fixpoint digits (u : Decimal.uint) : str :=
  match u with
  | Decimal.Nil => []
  | Decimal.D0 u' => 48%N :: digits u'
  | Decimal.D1 u' => 49%N :: digits u'
  | Decimal.D2 u' => 50%N :: digits u'
  | Decimal.D3 u' => 51%N :: digits u'
  | Decimal.D4 u' => 52%N :: digits u'
  | Decimal.D5 u' => 53%N :: digits u'
  | Decimal.D6 u' => 54%N :: digits u'
  | Decimal.D7 u' => 55%N :: digits u'
  | Decimal.D8 u' => 56%N :: digits u'
  | Decimal.D9 u' => 57%N :: digits u'
  end.

Definition index_key (i : nat) : str := digits (Nat.to_uint i).

(** The own enumerable properties copied by the spread [{...v}]. *)
Definition own (v : Value) : list (str * Value) :=
  match v with
  | VObject props => props
  | VArray elements => imap (fun i x => (index_key i, x)) elements
  | VString s => imap (fun i u => (index_key i, VString [u])) s
  | _ => []
  end.
End Obj.

(** ** The remote model and the store *)

(** The record built for each ranked note in step 4 of [queryBrain]
    ([date] stands for the localized rendering of the timestamp). *)
Record ContextEntry := {
  ctx_id : str;
  ctx_summary : str;
  ctx_tags : list str;
  ctx_category : str;
  ctx_originalText : str;
  ctx_date : Z
}.

(** A prompt is represented by the values interpolated in its template. *)
Inductive Prompt :=
| AnalysisPrompt (existingCategories : list str) (language : Language)
| IntentPrompt (now : Z) (categories : list str) (language : Language)
    (query : str)
| AnswerPrompt (userQuery keywords : str) (memoryContext : list ContextEntry)
    (language : Language).

Inductive Part :=
| PromptPart (p : Prompt)
| TextPart (text : str)
| InlineDataPart (mimeType data : str).

(** [generateContent] either rejects or resolves to a response whose
    [text] may be undefined. *)
Inductive Response :=
| Rejected
| Fulfilled (text : option str).

Record ContentEmbedding := { values : option (list float) }.

Inductive EmbedResponse :=
| EmbedRejected
| EmbedFulfilled (embeddings : option (list ContentEmbedding)).

(** What the code is linked against: the two model endpoints (the
    embedding endpoint receives the value passed as [text]),
    [JSON.parse] ([None] when it throws),
    [String.prototype.toLowerCase], and the two conversions of
    ECMAScript between numbers and strings ([Number::toString] and
    [StringToNumber]). *)
Class Runtime := {
  generateContent : list Part -> Response;
  embedContent : Value -> EmbedResponse;
  JSON_parse : str -> option Value;
  toLowerCase : str -> str;
  NumberToString : float -> str;
  StringToNumber : str -> float
}.

Inductive Call :=
| GenerateContent (parts : list Part)
| EmbedContent (text : Value).

Record Scored := { memory : Memory.t; score : float }.

Record World := {
  memoryArrays : list (list Memory.t);   (* every [Memory[]] in existence *)
  scoredArrays : list (list Scored);     (* every [{memory, score}[]] *)
  calls : list Call;                     (* model calls, oldest first *)
  clock : Z                              (* [new Date()] *)
}.

Definition M (A : Type) : Type := World -> A * World.

Definition ret {A} (a : A) : M A := fun w => (a, w).

Definition bind {A B} (c : M A) (k : A -> M B) : M B :=
  fun w => let (a, w') := c w in k a w'.

Notation "'let!' x ':=' c 'in' k" := (bind c (fun x => k))
  (at level 10, x name, c at level 100, k at level 200).

(** A step that may throw: [None] is the exception, which ends the
    function or the [try] block it is in. *)
Notation "'let?' x ':=' e 'in' k" :=
  (match e with Some x => k | None => ret None end)
  (at level 10, x name, e at level 100, k at level 200).

Definition bindThrow {A B} (c : M (option A)) (k : A -> M (option B))
  : M (option B) :=
  let! r := c in
  match r with
  | Some a => k a
  | None => ret None
  end.

Notation "'let!?' x ':=' c 'in' k" := (bindThrow c (fun x => k))
  (at level 10, x name, c at level 100, k at level 200).

Definition try_catch {A} (body : M (option A)) (handler : M A) : M A :=
  let! r := body in
  match r with
  | Some a => ret a
  | None => handler
  end.

(** ** Store and log primitives *)

Definition readMemories (a : nat) : M (list Memory.t) :=
  fun w => (default [] (memoryArrays w !! a), w).

Definition newMemories (l : list Memory.t) : M nat :=
  fun w => (length (memoryArrays w),
            {| memoryArrays := memoryArrays w ++ [l];
               scoredArrays := scoredArrays w;
               calls := calls w; clock := clock w |}).

Definition writeMemories (a : nat) (l : list Memory.t) : M unit :=
  fun w => (tt,
            {| memoryArrays := <[a := l]> (memoryArrays w);
               scoredArrays := scoredArrays w;
               calls := calls w; clock := clock w |}).

Definition readScored (a : nat) : M (list Scored) :=
  fun w => (default [] (scoredArrays w !! a), w).

Definition newScored (l : list Scored) : M nat :=
  fun w => (length (scoredArrays w),
            {| memoryArrays := memoryArrays w;
               scoredArrays := scoredArrays w ++ [l];
               calls := calls w; clock := clock w |}).

Definition writeScored (a : nat) (l : list Scored) : M unit :=
  fun w => (tt,
            {| memoryArrays := memoryArrays w;
               scoredArrays := <[a := l]> (scoredArrays w);
               calls := calls w; clock := clock w |}).

Definition record (c : Call) : M unit :=
  fun w => (tt,
            {| memoryArrays := memoryArrays w;
               scoredArrays := scoredArrays w;
               calls := calls w ++ [c]; clock := clock w |}).

Definition Date_now : M Z := fun w => (clock w, w).

(** ** Array methods on stored arrays

    [filter], [map] and [slice] allocate their result; [sort] overwrites
    the array it is called on and returns the same reference. *)

(** [filter] with a callback that cannot throw. *)
Definition filterMemories (a : nat) (p : Memory.t -> bool) : M nat :=
  let! l := readMemories a in newMemories (List.filter p l).

(** [filter] with a callback that may throw: nothing is allocated then. *)
Definition tryFilterMemories (a : nat) (p : Memory.t -> option bool)
  : M (option nat) :=
  let! l := readMemories a in
  let? kept := JS.filterM p l in
  let! r := newMemories kept in
  ret (Some r).

Definition sortMemories (a : nat) (cmp : Memory.t -> Memory.t -> comparison)
  : M nat :=
  let! l := readMemories a in
  let! _ := writeMemories a (JS.sort cmp l) in
  ret a.

Definition sliceMemories (a : nat) (n : nat) : M nat :=
  let! l := readMemories a in newMemories (take n l).

Definition mapToScored (a : nat) (f : Memory.t -> Scored) : M nat :=
  let! l := readMemories a in newScored (map f l).

Definition sortScored (a : nat) (cmp : Scored -> Scored -> comparison) : M nat :=
  let! l := readScored a in
  let! _ := writeScored a (JS.sort cmp l) in
  ret a.

Definition sliceScored (a : nat) (n : nat) : M nat :=
  let! l := readScored a in newScored (take n l).

Definition mapToMemory (a : nat) (f : Scored -> Memory.t) : M nat :=
  let! l := readScored a in newMemories (map f l).

(** ** The service *)

Section Service.
Context {rt : Runtime}.

(** *** Conversions of values

    The values are those of [JSON.parse]: no property of theirs is a
    function.  An object has the methods of [Object.prototype] unless an
    own property hides them, an array those of [Array.prototype]. *)

(** [ToString], as in a template literal.  For an object,
    [OrdinaryToPrimitive] calls the inherited [toString] (the result is
    "[object Object]") unless an own property [toString] hides it, and
    then no method is left to call: a [TypeError].  For an array it is
    [join(",")], in which [null] and [undefined] are the empty string. *)
Fixpoint ToString (v : Value) : option str :=
  match v with
  | VUndefined => Some "undefined"
  | VNull => Some "null"
  | VBool true => Some "true"
  | VBool false => Some "false"
  | VNumber n => Some (NumberToString n)
  | VString s => Some s
  | VArray elements =>
      (fix join (l : list Value) : option str :=
         match l with
         | [] => Some []
         | x :: l' =>
             match
               match x with
               | VUndefined | VNull => Some []
               | _ => ToString x
               end,
               l'
             with
             | Some s, [] => Some s
             | Some s, _ :: _ =>
                 match join l' with
                 | Some r => Some (s ++ "," ++ r)
                 | None => None
                 end
             | None, _ => None
             end
         end) elements
  | VObject props =>
      if Obj.has "toString" props then None else Some "[object Object]"
  end.

(** [v.join(separator)]: only arrays have a [join] method. *)
Fixpoint joinElements (separator : str) (l : list Value) : option str :=
  match l with
  | [] => Some []
  | x :: l' =>
      match
        match x with
        | VUndefined | VNull => Some []
        | _ => ToString x
        end,
        l'
      with
      | Some s, [] => Some s
      | Some s, _ :: _ =>
          match joinElements separator l' with
          | Some r => Some (s ++ separator ++ r)
          | None => None
          end
      | None, _ => None
      end
  end.

Definition join (v : Value) (separator : str) : option str :=
  match v with
  | VArray elements => joinElements separator elements
  | _ => None
  end.

(** [ToPrimitive] with hint number, then [ToNumber]. *)
Definition ToPrimitive (v : Value) : option Value :=
  match v with
  | VArray _ | VObject _ =>
      match ToString v with
      | Some s => Some (VString s)
      | None => None
      end
  | _ => Some v
  end.

Definition ToNumber (v : Value) : option float :=
  match ToPrimitive v with
  | Some VUndefined => Some nan
  | Some VNull => Some 0%float
  | Some (VBool true) => Some 1%float
  | Some (VBool false) => Some 0%float
  | Some (VNumber n) => Some n
  | Some (VString s) => Some (StringToNumber s)
  | _ => None
  end.

(** [z < v] and [z > v] for a number [z] that holds an integer. *)
Definition lessThan (z : Z) (v : Value) : option bool :=
  match ToNumber v with
  | Some n => Some (Number.lt z n)
  | None => None
  end.

Definition greaterThan (z : Z) (v : Value) : option bool :=
  match ToNumber v with
  | Some n => Some (Number.gt z n)
  | None => None
  end.

(** [v.length > c]: reading [length] of [null] or [undefined] is a
    [TypeError]; a string and an array have their length, a boolean and
    a number have none ([undefined > c] is false), an object has the
    own property of that name, if any. *)
Definition lengthGreaterThan (v : Value) (c : nat) : option bool :=
  match v with
  | VUndefined | VNull => None
  | VBool _ | VNumber _ => Some false
  | VString s => Some (c <? length s)%nat
  | VArray elements => Some (c <? length elements)%nat
  | VObject props => lessThan (Z.of_nat c) (Obj.lookup "length" props)
  end.

(** [v.toLowerCase()]: only strings have the method. *)
Definition callToLowerCase (v : Value) : option str :=
  match v with
  | VString s => Some (toLowerCase s)
  | _ => None
  end.

(** [v.some(callback)]: only arrays have the method. *)
Definition callSome (v : Value) (callback : Value -> option bool)
  : option bool :=
  match v with
  | VArray elements => JS.someM callback elements
  | _ => None
  end.

(** *** The functions of the service *)

(** [await] of a model call: a rejection throws. *)
Definition await (r : Response) : option (option str) :=
  match r with
  | Rejected => None
  | Fulfilled text => Some text
  end.

(** [response.text] when it is truthy. *)
Definition truthyText (text : option str) : option str :=
  match text with
  | Some s => if JS.truthy s then Some s else None
  | None => None
  end.

Definition cleanBase64 (data : str) : str :=
  let strip p otherwise :=
    if JS.startsWith p data then JS.dropPrefix p data else otherwise in
  strip "data:image/png;base64,"
    (strip "data:image/jpeg;base64,"
       (strip "data:image/jpg;base64,"
          (strip "data:image/webp;base64," data))).

Definition getEmbedding (text : Value) : M (option (list float)) :=
  let! _ := record (EmbedContent text) in
  match embedContent text with
  | EmbedFulfilled (Some (e :: _)) => ret (values e)
  | _ => ret None
  end.

Definition embeddingValue (embedding : option (list float)) : Value :=
  match embedding with
  | Some e => VArray (map VNumber e)
  | None => VUndefined
  end.

Definition degradedResult (text : str) : Value :=
  VObject [("summary", VString (JS.slice0 50 text ++ "..."));
           ("tags", VArray [VString "uncategorized"]);
           ("category", VString "General")].

(** The [parts] of the annotation request. *)
Definition analysisParts (text : str) (base64Image : option str)
    (existingCategories : list str) (language : Language) : list Part :=
  [PromptPart (AnalysisPrompt existingCategories language)]
  ++ (if JS.truthy text then [TextPart text] else [])
  ++ match truthyText base64Image with
     | Some image => [InlineDataPart "image/jpeg" (cleanBase64 image)]
     | None => []
     end.

(** [textToEmbed], from the converted category, tags and summary. *)
Definition textToEmbed (category tags summary text : str) : str :=
  "Category: " ++ category ++ ". Tags: " ++ tags ++ ". Content: "
  ++ summary ++ ". " ++ text.

Definition analyzeContent (text : str) (base64Image : option str)
    (existingCategories : list str) (language : Language) : M Value :=
  let parts := analysisParts text base64Image existingCategories language in
  try_catch
    (let! _ := record (GenerateContent parts) in
     let? response := await (generateContent parts) in
     let? responseText := truthyText response in
     let? result := JSON_parse responseText in
     let? category := Obj.get result "category" in
     let? categoryText := ToString category in
     let? tags := Obj.get result "tags" in
     let? tagsText := join tags ", " in
     let? summary := Obj.get result "summary" in
     let? summaryText := ToString summary in
     let! embedding :=
       getEmbedding
         (VString (textToEmbed categoryText tagsText summaryText text)) in
     ret (Some (VObject (Obj.set "embedding" (embeddingValue embedding)
                           (Obj.own result)))))
    (ret (degradedResult text)).

Definition fallbackIntent (query : str) : Value :=
  VObject [("keywords", VString query);
           ("category", VNull);
           ("tags", VArray []);
           ("startDate", VNull);
           ("endDate", VNull)].

(** The value returned is the parsed JSON as it is: the cast
    [as ParsedIntent] checks nothing. *)
Definition parseSearchIntent (query : str) (categories : list str)
    (language : Language) : M Value :=
  let! now := Date_now in
  let parts := [PromptPart (IntentPrompt now categories language query)] in
  try_catch
    (let! _ := record (GenerateContent parts) in
     let? response := await (generateContent parts) in
     let? responseText := truthyText response in
     let? parsed := JSON_parse responseText in
     ret (Some parsed))
    (ret (fallbackIntent query)).

(** *** [queryBrain] *)

(** The callback of [memories.filter] (step 2); [None] when it throws. *)
Definition hardFilter (parsed : Value) (m : Memory.t) : option bool :=
  category ← Obj.get parsed "category";
  differs ←
    (if truthyValue category then
       requested ← callToLowerCase category;
       Some (negb (JS.eqb (toLowerCase (Memory.category m)) requested))
     else Some false);
  if differs : bool then Some false else
  tags ← Obj.get parsed "tags";
  tagged ← lengthGreaterThan tags 0;
  untagged ←
    (if tagged : bool then
       hasTag ←
         callSome tags
           (fun t =>
              lowered ← callToLowerCase t;
              Some (JS.includes (Memory.tags m) lowered));
       Some (negb hasTag)
     else Some false);
  if untagged : bool then Some false else
  startDate ← Obj.get parsed "startDate";
  early ←
    (if truthyValue startDate then lessThan (Memory.createdAt m) startDate
     else Some false);
  if early : bool then Some false else
  endDate ← Obj.get parsed "endDate";
  late ←
    (if truthyValue endDate then greaterThan (Memory.createdAt m) endDate
     else Some false);
  if late : bool then Some false else Some true.

(** The callback of [filteredMemories.map] and the two comparators. *)
Definition withScore (queryEmbedding : list float) (m : Memory.t) : Scored :=
  match Memory.embedding m with
  | None => {| memory := m; score := (-1)%float |}
  | Some embedding =>
      {| memory := m;
         score := cosineSimilarity (Some queryEmbedding) (Some embedding) |}
  end.

Definition byScore (a b : Scored) : comparison :=
  JS.signF (PrimFloat.sub (score b) (score a)).

Definition byRecency (a b : Memory.t) : comparison :=
  JS.signZ (Memory.createdAt b - Memory.createdAt a).

(** Step 3: from [filteredMemories] to [relevantMemories]; [None] when
    the test on [parsed.keywords] throws. *)
Definition rankMemories (parsed : Value) (filteredMemories : nat)
  : M (option nat) :=
  let? keywords := Obj.get parsed "keywords" in
  let? long :=
    if truthyValue keywords then lengthGreaterThan keywords 1
    else Some false in
  let! relevantMemories :=
    if long : bool then
      let! queryEmbedding := getEmbedding keywords in
      let! candidates := readMemories filteredMemories in
      match queryEmbedding with
      | Some queryEmbedding =>
          if (0 <? length candidates)%nat then
            let! memoriesWithScore :=
              mapToScored filteredMemories (withScore queryEmbedding) in
            let! sorted := sortScored memoriesWithScore byScore in
            let! top := sliceScored sorted 10 in
            mapToMemory top memory
          else sliceMemories filteredMemories 10
      | None => sliceMemories filteredMemories 10
      end
    else
      let! sorted := sortMemories filteredMemories byRecency in
      sliceMemories sorted 10 in
  ret (Some relevantMemories).

Definition contextEntry (m : Memory.t) : ContextEntry :=
  {| ctx_id := Memory.id m;
     ctx_summary := Memory.summary m;
     ctx_tags := Memory.tags m;
     ctx_category := Memory.category m;
     ctx_originalText :=
       match Memory.type m with
       | TEXT => Memory.originalContent m
       | _ => "[Image Content]"
       end;
     ctx_date := Memory.createdAt m |}.

(** What [queryBrain] resolves to: the properties other than
    [usedFilters], and [usedFilters] when the object has it. *)
Record QueryResult := {
  fields : list (str * Value);
  usedFilters : option Value
}.

Definition noMatches (language : Language) : str :=
  match language with
  | zh => "抱歉，根据您的过滤条件，我没有找到任何相关记忆。"
  | en => "Sorry, I couldn't find any memories matching those filters."
  end.

Definition apology (language : Language) : str :=
  match language with
  | zh => "抱歉，生成回答时出错了。"
  | en => "Sorry, I had trouble processing your request."
  end.

(** Steps 0 to 3: the parsed intent and the reference of
    [relevantMemories]. *)
Definition retrieve (userQuery : str) (memories : nat)
    (language : Language) : M (option (Value * nat)) :=
  let! notes := readMemories memories in
  let uniqueCategories := JS.distinct [] (map Memory.category notes) in
  let! parsed := parseSearchIntent userQuery uniqueCategories language in
  let!? filteredMemories := tryFilterMemories memories (hardFilter parsed) in
  let!? relevantMemories := rankMemories parsed filteredMemories in
  ret (Some (parsed, relevantMemories)).

(** [None] when the promise is rejected: a [TypeError] of steps 2 and 3
    or of the interpolation of [parsed.keywords] in the prompt, all
    outside the [try] block. *)
Definition queryBrain (userQuery : str) (memories : nat)
    (language : Language) : M (option QueryResult) :=
  let!? retrieved := retrieve userQuery memories language in
  let parsed := retrieved.1 in
  let relevantMemories := retrieved.2 in
  let! relevant := readMemories relevantMemories in
  if (length relevant =? 0)%nat then
    ret (Some {| fields := [("answer", VString (noMatches language));
                            ("relatedIds", VArray [])];
                 usedFilters := Some parsed |})
  else
    let memoryContext := map contextEntry relevant in
    let? keywords := Obj.get parsed "keywords" in
    let? keywordsText := ToString keywords in
    let parts :=
      [PromptPart (AnswerPrompt userQuery keywordsText memoryContext
                     language)] in
    let! result :=
      try_catch
        (let! _ := record (GenerateContent parts) in
         let? response := await (generateContent parts) in
         let? responseText := truthyText response in
         let? res := JSON_parse responseText in
         ret (Some {| fields := Obj.remove "usedFilters" (Obj.own res);
                      usedFilters := Some parsed |}))
        (ret {| fields := [("answer", VString (apology language));
                           ("relatedIds", VArray [])];
                usedFilters := None |}) in
    ret (Some result).
End Service.

(** ** The application around the service

    [src/App.tsx], [src/components/ChatInterface.tsx],
    [src/components/MemoryCard.tsx] and the composer of
    [src/components/InputArea.tsx]: the event handlers and the derived
    values, without the markup.  React state is a record; a state array
    is a reference into the store, so that [setMemories] allocates and
    the board's [sort] writes in place.  A handler reads the memoized
    values of the render it was created in: they are its parameters. *)

(** The unchecked casts of values that came from the model to the
    types declared for them in [src/types.ts] ([ProcessingResult] and
    the result of [queryBrain]). *)
Class Casts := {
  asString : Value -> str;
  asStringArray : Value -> list str
}.

(** A file picked by the user, by what [FileReader.readAsDataURL] does
    with it: [onerror], or [onload] with the data URL. *)
Inductive File :=
| Unreadable
| Readable (dataURL : str).

(** The messages of [TRANSLATIONS] used by the handlers. *)
Definition welcomeMessage (language : Language) : str :=
  match language with
  | en => "Hi! I am your Second Brain. Ask me anything about what you saved."
  | zh => "你好！我是你的第二大脑。你可以问我任何关于你保存的信息。"
  end.

Definition errorGeneric (language : Language) : str :=
  match language with
  | en => "Something went wrong."
  | zh => "出错了，请稍后再试。"
  end.

Module MemoryCard.

(** [memory.tags.slice(0, 3)], and the number on the "+n" badge when
    there is one. *)
Definition shownTags (m : Memory.t) : list str := take 3 (Memory.tags m).

Definition moreTags (m : Memory.t) : option nat :=
  if (3 <? length (Memory.tags m))%nat
  then Some (length (Memory.tags m) - 3)%nat
  else None.

(** Whether the picture and the text excerpt are rendered. *)
Definition showsImage (m : Memory.t) : bool :=
  match Memory.type m, truthyText (Memory.imageData m) with
  | IMAGE, Some _ => true
  | _, _ => false
  end.

Definition showsOriginalContent (m : Memory.t) : bool :=
  match Memory.type m with
  | TEXT => true
  | _ => false
  end.

End MemoryCard.

Module App.

Record State := {
  memories : nat;
  isProcessing : bool;
  selectedCategory : str;
  showChat : bool;
  highlightedIds : list str;
  language : Language
}.

(** The [categories] memo: ['All', ...Array.from(cats)], computed from
    the collection as it is when the memo runs. *)
Definition categories (notes : list Memory.t) : list str :=
  "All" :: JS.distinct [] (map Memory.category notes).

(** [categories.filter(c => c !== 'All')]. *)
Definition existingCats (categories : list str) : list str :=
  List.filter (fun c => negb (JS.eqb c "All")) categories.

(** The [filteredMemories] memo: the notes shown on the board. *)
Definition filteredMemories (memories : nat) (selectedCategory : str)
  : M nat :=
  let! result :=
    if negb (JS.eqb selectedCategory "All")
    then filterMemories memories
           (fun m => JS.eqb (Memory.category m) selectedCategory)
    else ret memories in
  sortMemories result byRecency.

(** [handleSubmit].  [id] is the value that [generateId()] returns and
    [categories] the value of the [categories] memo in the handler's
    closure; the second component of the result tells whether [alert]
    was called. *)
Definition handleSubmit {rt : Runtime} {casts : Casts} (id : str)
    (st : State) (categories : list str) (text : str) (image : option File)
  : M (State * bool) :=
  let! added :=
    match image with
    | Some Unreadable => ret None
    | _ =>
        let imageData :=
          match image with
          | Some (Readable dataURL) => Some dataURL
          | _ => None
          end in
        let! analysis :=
          analyzeContent text imageData (existingCats categories)
            (language st) in
        let? summary := Obj.get analysis "summary" in
        let? tags := Obj.get analysis "tags" in
        let? category := Obj.get analysis "category" in
        let! now := Date_now in
        let newMemory :=
          {| Memory.id := id;
             Memory.originalContent :=
               if JS.truthy text then text
               else match image with
                    | Some _ => "Image Upload"
                    | None => ""
                    end;
             Memory.type := match image with Some _ => IMAGE | None => TEXT end;
             Memory.imageData := truthyText imageData;
             Memory.summary := asString summary;
             Memory.tags := asStringArray tags;
             Memory.category := asString category;
             Memory.createdAt := now;
             Memory.embedding := None |} in
        let! prev := readMemories (memories st) in
        let! next := newMemories (newMemory :: prev) in
        ret (Some next)
    end in
  match added with
  | Some next =>
      ret ({| memories := next; isProcessing := false;
              selectedCategory := selectedCategory st;
              showChat := showChat st;
              highlightedIds := highlightedIds st;
              language := language st |}, false)
  | None =>
      ret ({| memories := memories st; isProcessing := false;
              selectedCategory := selectedCategory st;
              showChat := showChat st;
              highlightedIds := highlightedIds st;
              language := language st |}, true)
  end.

(** [handleHighlight], without the scrolling. *)
Definition handleHighlight (ids : list str) (st : State) : State :=
  {| memories := memories st; isProcessing := isProcessing st;
     selectedCategory :=
       if (0 <? length ids)%nat then "All" else selectedCategory st;
     showChat := showChat st;
     highlightedIds := ids;
     language := language st |}.

End App.

Module ChatInterface.

Inductive Role := user | model.

Record ChatMessage := {
  msg_role : Role;
  msg_text : str;
  msg_relatedMemoryIds : option (list str);
  msg_usedFilters : option Value
}.

Record State := {
  messages : list ChatMessage;
  input : str;
  isLoading : bool
}.

(** The effect that runs when the language changes. *)
Definition onLanguage (language : Language) (st : State) : State :=
  {| messages :=
       [{| msg_role := model; msg_text := welcomeMessage language;
           msg_relatedMemoryIds := None; msg_usedFilters := None |}];
     input := input st; isLoading := isLoading st |}.

(** The test [result.relatedIds && result.relatedIds.length > 0] on the
    value that the model returned; [None] when it throws. *)
Definition citesNotes {rt : Runtime} (relatedIds : Value) : option bool :=
  if truthyValue relatedIds then lengthGreaterThan relatedIds 0
  else Some false.

(** [handleSend]; [onHighlightMemories] is [App.handleHighlight].  The
    [catch] adds the generic error message when [queryBrain] rejects,
    and also when the test on [relatedIds] throws, after the model's
    message has been added. *)
Definition handleSend {rt : Runtime} {casts : Casts} (st : State)
    (app : App.State) : M (State * App.State) :=
  if negb (JS.truthy (JSString.trim (input st))) || isLoading st
  then ret (st, app)
  else
    let userMsg :=
      {| msg_role := user; msg_text := input st;
         msg_relatedMemoryIds := None; msg_usedFilters := None |} in
    let errorMsg :=
      {| msg_role := model; msg_text := errorGeneric (App.language app);
         msg_relatedMemoryIds := None; msg_usedFilters := None |} in
    let! outcome :=
      queryBrain (msg_text userMsg) (App.memories app) (App.language app) in
    match outcome with
    | Some result =>
        let relatedIds := Obj.lookup "relatedIds" (fields result) in
        let modelMsg :=
          {| msg_role := model;
             msg_text := asString (Obj.lookup "answer" (fields result));
             msg_relatedMemoryIds := Some (asStringArray relatedIds);
             msg_usedFilters := usedFilters result |} in
        match citesNotes relatedIds with
        | Some cites =>
            ret ({| messages := (messages st ++ [userMsg]) ++ [modelMsg];
                    input := ""; isLoading := false |},
                 if cites : bool
                 then App.handleHighlight (asStringArray relatedIds) app
                 else app)
        | None =>
            ret ({| messages :=
                      ((messages st ++ [userMsg]) ++ [modelMsg]) ++ [errorMsg];
                    input := ""; isLoading := false |},
                 app)
        end
    | None =>
        ret ({| messages := (messages st ++ [userMsg]) ++ [errorMsg];
                input := ""; isLoading := false |},
             app)
    end.

(** What [renderFilters] draws for filters of the declared type
    [SearchFilters]: [None] for [null], else the chips in their order. *)
Inductive Chip :=
| CategoryChip (category : str)
| TagChip (tag : str)
| DateChip.

Definition renderFilters (filters : option ParsedIntent.t)
  : option (list Chip) :=
  match filters with
  | None => None
  | Some filters =>
      let hasCategory :=
        match ParsedIntent.category filters with
        | Some category => JS.truthy category
        | None => false
        end in
      let truthyDate (d : option Z) :=
        match d with
        | Some d => negb (d =? 0)
        | None => false
        end in
      let hasDate :=
        truthyDate (ParsedIntent.startDate filters)
        || truthyDate (ParsedIntent.endDate filters) in
      let hasTags := (0 <? length (ParsedIntent.tags filters))%nat in
      if negb hasCategory && negb hasDate && negb hasTags then None
      else
        Some
          ((if hasCategory
            then match ParsedIntent.category filters with
                 | Some category => [CategoryChip category]
                 | None => []
                 end
            else [])
           ++ (if hasTags then map TagChip (ParsedIntent.tags filters) else [])
           ++ (if hasDate then [DateChip] else []))
  end.

End ChatInterface.

Module InputArea.

Record State := {
  text : str;
  image : option File
}.

(** [handleSubmit] of the composer; [onSubmit] is [App.handleSubmit].
    The last component tells whether [alert] was called. *)
Definition handleSubmit {rt : Runtime} {casts : Casts} (id : str)
    (st : State) (app : App.State) (categories : list str)
  : M (State * App.State * bool) :=
  match JS.truthy (JSString.trim (text st)), image st with
  | false, None => ret (st, app, false)
  | _, _ =>
      let! submitted :=
        App.handleSubmit id app categories (text st) (image st) in
      ret ({| text := ""; image := None |}, submitted.1, submitted.2)
  end.

(** [handleKeyDown]: Enter without Shift submits. *)
Definition handleKeyDown {rt : Runtime} {casts : Casts} (id : str)
    (key : str) (shiftKey : bool) (st : State) (app : App.State)
    (categories : list str) : M (State * App.State * bool) :=
  if JS.eqb key "Enter" && negb shiftKey
  then handleSubmit id st app categories
  else ret (st, app, false).

End InputArea.

(** * Vocabulary of the properties *)

(** [x] may stay before [y]: the comparator does not ask for [y] first. *)
Definition mayPrecede {A} (cmp : A -> A -> comparison) (x y : A) : Prop :=
  cmp x y <> Gt.

(** What ECMAScript asks of a comparator for the order of [sort] to be
    defined, on the elements of [l]: when it puts [b] before [a] it
    does not also put [a] before [b], and "may precede" is transitive. *)
Definition Consistent {A} (cmp : A -> A -> comparison) (l : list A) : Prop :=
  (forall a b, a ∈ l -> b ∈ l -> cmp a b = Gt -> cmp b a <> Gt) /\
  (forall a b c, a ∈ l -> b ∈ l -> c ∈ l ->
     cmp a b <> Gt -> cmp b c <> Gt -> cmp a c <> Gt).



(** The integer that a double holds, if it holds one. *)
Definition integerOf (f : float) : option Z :=
  match Prim2SF f with
  | S754_zero _ => Some 0
  | S754_finite negative m e =>
      let v := if negative then Z.neg m else Z.pos m in
      if 0 <=? e then Some (v * 2 ^ e)
      else if v mod 2 ^ (- e) =? 0 then Some (v / 2 ^ (- e))
      else None
  | _ => None
  end.

(** The intent that a value is, when it has the shape that the
    interface [ParsedIntent] and the response schema of the parser
    declare: an object with a string [keywords], a string or [null]
    [category], an array of strings [tags], and for each date [null] or
    a number that holds an integer. *)
Fixpoint readStrings (l : list Value) : option (list str) :=
  match l with
  | [] => Some []
  | VString s :: l' =>
      match readStrings l' with
      | Some r => Some (s :: r)
      | None => None
      end
  | _ :: _ => None
  end.

Definition readDate (v : Value) : option (option Z) :=
  match v with
  | VNull => Some None
  | VNumber f =>
      match integerOf f with
      | Some z => Some (Some z)
      | None => None
      end
  | _ => None
  end.

Definition readCategory (v : Value) : option (option str) :=
  match v with
  | VNull => Some None
  | VString c => Some (Some c)
  | _ => None
  end.

Definition readIntent (v : Value) : option ParsedIntent.t :=
  match v with
  | VObject props =>
      match Obj.lookup "keywords" props, Obj.lookup "tags" props with
      | VString keywords, VArray tags =>
          match readCategory (Obj.lookup "category" props), readStrings tags,
                readDate (Obj.lookup "startDate" props),
                readDate (Obj.lookup "endDate" props)
          with
          | Some category, Some tags, Some startDate, Some endDate =>
              Some (ParsedIntent.mk keywords category tags startDate endDate)
          | _, _, _, _ => None
          end
      | _, _ => None
      end
  | _ => None
  end.

Section Conditions.
Context {rt : Runtime}.

Definition lowercase (s : str) : Prop := toLowerCase s = s.

Definition sameIgnoringCase (s1 s2 : str) : Prop :=
  toLowerCase s1 = toLowerCase s2.

(** At least one requested tag matches a tag of the note,
    case-insensitively. *)
Definition sharesTag (requested : list str) (m : Memory.t) : Prop :=
  exists t u, t ∈ requested /\ u ∈ Memory.tags m /\ sameIgnoringCase t u.

(** At least one requested tag, once lower-cased, is a tag of the note
    as the note stores it. *)
Definition hasRequestedTag (requested : list str) (m : Memory.t) : Prop :=
  exists t, t ∈ requested /\ toLowerCase t ∈ Memory.tags m.

(** The four conditions as the specification words them: a filter is
    off exactly when its field is null (the tag list: empty). *)
Definition survivesAsStated (intent : ParsedIntent.t) (m : Memory.t) : Prop :=
  match ParsedIntent.category intent with
  | None => True
  | Some category => sameIgnoringCase (Memory.category m) category
  end /\
  (ParsedIntent.tags intent = [] \/ sharesTag (ParsedIntent.tags intent) m) /\
  match ParsedIntent.startDate intent with
  | None => True
  | Some startDate => startDate <= Memory.createdAt m
  end /\
  match ParsedIntent.endDate intent with
  | None => True
  | Some endDate => Memory.createdAt m <= endDate
  end.

(** The conditions that the code applies: the category and date filters
    are also off on the falsy values that its truthiness tests let
    through (the empty category and the zero timestamp), and a
    requested tag is lower-cased and then looked up among the stored
    tags. *)
Definition categoryCondition (intent : ParsedIntent.t) (m : Memory.t) : Prop :=
  match ParsedIntent.category intent with
  | None => True
  | Some category => category = [] \/ sameIgnoringCase (Memory.category m) category
  end.

Definition tagCondition (intent : ParsedIntent.t) (m : Memory.t) : Prop :=
  ParsedIntent.tags intent = []
  \/ hasRequestedTag (ParsedIntent.tags intent) m.

Definition startCondition (intent : ParsedIntent.t) (m : Memory.t) : Prop :=
  match ParsedIntent.startDate intent with
  | None => True
  | Some startDate => startDate = 0 \/ startDate <= Memory.createdAt m
  end.

Definition endCondition (intent : ParsedIntent.t) (m : Memory.t) : Prop :=
  match ParsedIntent.endDate intent with
  | None => True
  | Some endDate => endDate = 0 \/ Memory.createdAt m <= endDate
  end.

Definition survives (intent : ParsedIntent.t) (m : Memory.t) : Prop :=
  categoryCondition intent m /\ tagCondition intent m /\
  startCondition intent m /\ endCondition intent m.

(** A model call fails: it is rejected (transport error), its response
    has no text (empty response), or the text is not JSON ([JSON.parse]
    throws). *)
Definition callFails (response : Response) : Prop :=
  response = Rejected \/
  response = Fulfilled None \/
  response = Fulfilled (Some []) \/
  exists text, response = Fulfilled (Some text) /\ JSON_parse text = None.

(** The failures of the intent call as the claim lists them: a failed
    call, or output that is not an intent. *)
Definition intentCallFailsAsStated (response : Response) : Prop :=
  callFails response \/
  exists text v,
    response = Fulfilled (Some text) /\ JSON_parse text = Some v /\
    readIntent v = None.

(** The response schema of the annotation request: an object with a
    string [summary], an array of strings [tags] and a string
    [category]. *)
Definition isString (v : Value) : bool :=
  match v with
  | VString _ => true
  | _ => false
  end.

Definition conforms (v : Value) : bool :=
  match v with
  | VObject props =>
      isString (Obj.lookup "summary" props)
      && match Obj.lookup "tags" props with
         | VArray elements => forallb isString elements
         | _ => false
         end
      && isString (Obj.lookup "category" props)
  | _ => false
  end.

(** The failures of the annotation call as the claim lists them:
    a failed call or JSON that does not conform to the schema. *)
Definition annotationFailsAsStated (response : Response) : Prop :=
  callFails response \/
  exists text v,
    response = Fulfilled (Some text) /\ JSON_parse text = Some v /\
    conforms v = false.

(** The failures that reach the [catch]: a failed call, or JSON from
    which the text to embed cannot be built, because [tags] has no
    [join] (it is not an array; this includes the result [null], which
    has no property) or because the category, the summary or an element
    of [tags] cannot be converted to a string. *)
Definition annotationFails (response : Response) : Prop :=
  callFails response \/
  exists text v,
    response = Fulfilled (Some text) /\ JSON_parse text = Some v /\
    ((forall elements, Obj.get v "tags" <> Some (VArray elements)) \/
     (exists category,
        Obj.get v "category" = Some category /\ ToString category = None) \/
     (exists elements,
        Obj.get v "tags" = Some (VArray elements) /\
        joinElements ", " elements = None) \/
     (exists summary,
        Obj.get v "summary" = Some summary /\ ToString summary = None)).

End Conditions.

(** The test of step 3, [parsed.keywords && parsed.keywords.length > 1]:
    [None] when it throws. *)
Definition keywordsTest {rt : Runtime} (parsed : Value) : option bool :=
  match Obj.get parsed "keywords" with
  | Some keywords =>
      if truthyValue keywords then lengthGreaterThan keywords 1 else Some false
  | None => None
  end.



(** A call that asks the model to synthesize an answer. *)
Definition isSynthesisCall (c : Call) : Prop :=
  exists userQuery keywords memoryContext language,
    c = GenerateContent
          [PromptPart (AnswerPrompt userQuery keywords memoryContext language)].

(** The two zeros of binary64. *)
Definition isZero (x : float) : Prop := x = 0%float \/ x = (-0)%float.

(** A text made of white space only (or empty). *)
Definition blank (s : str) : bool := forallb JSString.isWhiteSpace s.

(** The first position of [x] in [l]. *)
Fixpoint firstIndex (x : str) (l : list str) : option nat :=
  match l with
  | [] => None
  | y :: l' =>
      if JS.eqb x y then Some O
      else match firstIndex x l' with
           | Some i => Some (S i)
           | None => None
           end
  end.

(** * Sample data *)

(** The platform of the examples.  Its [toLowerCase] folds the ASCII
    letters, as every implementation does on ASCII text; the examples
    convert no number to a string and no string to a number. *)
Definition asciiLower (s : str) : str :=
  map (fun u => if ((65 <=? u) && (u <=? 90))%N then (u + 32)%N else u) s.

Definition platform (generate : list Part -> Response)
    (embed : Value -> EmbedResponse) (parse : str -> option Value)
  : Runtime :=
  {| generateContent := generate;
     embedContent := embed;
     JSON_parse := parse;
     toLowerCase := asciiLower;
     NumberToString := fun _ => "NaN";
     StringToNumber := fun _ => nan |}.

Definition pastaNote : Memory.t :=
  Memory.mk "n1" "Boil the pasta for nine minutes" TEXT None
    "How long to boil pasta" ["pasta"] "Cooking" 1000 None.

Definition reactNote : Memory.t :=
  Memory.mk "n2" "Use keys in lists" TEXT None
    "A tip about list keys" ["react"] "Coding" 2000 None.

(** A note whose tag is not stored in lower case. *)
Definition shoutedNote : Memory.t :=
  Memory.mk "n3" "Hooks" TEXT None "A note on hooks" ["React"] "Coding" 2500 None.

Definition sampleWorld : World :=
  {| memoryArrays := [[pastaNote; reactNote]];
     scoredArrays := [];
     calls := [];
     clock := 5000 |}.

(** No model is reachable: every call is rejected. *)
Definition offline : Runtime :=
  platform (fun _ => Rejected) (fun _ => EmbedRejected) (fun _ => None).

(** Only the embedding endpoint answers, always with [vector]. *)
Definition embedsAs (vector : list float) : Runtime :=
  platform (fun _ => Rejected)
    (fun _ => EmbedFulfilled (Some [{| values := Some vector |}]))
    (fun _ => None).

Definition alignedNote : Memory.t :=
  Memory.mk "n4" "Fresh pasta recipe" TEXT None
    "Making pasta dough" ["pasta"] "Cooking" 3000 (Some [1%float]).


Definition worldOf (notes : list Memory.t) : World :=
  {| memoryArrays := [notes]; scoredArrays := []; calls := []; clock := 5000 |}.

Definition longNote : str :=
  "hello world this is a very long note content exceeding fifty chars".

(** A note in Chinese: 62 characters, each one code unit. *)
Definition chineseNote : str :=
  "今天学习了如何用函数式编程的思想来整理个人知识库并且把每一条笔记都加上合适的标签和分类以便以后能够快速地检索到需要的内容真好".

(** An intent written as the parser's JSON. *)
Definition intent (keywords : str) (category : Value) (tags : list str)
    (startDate endDate : Value) : Value :=
  VObject [("keywords", VString keywords);
           ("category", category);
           ("tags", VArray (map VString tags));
           ("startDate", startDate);
           ("endDate", endDate)].

(** An optional field of an intent: [null] when it is absent. *)
Definition orNull {A} (f : A -> Value) (x : option A) : Value :=
  match x with
  | Some a => f a
  | None => VNull
  end.

(** A model that answers every request with JSON that parses to
    [result], and embeds nothing. *)
Definition answers (result : Value) : Runtime :=
  platform (fun _ => Fulfilled (Some "json")) (fun _ => EmbedRejected)
    (fun _ => Some result).

(** A model that annotates every note as [result] and embeds every
    text as [vector]. *)
Definition annotatesAs (result : Value) (vector : list float) : Runtime :=
  platform (fun _ => Fulfilled (Some "annotation"))
    (fun _ => EmbedFulfilled (Some [{| values := Some vector |}]))
    (fun _ => Some result).

Definition pastaAnnotation : list (str * Value) :=
  [("summary", VString "How long to boil pasta");
   ("tags", VArray [VString "pasta"; VString "cooking"]);
   ("category", VString "Cooking")].

(** An annotation whose category cannot be converted to a string: the
    object has an own property [toString] that is not a function. *)
Definition opaqueAnnotation : Value :=
  VObject [("category", VObject [("toString", VNumber 0%float)]);
           ("tags", VArray []);
           ("summary", VString [])].

(** A model that reads every query as [parsed] and answers every
    synthesis request with JSON that parses to [res]. *)
Definition answersWith (parsed res : Value) : Runtime :=
  platform
    (fun parts =>
       match parts with
       | [PromptPart (IntentPrompt _ _ _ _)] => Fulfilled (Some "intent")
       | _ => Fulfilled (Some "answer")
       end)
    (fun _ => EmbedRejected)
    (fun text => if JS.eqb text "intent" then Some parsed else Some res).

Definition cookingIntent : Value :=
  intent "" (VString "cooking") [] VNull VNull.

Definition pastaAnswer : Value :=
  VObject [("answer", VString "Nine minutes.");
           ("relatedIds", VArray [VString "n1"]);
           ("usedFilters", VString "none")].

(** Casts that meet values of the declared types: a string is read as
    itself and an array of strings as the list of its elements. *)
Definition exactCasts : Casts :=
  {| asString := fun v => match v with VString s => s | _ => [] end;
     asStringArray := fun v =>
       match v with
       | VArray elements =>
           map (fun x => match x with VString s => s | _ => [] end) elements
       | _ => []
       end |}.

Definition freshApp : App.State :=
  {| App.memories := 0; App.isProcessing := false;
     App.selectedCategory := "Cooking"; App.showChat := true;
     App.highlightedIds := []; App.language := en |}.

Definition idleChat (input : str) : ChatInterface.State :=
  {| ChatInterface.messages :=
       [{| ChatInterface.msg_role := ChatInterface.model;
           ChatInterface.msg_text := welcomeMessage en;
           ChatInterface.msg_relatedMemoryIds := None;
           ChatInterface.msg_usedFilters := None |}];
     ChatInterface.input := input;
     ChatInterface.isLoading := false |}.

(** * Properties *)

(** ** The embedding at work *)

(** A literal is its UTF-16 code units: the Chinese character for "cat"
    is one unit, a character outside the basic plane two. *)
Example length_of_literals :
  length ("猫" : str) = 1%nat /\ length ("😀" : str) = 2%nat
  /\ length ("pasta" : str) = 5%nat.
Proof. repeat split. Qed.

(** [slice(0, 50)] keeps 50 code units of a Chinese text. *)
Example slice_counts_code_units :
  length chineseNote = 62%nat /\ length (JS.slice0 50 chineseNote) = 50%nat.
Proof. split; reflexivity. Qed.

(** [trim] removes the ideographic space U+3000. *)
Example trim_ideographic_space : JSString.trim [12288%N; 97%N; 12288%N] = "a".
Proof. reflexivity. Qed.

(** The stable sort by recency: the two notes created at 2000 keep their
    order. *)
Example sort_by_recency_is_stable :
  map Memory.id
    (JS.sort byRecency
       [pastaNote; reactNote;
        Memory.mk "n6" "" TEXT None "" [] "Coding" 2000 None])
  = ["n2"; "n6"; "n1"].
Proof. reflexivity. Qed.

(** The scenario of the specification: the query parses to the category
    "Coding" with no keywords; filtering keeps the Coding note, ranking
    returns it, and the synthesis request carries exactly one context
    entry.  Two calls are logged: intent parsing and synthesis. *)
Example coding_notes_scenario :
  calls
    (queryBrain (rt := answers (intent "" (VString "Coding") [] VNull VNull))
       "show coding notes" 0 en sampleWorld).2
  = [GenerateContent
       [PromptPart (IntentPrompt 5000 ["Cooking"; "Coding"] en "show coding notes")];
     GenerateContent
       [PromptPart
          (AnswerPrompt "show coding notes" ""
             [{| ctx_id := "n2"; ctx_summary := "A tip about list keys";
                 ctx_tags := ["react"]; ctx_category := "Coding";
                 ctx_originalText := "Use keys in lists"; ctx_date := 2000 |}]
             en)]].
Proof. reflexivity. Qed.

(** An intent that is [null]: the filter callback throws on the first
    note, and [queryBrain] rejects after the intent call. *)
Example null_intent_scenario :
  queryBrain (rt := answers VNull) "anything" 0 en sampleWorld
  = (None,
     {| memoryArrays := [[pastaNote; reactNote]];
        scoredArrays := [];
        calls :=
          [GenerateContent
             [PromptPart (IntentPrompt 5000 ["Cooking"; "Coding"] en "anything")]];
        clock := 5000 |}).
Proof. reflexivity. Qed.

(** ** The sort *)

Section SortFacts.
Context {A : Type} (cmp : A -> A -> comparison).



Lemma insert_Permutation x l : JS.insert cmp x l ≡ₚ x :: l.
Proof.
  induction l as [| y l IH]; simpl; [reflexivity |].
  destruct (cmp x y); try reflexivity.
  rewrite IH. apply Permutation_swap.
Qed.

Lemma sort_Permutation l : JS.sort cmp l ≡ₚ l.
Proof.
  induction l as [| x l IH]; simpl; [reflexivity |].
  unfold JS.sort in IH. rewrite insert_Permutation. by rewrite IH.
Qed.

Lemma sort_length l : length (JS.sort cmp l) = length l.
Proof. apply Permutation_length, sort_Permutation. Qed.

Lemma insert_StronglySorted S x l :
  Consistent cmp S -> x ∈ S -> l ⊆ S ->
  StronglySorted (mayPrecede cmp) l ->
  StronglySorted (mayPrecede cmp) (JS.insert cmp x l).
Proof.
  intros [Htot Htrans] Hx Hl Hs.
  induction Hs as [| y l Hs IH Hy]; simpl.
  - repeat constructor.
  - assert (HyS : y ∈ S) by (apply Hl; left).
    assert (HlS : l ⊆ S) by (intros z Hz; apply Hl; by right).
    assert (Hkeep : cmp x y <> Gt ->
              StronglySorted (mayPrecede cmp) (x :: y :: l)).
    { intros Hxy. constructor; [by constructor |].
      constructor; [exact Hxy |].
      rewrite Forall_forall in Hy |- *. intros z Hz.
      apply (Htrans x y z); [done | done | by apply HlS | done | by apply Hy]. }
    destruct (cmp x y) eqn:Hxy; try (apply Hkeep; congruence).
    constructor; [by apply IH |].
    rewrite Forall_forall in Hy |- *. intros z Hz.
    rewrite insert_Permutation in Hz.
    apply elem_of_cons in Hz as [-> | Hz]; [| by apply Hy].
    by apply Htot.
Qed.

Lemma sort_StronglySorted l :
  Consistent cmp l -> StronglySorted (mayPrecede cmp) (JS.sort cmp l).
Proof.
  intros Hc. unfold JS.sort.
  assert (Hsub : l ⊆ l) by done. revert Hsub.
  generalize l at 1 3 as l'.
  induction l' as [| x l' IH]; intros Hsub; simpl; [constructor |].
  eapply insert_StronglySorted; [exact Hc | apply Hsub; left | |].
  - intros z Hz. change (z ∈ JS.sort cmp l') in Hz.
    rewrite sort_Permutation in Hz. apply Hsub. by right.
  - apply IH. intros z Hz. apply Hsub. by right.
Qed.

End SortFacts.

(** ** Running the store operations *)

Lemma lookup_new {A} (h : list A) (x : A) : (h ++ [x]) !! length h = Some x.
Proof. by rewrite list_lookup_middle. Qed.

Lemma filterMemories_run a p w notes :
  memoryArrays w !! a = Some notes ->
  filterMemories a p w =
    (length (memoryArrays w),
     {| memoryArrays := memoryArrays w ++ [List.filter p notes];
        scoredArrays := scoredArrays w;
        calls := calls w; clock := clock w |}).
Proof.
  intros Ha. unfold filterMemories, bind, readMemories, newMemories.
  by rewrite Ha.
Qed.

Lemma sliceMemories_run a n w l :
  memoryArrays w !! a = Some l ->
  sliceMemories a n w =
    (length (memoryArrays w),
     {| memoryArrays := memoryArrays w ++ [take n l];
        scoredArrays := scoredArrays w;
        calls := calls w; clock := clock w |}).
Proof.
  intros Ha. unfold sliceMemories, bind, readMemories, newMemories.
  by rewrite Ha.
Qed.

Lemma sortMemories_run a cmp w l :
  memoryArrays w !! a = Some l ->
  sortMemories a cmp w =
    (a,
     {| memoryArrays := <[a := JS.sort cmp l]> (memoryArrays w);
        scoredArrays := scoredArrays w;
        calls := calls w; clock := clock w |}).
Proof.
  intros Ha. unfold sortMemories, bind, readMemories, writeMemories, ret.
  by rewrite Ha.
Qed.

Lemma tryFilterMemories_run a p w notes kept :
  memoryArrays w !! a = Some notes ->
  JS.filterM p notes = Some kept ->
  tryFilterMemories a p w =
    (Some (length (memoryArrays w)),
     {| memoryArrays := memoryArrays w ++ [kept];
        scoredArrays := scoredArrays w;
        calls := calls w; clock := clock w |}).
Proof.
  intros Ha Hkept.
  unfold tryFilterMemories, bind, readMemories, newMemories, ret.
  rewrite Ha. simpl. by rewrite Hkept.
Qed.

Lemma tryFilterMemories_throws a p w notes :
  memoryArrays w !! a = Some notes ->
  JS.filterM p notes = None ->
  tryFilterMemories a p w = (None, w).
Proof.
  intros Ha Hkept.
  unfold tryFilterMemories, bind, readMemories, ret.
  rewrite Ha. simpl. by rewrite Hkept.
Qed.

(** ** Strings and numbers *)

Lemma eqb_eq s t : JS.eqb s t = true <-> s = t.
Proof.
  revert t. induction s as [| u s IH]; intros [| v t]; simpl;
    try (split; [discriminate | discriminate]); [done |].
  rewrite andb_true_iff, N.eqb_eq, IH.
  split; [intros [-> ->]; done | intros [= -> ->]; done].
Qed.

Lemma eqb_refl s : JS.eqb s s = true.
Proof. by apply eqb_eq. Qed.

Lemma eqb_neq s t : JS.eqb s t = false <-> s <> t.
Proof.
  pose proof (eqb_eq s t) as Heq.
  destruct (JS.eqb s t); split; intros H; try done.
  - exfalso. apply H. by apply Heq.
  - intros Hst. apply Heq in Hst. discriminate.
Qed.

Lemma truthy_false s : JS.truthy s = false <-> s = [].
Proof. by destruct s. Qed.

Lemma truthy_true s : JS.truthy s = true <-> s <> [].
Proof. by destruct s. Qed.

Lemma includes_elem_of l x : JS.includes l x = true <-> x ∈ l.
Proof.
  unfold JS.includes. rewrite existsb_exists. split.
  - intros (y & Hy & Heq). apply eqb_eq in Heq as ->.
    by apply list_elem_of_In.
  - intros Hx. exists x. split; [by apply list_elem_of_In | apply eqb_refl].
Qed.

(** On a double that holds the integer [d], the comparisons with an
    integer and the truthiness are those of [d]. *)
Lemma compare_integerOf z f d :
  integerOf f = Some d -> Number.compare z f = Some (z ?= d).
Proof.
  unfold integerOf, Number.compare.
  destruct (Prim2SF f) as [s | s | | s m e]; try discriminate.
  - by intros [= <-].
  - set (v := if s then Z.neg m else Z.pos m).
    destruct (0 <=? e) eqn:He; [by intros [= <-] |].
    destruct (v mod 2 ^ (- e) =? 0) eqn:Hmod; [| discriminate].
    intros [= <-]. apply Z.eqb_eq in Hmod. apply Z.leb_gt in He.
    assert (Hpos : 0 < 2 ^ (- e)) by (apply Z.pow_pos_nonneg; lia).
    f_equal.
    rewrite (Z.div_mod v (2 ^ (- e))) at 1 by lia.
    rewrite Hmod, Z.add_0_r, (Z.mul_comm (2 ^ (- e))).
    symmetry. apply Zmult_compare_compat_r. lia.
Qed.

Lemma truthy_integerOf f d :
  integerOf f = Some d -> Number.truthy f = negb (d =? 0).
Proof.
  unfold integerOf, Number.truthy.
  destruct (Prim2SF f) as [s | s | | s m e]; try discriminate.
  - by intros [= <-].
  - set (v := if s then Z.neg m else Z.pos m).
    assert (Hv : v <> 0) by (unfold v; by destruct s).
    destruct (0 <=? e) eqn:He.
    + intros [= <-]. apply Z.leb_le in He.
      assert (Hpos : 0 < 2 ^ e) by (apply Z.pow_pos_nonneg; lia).
      symmetry. apply negb_true_iff, Z.eqb_neq. nia.
    + destruct (v mod 2 ^ (- e) =? 0) eqn:Hmod; [| discriminate].
      intros [= <-]. apply Z.eqb_eq in Hmod. apply Z.leb_gt in He.
      assert (Hpos : 0 < 2 ^ (- e)) by (apply Z.pow_pos_nonneg; lia).
      symmetry. apply negb_true_iff, Z.eqb_neq. intros Hzero.
      apply Hv. rewrite (Z.div_mod v (2 ^ (- e))) by lia.
      rewrite Hmod, Hzero. lia.
Qed.

Lemma lt_integerOf z f d : integerOf f = Some d -> Number.lt z f = (z <? d).
Proof.
  intros Hd. unfold Number.lt, Z.ltb. by rewrite (compare_integerOf z f d Hd).
Qed.

Lemma gt_integerOf z f d : integerOf f = Some d -> Number.gt z f = (d <? z).
Proof.
  intros Hd. unfold Number.gt. rewrite (compare_integerOf z f d Hd).
  rewrite Z.ltb_antisym, Z.leb_compare. by destruct (z ?= d).
Qed.

(** ** The hard filter (step 2) *)

Lemma readStrings_map l strings :
  readStrings l = Some strings -> l = map VString strings.
Proof.
  revert strings. induction l as [| v l IH]; intros strings; simpl.
  - by intros [= <-].
  - destruct v; try discriminate.
    destruct (readStrings l) as [r |]; [| discriminate].
    intros [= <-]. simpl. by rewrite (IH r).
Qed.

(** What a value that reads as an intent is made of. *)
Lemma readIntent_inv parsed intent :
  readIntent parsed = Some intent ->
  exists props,
    parsed = VObject props /\
    Obj.lookup "keywords" props = VString (ParsedIntent.keywords intent) /\
    readCategory (Obj.lookup "category" props)
    = Some (ParsedIntent.category intent) /\
    Obj.lookup "tags" props = VArray (map VString (ParsedIntent.tags intent)) /\
    readDate (Obj.lookup "startDate" props)
    = Some (ParsedIntent.startDate intent) /\
    readDate (Obj.lookup "endDate" props) = Some (ParsedIntent.endDate intent).
Proof.
  unfold readIntent. destruct parsed as [| | | | | | props]; try discriminate.
  destruct (Obj.lookup "keywords" props) as [| | | | keywords | |] eqn:Hk;
    try discriminate.
  destruct (Obj.lookup "tags" props) as [| | | | | tags |] eqn:Ht;
    try discriminate.
  destruct (readCategory (Obj.lookup "category" props)) as [category |] eqn:Hc;
    [| discriminate].
  destruct (readStrings tags) as [strings |] eqn:Hs; [| discriminate].
  destruct (readDate (Obj.lookup "startDate" props)) as [startDate |] eqn:Hsd;
    [| discriminate].
  destruct (readDate (Obj.lookup "endDate" props)) as [endDate |] eqn:Hed;
    [| discriminate].
  intros [= <-]. exists props. rewrite Hk, Ht, Hc, Hsd, Hed. simpl.
  by rewrite (readStrings_map _ _ Hs).
Qed.

Section HardFilter.
Context {rt : Runtime}.

(** The four guards of the callback, on the fields of an intent. *)
Lemma category_guard field category m :
  readCategory field = Some category ->
  exists a : bool,
    (if truthyValue field then
       requested ← callToLowerCase field;
       Some (negb (JS.eqb (toLowerCase (Memory.category m)) requested))
     else Some false) = Some (negb a) /\
    (a = true <->
     match category with
     | None => True
     | Some c => c = [] \/ sameIgnoringCase (Memory.category m) c
     end).
Proof.
  destruct field as [| | | | c | |]; try discriminate; intros [= <-]; simpl.
  - by exists true.
  - destruct (JS.truthy c) eqn:Hc; simpl.
    + exists (JS.eqb (toLowerCase (Memory.category m)) (toLowerCase c)).
      rewrite negb_involutive || idtac. split; [done |].
      rewrite eqb_eq. apply truthy_true in Hc.
      unfold sameIgnoringCase. split; [by right | by intros [? | ?]].
    + exists true. split; [done |]. apply truthy_false in Hc. by split; [left |].
Qed.

Lemma someM_strings (tags : list str) (stored : list str) :
  JS.someM
    (fun t =>
       lowered ← callToLowerCase t; Some (JS.includes stored lowered))
    (map VString tags)
  = Some (existsb (fun t => JS.includes stored (toLowerCase t)) tags).
Proof.
  induction tags as [| t tags IH]; simpl; [done |].
  destruct (JS.includes stored (toLowerCase t)); [done | exact IH].
Qed.

Lemma existsb_hasRequestedTag requested m :
  existsb (fun t => JS.includes (Memory.tags m) (toLowerCase t)) requested = true
  <-> hasRequestedTag requested m.
Proof.
  rewrite existsb_exists. unfold hasRequestedTag. split.
  - intros (t & Ht & Hin). exists t.
    split; [by apply list_elem_of_In | by apply includes_elem_of].
  - intros (t & Ht & Hin). exists t.
    split; [by apply list_elem_of_In | by apply includes_elem_of].
Qed.

Lemma tags_guard requested m :
  exists b : bool,
    (tagged ← lengthGreaterThan (VArray (map VString requested)) 0;
     if tagged : bool then
       hasTag ←
         callSome (VArray (map VString requested))
           (fun t =>
              lowered ← callToLowerCase t;
              Some (JS.includes (Memory.tags m) lowered));
       Some (negb hasTag)
     else Some false) = Some (negb b) /\
    (b = true <-> requested = [] \/ hasRequestedTag requested m).
Proof.
  simpl. rewrite length_map.
  destruct requested as [| t requested]; simpl.
  - exists true. split; [done |]. by split; [left |].
  - change (JS.someM _ (VString t :: map VString requested))
      with (JS.someM
              (fun t0 =>
                 lowered ← callToLowerCase t0;
                 Some (JS.includes (Memory.tags m) lowered))
              (map VString (t :: requested))).
    rewrite someM_strings. simpl.
    exists (existsb
              (fun t0 => JS.includes (Memory.tags m) (toLowerCase t0))
              (t :: requested)).
    split; [simpl; by destruct (JS.includes (Memory.tags m) (toLowerCase t)) |].
    rewrite existsb_hasRequestedTag. split; [by right | by intros [? | ?]].
Qed.

Lemma start_guard field startDate m :
  readDate field = Some startDate ->
  exists c : bool,
    (if truthyValue field then lessThan (Memory.createdAt m) field
     else Some false) = Some (negb c) /\
    (c = true <->
     match startDate with
     | None => True
     | Some s => s = 0 \/ s <= Memory.createdAt m
     end).
Proof.
  destruct field as [| | | f | | |]; try discriminate; simpl.
  - intros [= <-]. by exists true.
  - destruct (integerOf f) as [d |] eqn:Hd; [| discriminate].
    intros [= <-]. unfold lessThan. simpl.
    rewrite (truthy_integerOf f d Hd), (lt_integerOf _ f d Hd).
    destruct (Z.eqb_spec d 0) as [-> | Hd0]; simpl.
    + exists true. split; [done |]. by split; [left |].
    + exists (negb (Memory.createdAt m <? d)).
      split; [by rewrite negb_involutive |].
      rewrite negb_true_iff, Z.ltb_ge. split; [by right | intros [? | ?]; done].
Qed.

Lemma end_guard field endDate m :
  readDate field = Some endDate ->
  exists d : bool,
    (if truthyValue field then greaterThan (Memory.createdAt m) field
     else Some false) = Some (negb d) /\
    (d = true <->
     match endDate with
     | None => True
     | Some e => e = 0 \/ Memory.createdAt m <= e
     end).
Proof.
  destruct field as [| | | f | | |]; try discriminate; simpl.
  - intros [= <-]. by exists true.
  - destruct (integerOf f) as [e |] eqn:He; [| discriminate].
    intros [= <-]. unfold greaterThan. simpl.
    rewrite (truthy_integerOf f e He), (gt_integerOf _ f e He).
    destruct (Z.eqb_spec e 0) as [-> | He0]; simpl.
    + exists true. split; [done |]. by split; [left |].
    + exists (negb (e <? Memory.createdAt m)).
      split; [by rewrite negb_involutive |].
      rewrite negb_true_iff, Z.ltb_ge. split; [by right | intros [? | ?]; done].
Qed.

(** On a value that reads as an intent the callback does not throw, and
    it returns the conjunction of four tests, one for each condition. *)
Lemma hardFilter_conditions parsed intent m :
  readIntent parsed = Some intent ->
  exists a b c d : bool,
    hardFilter parsed m = Some (a && b && c && d) /\
    (a = true <-> categoryCondition intent m) /\
    (b = true <-> tagCondition intent m) /\
    (c = true <-> startCondition intent m) /\
    (d = true <-> endCondition intent m).
Proof.
  intros Hread.
  destruct (readIntent_inv _ _ Hread)
    as (props & -> & _ & Hcategory & Htags & Hstart & Hend).
  destruct (category_guard _ _ m Hcategory) as (a & Ha & Hacond).
  destruct (tags_guard (ParsedIntent.tags intent) m) as (b & Hb & Hbcond).
  destruct (start_guard _ _ m Hstart) as (c & Hc & Hccond).
  destruct (end_guard _ _ m Hend) as (d & Hd & Hdcond).
  exists a, b, c, d.
  split; [| exact (conj Hacond (conj Hbcond (conj Hccond Hdcond)))].
  unfold hardFilter. cbn [Obj.get mbind option_bind].
  rewrite Ha. cbn [mbind option_bind].
  destruct a; cbn [negb andb]; [| done].
  rewrite Htags.
  change (lengthGreaterThan (VArray (map VString (ParsedIntent.tags intent))) 0
          ≫= _)
    with (tagged ←
            lengthGreaterThan (VArray (map VString (ParsedIntent.tags intent))) 0;
          untagged ←
            (if tagged : bool then
               hasTag ←
                 callSome (VArray (map VString (ParsedIntent.tags intent)))
                   (fun t =>
                      lowered ← callToLowerCase t;
                      Some (JS.includes (Memory.tags m) lowered));
               Some (negb hasTag)
             else Some false);
          if untagged : bool then Some false
          else
            startDate ← Some (Obj.lookup "startDate" props);
            early ←
              (if truthyValue startDate
               then lessThan (Memory.createdAt m) startDate
               else Some false);
            if early : bool then Some false
            else
              endDate ← Some (Obj.lookup "endDate" props);
              late ←
                (if truthyValue endDate
                 then greaterThan (Memory.createdAt m) endDate
                 else Some false);
              if late : bool then Some false else Some true).
  revert Hb. simpl lengthGreaterThan.
  cbn [mbind option_bind].
  destruct (0 <? length (map VString (ParsedIntent.tags intent)))%nat.
  - destruct (callSome _ _) as [hasTag |]; [| discriminate].
    cbn [mbind option_bind]. intros [= ->].
    destruct b; cbn [negb andb]; [| done].
    rewrite Hc. cbn [mbind option_bind].
    destruct c; cbn [negb andb]; [| done].
    rewrite Hd. cbn [mbind option_bind]. by destruct d.
  - intros [= Hb]. destruct b; [| discriminate]. cbn [negb andb].
    rewrite Hc. cbn [mbind option_bind].
    destruct c; cbn [negb andb]; [| done].
    rewrite Hd. cbn [mbind option_bind]. by destruct d.
Qed.

Lemma hardFilter_survives parsed intent m :
  readIntent parsed = Some intent ->
  exists keep : bool,
    hardFilter parsed m = Some keep /\ (keep = true <-> survives intent m).
Proof.
  intros Hread.
  destruct (hardFilter_conditions parsed intent m Hread)
    as (a & b & c & d & Hrun & Ha & Hb & Hc & Hd).
  exists (a && b && c && d). split; [exact Hrun |].
  unfold survives. rewrite <- Ha, <- Hb, <- Hc, <- Hd, !andb_true_iff. tauto.
Qed.

(** For a note that stores its tags in lower case, finding a lower-cased
    request among them is matching a tag case-insensitively. *)
Lemma hasRequestedTag_sharesTag requested m :
  Forall lowercase (Memory.tags m) ->
  hasRequestedTag requested m <-> sharesTag requested m.
Proof.
  intros Hlow. rewrite Forall_forall in Hlow. split.
  - intros (t & Ht & Hin). exists t, (toLowerCase t).
    split; [done |]. split; [done |].
    unfold sameIgnoringCase. symmetry. by apply Hlow.
  - intros (t & u & Ht & Hu & Htu). exists t. split; [done |].
    unfold sameIgnoringCase in Htu. by rewrite Htu, (Hlow u Hu).
Qed.

End HardFilter.

Lemma sublist_filter_bool {A} (p : A -> bool) (l : list A) :
  sublist (List.filter p l) l.
Proof.
  induction l as [| x l IH]; simpl; [constructor |].
  destruct (p x); by constructor.
Qed.

Lemma elem_of_filter_bool {A} (p : A -> bool) (l : list A) (x : A) :
  x ∈ List.filter p l <-> x ∈ l /\ p x = true.
Proof. rewrite !list_elem_of_In. apply filter_In. Qed.

(** A callback that does not throw on the elements of [l] filters [l]
    as the predicate that it computes. *)
Lemma filterM_total {A} (p : A -> option bool) (q : A -> Prop) (l : list A) :
  (forall x, x ∈ l -> exists keep : bool, p x = Some keep /\ (keep = true <-> q x)) ->
  exists kept,
    JS.filterM p l = Some kept /\ sublist kept l /\
    forall x, x ∈ kept <-> x ∈ l /\ q x.
Proof.
  induction l as [| y l IH]; intros Hp; simpl.
  - exists []. split; [done |]. split; [constructor |].
    intros x. split; [intros H; inversion H | intros [H _]; inversion H].
  - destruct (Hp y) as (keep & Hy & Hq); [by left |].
    destruct IH as (kept & Hkept & Hsub & Hin);
      [intros x Hx; apply Hp; by right |].
    rewrite Hy, Hkept. destruct keep.
    + exists (y :: kept). split; [done |]. split; [by constructor |].
      intros x. rewrite !elem_of_cons, Hin.
      split; [intros [-> | [? ?]]; [split; [by left | by apply Hq] | auto] |].
      intros [[-> | ?] ?]; auto.
    + exists kept. split; [done |]. split; [by constructor |].
      intros x. rewrite elem_of_cons, Hin.
      split; [intros [? ?]; auto |].
      intros [[-> | ?] Hx]; [| auto].
      apply Hq in Hx. discriminate.
Qed.

(** C1 (as amended).  For a value that reads as an intent, step 2 of
    [queryBrain] does not throw and allocates the candidate list; a note
    is in it if and only if it is in the collection and (a) the
    requested category is null, empty or equal to the note's category
    ignoring case, (b) no tag is requested or a requested tag, once
    lower-cased, is one of the note's tags as stored, (c) [startDate]
    is null, zero or at most [createdAt], (d) [endDate] is null, zero
    or at least [createdAt]; the candidates are a subsequence of the
    collection, so they keep their order.  For a note whose tags are
    stored in lower case, (b) says that a requested tag and a tag of
    the note are equal ignoring case. *)
Theorem hard_filter_characterization (rt : Runtime)
    (w : World) (memories : nat) (notes : list Memory.t)
    (parsed : Value) (intent : ParsedIntent.t) :
  memoryArrays w !! memories = Some notes ->
  readIntent parsed = Some intent ->
  exists candidates,
    tryFilterMemories memories (hardFilter parsed) w
    = (Some (length (memoryArrays w)),
       {| memoryArrays := memoryArrays w ++ [candidates];
          scoredArrays := scoredArrays w;
          calls := calls w; clock := clock w |}) /\
    (forall m, m ∈ candidates <-> m ∈ notes /\ survives intent m) /\
    sublist candidates notes /\
    (forall m, Forall lowercase (Memory.tags m) ->
       (tagCondition intent m
        <-> ParsedIntent.tags intent = []
            \/ sharesTag (ParsedIntent.tags intent) m)).
Proof.
  intros Hnotes Hread.
  destruct (filterM_total (hardFilter parsed) (survives intent) notes)
    as (candidates & Hkept & Hsub & Hin).
  { intros m _. by apply hardFilter_survives. }
  exists candidates.
  split; [by apply (tryFilterMemories_run _ _ _ notes) |].
  split; [exact Hin |]. split; [exact Hsub |].
  intros m Hlow. unfold tagCondition.
  by rewrite (hasRequestedTag_sharesTag _ m Hlow).
Qed.

Lemma hard_filter_characterization_witness :
  exists candidates,
    tryFilterMemories 0
      (hardFilter (rt := offline) (intent "" (VString "coding") [] VNull VNull))
      sampleWorld
    = (Some 1%nat,
       {| memoryArrays := [[pastaNote; reactNote]; candidates];
          scoredArrays := []; calls := []; clock := 5000 |}) /\
    (forall m,
       m ∈ candidates <->
       m ∈ [pastaNote; reactNote] /\
       survives (rt := offline)
         (ParsedIntent.mk "" (Some "coding") [] None None) m).
Proof.
  destruct (hard_filter_characterization offline sampleWorld 0
              [pastaNote; reactNote]
              (intent "" (VString "coding") [] VNull VNull)
              (ParsedIntent.mk "" (Some "coding") [] None None))
    as (candidates & Hrun & Hin & _); [reflexivity | reflexivity |].
  exists candidates. split; [exact Hrun | exact Hin].
Defined.

(** The claim as stated fails in two ways.  On an intent whose category
    is the empty string the category test is skipped: the Cooking note
    is a candidate, yet its category is not the requested one.  And a
    requested tag is looked up among the stored tags as they are: the
    note tagged "React" is not a candidate for the requested tag
    "react", which it matches ignoring case. *)
Lemma hard_filter_as_stated_counterexample :
  (readIntent (intent "" (VString "") [] VNull VNull)
   = Some (ParsedIntent.mk "" (Some "") [] None None) /\
   JS.filterM
     (hardFilter (rt := offline) (intent "" (VString "") [] VNull VNull))
     [pastaNote; reactNote]
   = Some [pastaNote; reactNote] /\
   ~ survivesAsStated (rt := offline)
       (ParsedIntent.mk "" (Some "") [] None None) pastaNote) /\
  (readIntent (intent "" VNull ["react"] VNull VNull)
   = Some (ParsedIntent.mk "" None ["react"] None None) /\
   JS.filterM
     (hardFilter (rt := offline) (intent "" VNull ["react"] VNull VNull))
     [shoutedNote]
   = Some [] /\
   survivesAsStated (rt := offline)
     (ParsedIntent.mk "" None ["react"] None None) shoutedNote).
Proof.
  split.
  - split; [reflexivity |]. split; [reflexivity |].
    intros (Hcategory & _). discriminate Hcategory.
  - split; [reflexivity |]. split; [reflexivity |].
    split; [exact I |]. split; [| split; exact I].
    right. exists "react", "React".
    split; [by left |]. split; [by left | reflexivity].
Qed.

(** C10.  A [startDate] of 0, an [endDate] of 0 and an empty [category]
    are falsy, and the test they guard is skipped: with [startDate] 0 a
    note is a candidate exactly when it meets the category, tag and end
    conditions, whatever its [createdAt] is, and likewise for the two
    other fields.  In particular, when the category is empty, no tag is
    requested and both dates are 0, every note passes the filter. *)
Theorem falsy_filter_values_disable_filtering (rt : Runtime)
    (parsed : Value) (intent : ParsedIntent.t) (m : Memory.t) :
  readIntent parsed = Some intent ->
  (ParsedIntent.startDate intent = Some 0 ->
   (hardFilter parsed m = Some true
    <-> categoryCondition intent m /\ tagCondition intent m
        /\ endCondition intent m)) /\
  (ParsedIntent.endDate intent = Some 0 ->
   (hardFilter parsed m = Some true
    <-> categoryCondition intent m /\ tagCondition intent m
        /\ startCondition intent m)) /\
  (ParsedIntent.category intent = Some [] ->
   (hardFilter parsed m = Some true
    <-> tagCondition intent m /\ startCondition intent m
        /\ endCondition intent m)) /\
  (ParsedIntent.category intent = Some [] ->
   ParsedIntent.tags intent = [] ->
   ParsedIntent.startDate intent = Some 0 ->
   ParsedIntent.endDate intent = Some 0 ->
   hardFilter parsed m = Some true).
Proof.
  intros Hread.
  destruct (hardFilter_conditions parsed intent m Hread)
    as (a & b & c & d & Hrun & Ha & Hb & Hc & Hd).
  rewrite Hrun.
  assert (Hkeep : Some (a && b && c && d) = Some true
                  <-> categoryCondition intent m /\ tagCondition intent m
                      /\ startCondition intent m /\ endCondition intent m).
  { rewrite <- Ha, <- Hb, <- Hc, <- Hd. split.
    - intros [= H]. rewrite !andb_true_iff in H. tauto.
    - intros (-> & -> & -> & ->). done. }
  assert (Hstart : ParsedIntent.startDate intent = Some 0 ->
                   startCondition intent m)
    by (unfold startCondition; intros ->; by left).
  assert (Hend : ParsedIntent.endDate intent = Some 0 -> endCondition intent m)
    by (unfold endCondition; intros ->; by left).
  assert (Hcategory : ParsedIntent.category intent = Some [] ->
                      categoryCondition intent m)
    by (unfold categoryCondition; intros ->; by left).
  assert (Htags : ParsedIntent.tags intent = [] -> tagCondition intent m)
    by (unfold tagCondition; intros ->; by left).
  rewrite Hkeep. repeat split; tauto.
Qed.

Lemma falsy_filter_values_disable_filtering_witness :
  hardFilter (rt := offline)
    (intent "" (VString "") [] (VNumber 0%float) (VNumber 0%float))
    (Memory.mk "n7" "" TEXT None "" [] "Old" (-5) None)
  = Some true.
Proof.
  destruct (falsy_filter_values_disable_filtering offline
              (intent "" (VString "") [] (VNumber 0%float) (VNumber 0%float))
              (ParsedIntent.mk "" (Some "") [] (Some 0) (Some 0))
              (Memory.mk "n7" "" TEXT None "" [] "Old" (-5) None) eq_refl)
    as (_ & _ & _ & Hall).
  apply Hall; reflexivity.
Defined.

(** ** Ranking (step 3) *)

(** The recency comparator puts [x] before [y] unless [y] is strictly
    more recent; on integers it is consistent on every list. *)
Lemma byRecency_mayPrecede x y :
  mayPrecede byRecency x y <-> Memory.createdAt y <= Memory.createdAt x.
Proof.
  unfold mayPrecede, byRecency, JS.signZ.
  destruct (Z.compare_spec (Memory.createdAt y - Memory.createdAt x) 0);
    split; intros; try congruence; try lia.
Qed.

Lemma byRecency_Consistent l : Consistent byRecency l.
Proof.
  split.
  - intros a b _ _ Hab. apply byRecency_mayPrecede.
    assert (Hn : ~ mayPrecede byRecency a b) by (intros Hn; by apply Hn).
    rewrite byRecency_mayPrecede in Hn. lia.
  - intros a b c _ _ _ Hab Hbc.
    apply byRecency_mayPrecede in Hab, Hbc. apply byRecency_mayPrecede. lia.
Qed.

Lemma StronglySorted_weaken {A} (R R' : A -> A -> Prop) (l : list A) :
  (forall x y, R x y -> R' x y) ->
  StronglySorted R l -> StronglySorted R' l.
Proof.
  intros HR Hs. induction Hs as [| x l Hs IH Hx]; constructor; [done |].
  eapply Forall_impl; [exact Hx | by intros y; apply HR].
Qed.


Lemma getEmbedding_run (rt : Runtime) text w :
  getEmbedding text w =
    ((getEmbedding text w).1,
     {| memoryArrays := memoryArrays w;
        scoredArrays := scoredArrays w;
        calls := calls w ++ [EmbedContent text]; clock := clock w |}).
Proof.
  unfold getEmbedding, bind, record.
  destruct (embedContent text) as [| [[| e es] |]]; reflexivity.
Qed.

Lemma insert_new {A} (h : list A) (x y : A) :
  <[length h := y]> (h ++ [x]) = h ++ [y].
Proof.
  rewrite insert_app_r_alt by lia. by rewrite Nat.sub_diag.
Qed.

(** The store after the scored branch of step 3: one new [Memory[]]
    holding the top of the sorted scores; the scored array was sorted in
    place and then sliced. *)
Lemma scored_branch_run filteredMemories queryEmbedding w candidates :
  memoryArrays w !! filteredMemories = Some candidates ->
  (let! memoriesWithScore :=
     mapToScored filteredMemories (withScore queryEmbedding) in
   let! sorted := sortScored memoriesWithScore byScore in
   let! top := sliceScored sorted 10 in
   mapToMemory top memory) w =
  (length (memoryArrays w),
   {| memoryArrays :=
        memoryArrays w ++
        [map memory
           (take 10 (JS.sort byScore (map (withScore queryEmbedding) candidates)))];
      scoredArrays :=
        (scoredArrays w ++
         [JS.sort byScore (map (withScore queryEmbedding) candidates)]) ++
        [take 10 (JS.sort byScore (map (withScore queryEmbedding) candidates))];
      calls := calls w; clock := clock w |}).
Proof.
  intros Hcand.
  cbv [bind mapToScored sortScored sliceScored mapToMemory
       readMemories readScored newScored writeScored newMemories ret].
  rewrite Hcand. simpl.
  rewrite lookup_new. simpl.
  rewrite insert_new, lookup_new. simpl.
  rewrite !lookup_new. reflexivity.
Qed.

Lemma memory_withScore queryEmbedding m : memory (withScore queryEmbedding m) = m.
Proof. unfold withScore. by destruct (Memory.embedding m). Qed.

Lemma map_memory_withScore queryEmbedding l :
  map memory (map (withScore queryEmbedding) l) = l.
Proof.
  rewrite map_map. rewrite <- (map_id l) at 2.
  apply map_ext. intros m. apply memory_withScore.
Qed.


(** Step 3 throws exactly when its test does, and then nothing has
    been done. *)
Lemma rankMemories_throws (rt : Runtime) parsed filteredMemories w :
  keywordsTest parsed = None ->
  rankMemories parsed filteredMemories w = (None, w).
Proof.
  unfold keywordsTest, rankMemories.
  destruct (Obj.get parsed "keywords") as [keywords |]; [| done].
  by intros ->.
Qed.

(** The outcome of step 3 when the test fails: the candidates are
    sorted in place by recency and sliced. *)
Lemma rank_by_recency_run (rt : Runtime) parsed filteredMemories w candidates :
  keywordsTest parsed = Some false ->
  memoryArrays w !! filteredMemories = Some candidates ->
  rankMemories parsed filteredMemories w =
  (Some (length (memoryArrays w)),
   {| memoryArrays :=
        <[filteredMemories := JS.sort byRecency candidates]> (memoryArrays w)
        ++ [take 10 (JS.sort byRecency candidates)];
      scoredArrays := scoredArrays w;
      calls := calls w; clock := clock w |}).
Proof.
  unfold keywordsTest, rankMemories.
  destruct (Obj.get parsed "keywords") as [keywords |]; [| done].
  intros -> Hcand.
  pose proof (lookup_lt_Some _ _ _ Hcand) as Hlt.
  unfold bind. rewrite (sortMemories_run _ _ _ _ Hcand).
  erewrite sliceMemories_run
    by (simpl; apply list_lookup_insert_eq; exact Hlt).
  simpl. by rewrite length_insert.
Qed.

(** The outcome of step 3 when the test succeeds. *)
Lemma rank_by_score_run (rt : Runtime) parsed keywords filteredMemories w
    candidates :
  Obj.get parsed "keywords" = Some keywords ->
  keywordsTest parsed = Some true ->
  memoryArrays w !! filteredMemories = Some candidates ->
  rankMemories parsed filteredMemories w =
  (Some (length (memoryArrays w)),
   match (getEmbedding keywords w).1, candidates with
   | Some queryEmbedding, _ :: _ =>
       let sorted :=
         JS.sort byScore (map (withScore queryEmbedding) candidates) in
       {| memoryArrays := memoryArrays w ++ [map memory (take 10 sorted)];
          scoredArrays := (scoredArrays w ++ [sorted]) ++ [take 10 sorted];
          calls := calls w ++ [EmbedContent keywords];
          clock := clock w |}
   | _, _ =>
       {| memoryArrays := memoryArrays w ++ [take 10 candidates];
          scoredArrays := scoredArrays w;
          calls := calls w ++ [EmbedContent keywords];
          clock := clock w |}
   end).
Proof.
  unfold keywordsTest, rankMemories. intros ->. intros -> Hcand.
  unfold bind at 1. unfold bind at 1.
  rewrite (getEmbedding_run rt keywords w) at 1.
  set (w1 := {| memoryArrays := memoryArrays w;
                scoredArrays := scoredArrays w;
                calls := calls w ++ [EmbedContent keywords];
                clock := clock w |}).
  assert (Hcand1 : memoryArrays w1 !! filteredMemories = Some candidates)
    by exact Hcand.
  unfold bind at 1, readMemories at 1. rewrite Hcand1. simpl.
  destruct ((getEmbedding keywords w).1) as [queryEmbedding |]; cbv beta iota;
    [| by rewrite (sliceMemories_run _ _ _ _ Hcand1)].
  destruct candidates as [| c cs];
    [change (0 <? length [])%nat with false; cbv beta iota;
     by rewrite (sliceMemories_run _ _ _ _ Hcand1) |].
  change (0 <? length (c :: cs))%nat with true. cbv beta iota.
  by rewrite (scored_branch_run _ _ _ _ Hcand1).
Qed.

(** The test on keywords that are a string counts its code units. *)
Lemma keywordsTest_string (rt : Runtime) parsed keywords :
  Obj.get parsed "keywords" = Some (VString keywords) ->
  keywordsTest parsed = Some (1 <? length keywords)%nat.
Proof.
  unfold keywordsTest. intros ->. simpl.
  destruct (JS.truthy keywords) eqn:Ht; [done |].
  apply truthy_false in Ht. by subst.
Qed.






(** ** Fallbacks of the model calls *)

(** C6 (as amended).  [parseSearchIntent] never raises.  Whenever the
    intent call is rejected (transport error), its response has no text
    (empty response) or the text is not JSON, it returns exactly the
    intent whose keywords are the query, with a null category, no tag
    and null dates.  Text that is JSON is returned as parsed, whatever
    it holds: the cast to [ParsedIntent] checks nothing. *)
Theorem intent_parser_fallback (rt : Runtime) (w : World) (query : str)
    (categories : list str) (language : Language) :
  let response :=
    generateContent
      [PromptPart (IntentPrompt (clock w) categories language query)] in
  (callFails response ->
   (parseSearchIntent query categories language w).1 = fallbackIntent query) /\
  (forall text v,
     response = Fulfilled (Some text) -> text <> [] ->
     JSON_parse text = Some v ->
     (parseSearchIntent query categories language w).1 = v).
Proof.
  intros response. subst response.
  cbv [parseSearchIntent try_catch bind Date_now record ret await truthyText].
  simpl. split.
  - intros [-> | [-> | [-> | (text & -> & Hparse)]]]; try reflexivity.
    simpl. destruct (JS.truthy text); [| reflexivity].
    by rewrite Hparse.
  - intros text v -> Htext Hparse. simpl.
    destruct (JS.truthy text) eqn:Ht;
      [| apply truthy_false in Ht; contradiction].
    by rewrite Hparse.
Qed.

Lemma intent_parser_fallback_witness :
  callFails (rt := offline)
    (generateContent (Runtime := offline)
       [PromptPart (IntentPrompt (clock sampleWorld) ["Cooking"; "Coding"] en
                      "show coding notes")]) /\
  (parseSearchIntent (rt := offline) "show coding notes" ["Cooking"; "Coding"]
     en sampleWorld).1
  = VObject [("keywords", VString "show coding notes");
             ("category", VNull);
             ("tags", VArray []);
             ("startDate", VNull);
             ("endDate", VNull)].
Proof.
  assert (Hfail : callFails (rt := offline)
    (generateContent (Runtime := offline)
       [PromptPart (IntentPrompt (clock sampleWorld) ["Cooking"; "Coding"] en
                      "show coding notes")])) by (left; reflexivity).
  split; [exact Hfail |].
  destruct (intent_parser_fallback offline sampleWorld "show coding notes"
              ["Cooking"; "Coding"] en) as [Hfallback _].
  exact (Hfallback Hfail).
Defined.

(** The claim as stated fails on output that is JSON but not an intent:
    [null], or an object with keywords only, is returned as it is, not
    replaced by the fallback intent. *)
Lemma intent_parser_fallback_as_stated_counterexample :
  (intentCallFailsAsStated (rt := answers VNull)
     (generateContent (Runtime := answers VNull)
        [PromptPart (IntentPrompt (clock sampleWorld) ["Cooking"; "Coding"] en
                       "show coding notes")]) /\
   (parseSearchIntent (rt := answers VNull) "show coding notes"
      ["Cooking"; "Coding"] en sampleWorld).1 = VNull /\
   VNull <> fallbackIntent "show coding notes") /\
  (intentCallFailsAsStated
     (rt := answers (VObject [("keywords", VString "coding")]))
     (generateContent
        (Runtime := answers (VObject [("keywords", VString "coding")]))
        [PromptPart (IntentPrompt (clock sampleWorld) ["Cooking"; "Coding"] en
                       "show coding notes")]) /\
   (parseSearchIntent
      (rt := answers (VObject [("keywords", VString "coding")]))
      "show coding notes" ["Cooking"; "Coding"] en sampleWorld).1
   = VObject [("keywords", VString "coding")] /\
   VObject [("keywords", VString "coding")]
   <> fallbackIntent "show coding notes").
Proof.
  split.
  - split; [right; exists "json", VNull; repeat split; reflexivity |].
    split; [reflexivity | discriminate].
  - split;
      [right; exists "json", (VObject [("keywords", VString "coding")]);
       repeat split; reflexivity |].
    split; [reflexivity | discriminate].
Qed.

(** C5 (as amended).  [analyzeContent] never raises.  Whenever the
    annotation call fails (transport error, empty response, text that
    is not JSON) or its JSON does not allow the text to embed to be
    built ([tags] is not an array, or the category, the summary or an
    element of [tags] cannot be converted to a string), it returns the
    object with exactly: [summary], the first 50 characters (UTF-16
    code units) of the text followed by "..."; [tags],
    ["uncategorized"]; [category], "General"; it has no [embedding]
    property. *)
Theorem annotation_fallback (rt : Runtime) (w : World) (text : str)
    (base64Image : option str) (existingCategories : list str)
    (language : Language) :
  annotationFails
    (generateContent
       (analysisParts text base64Image existingCategories language)) ->
  (analyzeContent text base64Image existingCategories language w).1
  = VObject [("summary", VString (take 50 text ++ "..."));
             ("tags", VArray [VString "uncategorized"]);
             ("category", VString "General")].
Proof.
  intros Hfail.
  cbv [analyzeContent try_catch bind record ret await truthyText].
  simpl.
  destruct Hfail as
    [[-> | [-> | [-> | (s & -> & Hparse)]]] | (s & v & -> & Hparse & Hbuild)];
    try reflexivity.
  - simpl. destruct (JS.truthy s); [| reflexivity]. by rewrite Hparse.
  - simpl. destruct (JS.truthy s); [| reflexivity]. rewrite Hparse.
    destruct (Obj.get v "category") as [category |] eqn:Hcategory;
      [| reflexivity].
    destruct (ToString category) as [categoryText |] eqn:HcategoryText;
      [| reflexivity].
    destruct (Obj.get v "tags") as [tags |] eqn:Htags; [| reflexivity].
    destruct (join tags ", ") as [tagsText |] eqn:HtagsText; [| reflexivity].
    destruct (Obj.get v "summary") as [summary |] eqn:Hsummary;
      [| reflexivity].
    destruct (ToString summary) as [summaryText |] eqn:HsummaryText;
      [| reflexivity].
    exfalso.
    destruct Hbuild as
      [Hnone | [(c & Hc & HcText) | [(elements & He & Hjoin)
                                    | (s' & Hs & HsText)]]].
    + destruct tags; try discriminate. by apply (Hnone elements).
    + congruence.
    + injection He as ->. simpl in HtagsText. congruence.
    + congruence.
Qed.

Lemma annotation_fallback_witness :
  annotationFails (rt := offline)
    (generateContent (Runtime := offline) (analysisParts chineseNote None [] zh))
  /\
  (analyzeContent (rt := offline) chineseNote None [] zh sampleWorld).1
  = VObject [("summary",
              VString
                "今天学习了如何用函数式编程的思想来整理个人知识库并且把每一条笔记都加上合适的标签和分类以便以后能够快...");
             ("tags", VArray [VString "uncategorized"]);
             ("category", VString "General")].
Proof.
  assert (Hfail : annotationFails (rt := offline)
    (generateContent (Runtime := offline)
       (analysisParts chineseNote None [] zh)))
    by (left; left; reflexivity).
  split; [exact Hfail |].
  exact (annotation_fallback offline sampleWorld chineseNote None [] zh Hfail).
Defined.

(** The claim as stated fails on non-conforming JSON whose [tags] is an
    array: nothing throws, and the parsed object is returned with an
    [embedding] property instead of the degraded result. *)
Lemma annotation_fallback_as_stated_counterexample :
  annotationFailsAsStated
    (rt := annotatesAs (VObject [("tags", VArray [])]) [1%float])
    (generateContent
       (Runtime := annotatesAs (VObject [("tags", VArray [])]) [1%float])
       (analysisParts longNote None [] en)) /\
  (analyzeContent
     (rt := annotatesAs (VObject [("tags", VArray [])]) [1%float])
     longNote None [] en sampleWorld).1
  = VObject [("tags", VArray []); ("embedding", VArray [VNumber 1%float])] /\
  (analyzeContent
     (rt := annotatesAs (VObject [("tags", VArray [])]) [1%float])
     longNote None [] en sampleWorld).1
  <> VObject [("summary",
               VString "hello world this is a very long note content excee...");
              ("tags", VArray [VString "uncategorized"]);
              ("category", VString "General")].
Proof.
  split.
  - right. exists "annotation", (VObject [("tags", VArray [])]).
    repeat split; reflexivity.
  - split; [vm_compute; reflexivity |].
    vm_compute. intros Heq. discriminate Heq.
Qed.

(** ** The whole of [queryBrain] *)

Lemma parseSearchIntent_run (rt : Runtime) query categories language w :
  parseSearchIntent query categories language w =
    ((parseSearchIntent query categories language w).1,
     {| memoryArrays := memoryArrays w;
        scoredArrays := scoredArrays w;
        calls := calls w ++
          [GenerateContent
             [PromptPart (IntentPrompt (clock w) categories language query)]];
        clock := clock w |}).
Proof.
  cbv [parseSearchIntent try_catch bind Date_now record ret await truthyText].
  simpl.
  destruct (generateContent _) as [| [text |]]; try reflexivity.
  destruct (JS.truthy text); [| reflexivity].
  destruct (JSON_parse text); reflexivity.
Qed.

Lemma take_submseteq {A} (n : nat) (l : list A) : take n l ⊆+ l.
Proof. apply sublist_submseteq, sublist_take. Qed.

Lemma lookup_second_new {A} (h : list A) (x y : A) :
  (h ++ [x; y]) !! S (length h) = Some y.
Proof.
  change [x; y] with ([x] ++ [y]). rewrite app_assoc.
  replace (S (length h)) with (length (h ++ [x]))
    by (rewrite length_app; simpl; lia).
  apply lookup_new.
Qed.

Lemma keywordsTest_keywords (rt : Runtime) parsed long :
  keywordsTest parsed = Some long ->
  exists keywords, Obj.get parsed "keywords" = Some keywords.
Proof.
  unfold keywordsTest.
  destruct (Obj.get parsed "keywords") as [keywords |]; [| done].
  intros _. by exists keywords.
Qed.

(** Step 3 run right after step 2, whose result [candidates] is the last
    array of the store.  If the test on the keywords throws, nothing is
    done.  Otherwise the candidates' array is sorted in place or left as
    it is, one array is appended for [relevantMemories], which is a
    selection of the candidates whatever the scores are, and the
    embedding endpoint is called exactly when the test succeeds. *)
Lemma rank_selection (rt : Runtime) parsed h0 candidates w :
  memoryArrays w = h0 ++ [candidates] ->
  match keywordsTest parsed with
  | None => rankMemories parsed (length h0) w = (None, w)
  | Some long =>
      exists keywords ranked second,
        Obj.get parsed "keywords" = Some keywords /\
        (rankMemories parsed (length h0) w).1 = Some (S (length h0)) /\
        memoryArrays (rankMemories parsed (length h0) w).2
          = h0 ++ [second; ranked] /\
        ranked ⊆+ candidates /\
        length ranked = Nat.min 10 (length candidates) /\
        second ≡ₚ candidates /\
        calls (rankMemories parsed (length h0) w).2
          = calls w ++ (if long : bool then [EmbedContent keywords] else []) /\
        clock (rankMemories parsed (length h0) w).2 = clock w
  end.
Proof.
  intros Hh.
  assert (Hcand : memoryArrays w !! length h0 = Some candidates)
    by (rewrite Hh; apply lookup_new).
  assert (Hlen : length (memoryArrays w) = S (length h0))
    by (rewrite Hh, length_app; simpl; lia).
  destruct (keywordsTest parsed) as [long |] eqn:Htest;
    [| by apply rankMemories_throws].
  destruct (keywordsTest_keywords rt _ _ Htest) as (keywords & Hkeywords).
  exists keywords.
  destruct long.
  - rewrite (rank_by_score_run rt _ _ _ _ _ Hkeywords Htest Hcand). simpl.
    rewrite Hlen, Hh.
    destruct ((getEmbedding keywords w).1) as [queryEmbedding |].
    + destruct candidates as [| c cs] eqn:Hcs.
      * exists (take 10 []), []. simpl.
        split; [done |]. split; [done |].
        split; [by rewrite <- app_assoc |]. done.
      * rewrite <- Hcs.
        exists (map memory
                  (take 10 (JS.sort byScore
                              (map (withScore queryEmbedding) candidates)))),
          candidates.
        simpl. split; [done |]. split; [done |].
        split; [by rewrite <- app_assoc |].
        split.
        { rewrite <- (map_memory_withScore queryEmbedding candidates) at 2.
          rewrite <- (sort_Permutation byScore
                        (map (withScore queryEmbedding) candidates)) at 2.
          apply fmap_submseteq, take_submseteq. }
        split; [by rewrite length_map, length_take, sort_length, length_map |].
        done.
    + exists (take 10 candidates), candidates. simpl.
      split; [done |]. split; [done |]. split; [by rewrite <- app_assoc |].
      split; [apply take_submseteq |].
      split; [by rewrite length_take |]. done.
  - rewrite (rank_by_recency_run rt _ _ _ _ Htest Hcand). simpl.
    rewrite Hlen, Hh, insert_new.
    exists (take 10 (JS.sort byRecency candidates)),
           (JS.sort byRecency candidates).
    split; [done |]. split; [done |]. split; [by rewrite <- app_assoc |].
    split; [rewrite <- (sort_Permutation byRecency candidates) at 2;
            apply take_submseteq |].
    split; [by rewrite length_take, sort_length |].
    split; [apply sort_Permutation |].
    split; [by rewrite app_nil_r | done].
Qed.

(** Steps 0 to 3 in full: the intent request, the hard filter, which
    may throw, and the ranking, which may throw. *)
Lemma retrieve_run (rt : Runtime) userQuery memories language w notes :
  memoryArrays w !! memories = Some notes ->
  let categories := JS.distinct [] (map Memory.category notes) in
  let parsed := (parseSearchIntent userQuery categories language w).1 in
  let intentCall :=
    GenerateContent
      [PromptPart (IntentPrompt (clock w) categories language userQuery)] in
  match JS.filterM (hardFilter parsed) notes with
  | None =>
      retrieve userQuery memories language w
      = (None,
         {| memoryArrays := memoryArrays w;
            scoredArrays := scoredArrays w;
            calls := calls w ++ [intentCall]; clock := clock w |})
  | Some candidates =>
      match keywordsTest parsed with
      | None =>
          retrieve userQuery memories language w
          = (None,
             {| memoryArrays := memoryArrays w ++ [candidates];
                scoredArrays := scoredArrays w;
                calls := calls w ++ [intentCall]; clock := clock w |})
      | Some long =>
          exists keywords relevant second,
            Obj.get parsed "keywords" = Some keywords /\
            (retrieve userQuery memories language w).1
              = Some (parsed, S (length (memoryArrays w))) /\
            memoryArrays (retrieve userQuery memories language w).2
              = memoryArrays w ++ [second; relevant] /\
            relevant ⊆+ candidates /\
            length relevant = Nat.min 10 (length candidates) /\
            calls (retrieve userQuery memories language w).2
              = calls w ++ [intentCall]
                ++ (if long : bool then [EmbedContent keywords] else []) /\
            clock (retrieve userQuery memories language w).2 = clock w
      end
  end.
Proof.
  intros Hnotes categories parsed intentCall.
  set (w1 := {| memoryArrays := memoryArrays w;
                scoredArrays := scoredArrays w;
                calls := calls w ++ [intentCall]; clock := clock w |}).
  assert (Hnotes1 : memoryArrays w1 !! memories = Some notes) by exact Hnotes.
  assert (Hstart : retrieve userQuery memories language w
                   = (let!? filteredMemories :=
                        tryFilterMemories memories (hardFilter parsed) in
                      let!? relevantMemories :=
                        rankMemories parsed filteredMemories in
                      ret (Some (parsed, relevantMemories))) w1).
  { unfold retrieve.
    unfold bind at 1, readMemories at 1. rewrite Hnotes.
    change (default [] (Some notes)) with notes. fold categories.
    unfold bind at 1. rewrite parseSearchIntent_run. fold parsed.
    reflexivity. }
  rewrite Hstart. clear Hstart.
  destruct (JS.filterM (hardFilter parsed) notes) as [candidates |] eqn:Hfilter.
  - set (w2 := {| memoryArrays := memoryArrays w ++ [candidates];
                  scoredArrays := scoredArrays w;
                  calls := calls w ++ [intentCall]; clock := clock w |}).
    assert (Hsteps :
      (let!? filteredMemories :=
         tryFilterMemories memories (hardFilter parsed) in
       let!? relevantMemories := rankMemories parsed filteredMemories in
       ret (Some (parsed, relevantMemories))) w1
      = (match (rankMemories parsed (length (memoryArrays w)) w2).1 with
         | Some relevantMemories => Some (parsed, relevantMemories)
         | None => None
         end,
         (rankMemories parsed (length (memoryArrays w)) w2).2)).
    { unfold bindThrow at 1, bind at 1.
      rewrite (tryFilterMemories_run _ _ _ _ _ Hnotes1 Hfilter).
      cbn [memoryArrays scoredArrays calls clock w1]. fold w2.
      unfold bindThrow, bind, ret.
      by destruct (rankMemories parsed (length (memoryArrays w)) w2)
        as [[r |] w3]. }
    rewrite Hsteps. clear Hsteps.
    pose proof (rank_selection rt parsed (memoryArrays w) candidates w2 eq_refl)
      as Hrank.
    destruct (keywordsTest parsed) as [long |].
    + destruct Hrank as (keywords & ranked & second & Hkeywords & Href
                         & Harrays & Hsub & Hlen & _ & Hcalls & Hclock).
      exists keywords, ranked, second.
      cbn [fst snd]. rewrite Href.
      split; [done |]. split; [done |]. split; [done |].
      split; [done |]. split; [done |].
      split; [| done].
      rewrite Hcalls. cbn [calls w2]. by rewrite <- app_assoc.
    + by rewrite Hrank.
  - unfold bindThrow at 1, bind at 1.
    by rewrite (tryFilterMemories_throws _ _ _ _ Hnotes1 Hfilter).
Qed.

(** When steps 0 to 3 throw, [queryBrain] rejects. *)
Lemma queryBrain_rejects (rt : Runtime) userQuery memories language w w' :
  retrieve userQuery memories language w = (None, w') ->
  queryBrain userQuery memories language w = (None, w').
Proof.
  intros Hret. unfold queryBrain, bindThrow. unfold bind at 1.
  by rewrite Hret.
Qed.

Lemma queryBrain_no_matches (rt : Runtime) userQuery memories language w
    parsed r w' :
  retrieve userQuery memories language w = (Some (parsed, r), w') ->
  memoryArrays w' !! r = Some [] ->
  queryBrain userQuery memories language w
  = (Some {| fields := [("answer", VString (noMatches language));
                        ("relatedIds", VArray [])];
             usedFilters := Some parsed |}, w').
Proof.
  intros Hret Hrel.
  unfold queryBrain, bindThrow. unfold bind at 1. rewrite Hret.
  cbv [bind readMemories ret]. simpl. by rewrite Hrel.
Qed.

(** Step 4 on a non-empty [relevantMemories] when the keywords can be
    written in the prompt: one synthesis request whose context is built
    from the ranked notes, and the answer or the apology. *)
Lemma queryBrain_synthesis (rt : Runtime) userQuery memories language w
    parsed r w' relevant keywords keywordsText :
  retrieve userQuery memories language w = (Some (parsed, r), w') ->
  memoryArrays w' !! r = Some relevant ->
  relevant <> [] ->
  Obj.get parsed "keywords" = Some keywords ->
  ToString keywords = Some keywordsText ->
  queryBrain userQuery memories language w
  = (Some
       match
         match generateContent
                 [PromptPart
                    (AnswerPrompt userQuery keywordsText
                       (map contextEntry relevant) language)]
         with
         | Fulfilled (Some text) =>
             if JS.truthy text then JSON_parse text else None
         | _ => None
         end
       with
       | Some res =>
           {| fields := Obj.remove "usedFilters" (Obj.own res);
              usedFilters := Some parsed |}
       | None =>
           {| fields := [("answer", VString (apology language));
                         ("relatedIds", VArray [])];
              usedFilters := None |}
       end,
     {| memoryArrays := memoryArrays w';
        scoredArrays := scoredArrays w';
        calls := calls w' ++
          [GenerateContent
             [PromptPart
                (AnswerPrompt userQuery keywordsText
                   (map contextEntry relevant) language)]];
        clock := clock w' |}).
Proof.
  intros Hret Hrel Hne Hkeywords HkeywordsText.
  unfold queryBrain, bindThrow. unfold bind at 1. rewrite Hret.
  cbv [bind readMemories try_catch record ret await truthyText]. simpl.
  rewrite Hrel. simpl.
  destruct relevant as [| m relevant']; [done |]. simpl.
  rewrite Hkeywords, HkeywordsText.
  destruct (generateContent _) as [| [text |]]; try reflexivity.
  destruct (JS.truthy text); [| reflexivity].
  destruct (JSON_parse text); reflexivity.
Qed.

(** Step 4 on a non-empty [relevantMemories] when the keywords cannot
    be written in the prompt: the promise is rejected before any
    request. *)
Lemma queryBrain_prompt_throws (rt : Runtime) userQuery memories language w
    parsed r w' relevant :
  retrieve userQuery memories language w = (Some (parsed, r), w') ->
  memoryArrays w' !! r = Some relevant ->
  relevant <> [] ->
  (forall keywords,
     Obj.get parsed "keywords" = Some keywords -> ToString keywords = None) ->
  queryBrain userQuery memories language w = (None, w').
Proof.
  intros Hret Hrel Hne Hthrows.
  unfold queryBrain, bindThrow. unfold bind at 1. rewrite Hret.
  cbv [bind readMemories try_catch record ret await truthyText]. simpl.
  rewrite Hrel. simpl.
  destruct relevant as [| m relevant']; [done |]. simpl.
  destruct (Obj.get parsed "keywords") as [keywords |]; [| reflexivity].
  by rewrite (Hthrows keywords eq_refl).
Qed.

(** After step 3, [queryBrain] allocates nothing: it only reads
    [relevantMemories] and possibly calls the model. *)
Lemma queryBrain_memoryArrays (rt : Runtime) userQuery memories language w :
  memoryArrays (queryBrain userQuery memories language w).2
  = memoryArrays (retrieve userQuery memories language w).2.
Proof.
  unfold queryBrain, bindThrow. unfold bind at 1.
  destruct (retrieve userQuery memories language w) as [[[parsed r] |] w'];
    [| reflexivity].
  cbv [bind readMemories try_catch record ret await truthyText]. simpl.
  destruct (length (default [] (memoryArrays w' !! r)) =? 0)%nat;
    [reflexivity |].
  destruct (Obj.get parsed "keywords") as [keywords |]; [| reflexivity].
  destruct (ToString keywords) as [keywordsText |]; [| reflexivity].
  destruct (generateContent _) as [| [text |]]; try reflexivity.
  destruct (JS.truthy text); [| reflexivity].
  destruct (JSON_parse text); reflexivity.
Qed.

(** Whatever happens in steps 0 to 3, the arrays that existed before
    are followed by fresh ones. *)
Lemma retrieve_memoryArrays (rt : Runtime) userQuery memories language w notes :
  memoryArrays w !! memories = Some notes ->
  exists fresh,
    memoryArrays (retrieve userQuery memories language w).2
    = memoryArrays w ++ fresh.
Proof.
  intros Hnotes.
  pose proof (retrieve_run rt userQuery memories language w notes Hnotes)
    as Hrun.
  cbv zeta in Hrun.
  destruct (JS.filterM _ notes) as [candidates |].
  - destruct (keywordsTest _) as [long |].
    + destruct Hrun as (keywords & relevant & second & _ & _ & Harrays & _).
      rewrite Harrays. by eexists.
    + rewrite Hrun. by eexists.
  - rewrite Hrun. exists []. simpl. by rewrite app_nil_r.
Qed.

(** C4 (as amended).  When steps 0 to 3 return and [relevantMemories]
    is empty, [queryBrain] returns at once: the result is the canned
    answer in the requested language with [relatedIds = []] and
    [usedFilters] the parsed intent, the store and the log are those
    left by step 3, and no synthesis call was added to the log.  This
    is so whenever no note passes the hard filter and the test of step
    3 on the keywords does not throw. *)
Theorem empty_result_short_circuit (rt : Runtime) (w : World)
    (userQuery : str) (memories : nat) (language : Language)
    (notes : list Memory.t) :
  memoryArrays w !! memories = Some notes ->
  let parsed :=
    (parseSearchIntent userQuery
       (JS.distinct [] (map Memory.category notes)) language w).1 in
  let retrieved := retrieve userQuery memories language w in
  (forall intent relevantMemories,
     retrieved.1 = Some (intent, relevantMemories) ->
     intent = parsed /\
     (memoryArrays retrieved.2 !! relevantMemories = Some [] ->
      queryBrain userQuery memories language w
      = (Some
           {| fields :=
                [("answer",
                  VString
                    match language with
                    | zh => "抱歉，根据您的过滤条件，我没有找到任何相关记忆。"
                    | en =>
                        "Sorry, I couldn't find any memories matching those filters."
                    end);
                 ("relatedIds", VArray [])];
              usedFilters := Some parsed |},
         retrieved.2) /\
      forall c,
        c ∈ calls (queryBrain userQuery memories language w).2 ->
        isSynthesisCall c -> c ∈ calls w)) /\
  (forall long,
     JS.filterM (hardFilter parsed) notes = Some [] ->
     keywordsTest parsed = Some long ->
     exists relevantMemories,
       retrieved.1 = Some (parsed, relevantMemories) /\
       memoryArrays retrieved.2 !! relevantMemories = Some []).
Proof.
  intros Hnotes parsed retrieved.
  pose proof (retrieve_run rt userQuery memories language w notes Hnotes)
    as Hrun.
  cbv zeta in Hrun. fold parsed in Hrun. fold retrieved in Hrun.
  split.
  - intros intent relevantMemories Hsome.
    destruct (JS.filterM (hardFilter parsed) notes) as [candidates |];
      [| rewrite Hrun in Hsome; discriminate].
    destruct (keywordsTest parsed) as [long |];
      [| rewrite Hrun in Hsome; discriminate].
    destruct Hrun as (keywords & relevant & second & _ & Hres & _ & _ & _
                      & Hcalls & _).
    rewrite Hres in Hsome. injection Hsome as <- <-.
    split; [done |]. intros Hempty.
    assert (Hqb : queryBrain userQuery memories language w
                  = (Some {| fields :=
                               [("answer", VString (noMatches language));
                                ("relatedIds", VArray [])];
                             usedFilters := Some parsed |}, retrieved.2)).
    { apply (queryBrain_no_matches rt _ _ _ _ _ (S (length (memoryArrays w))));
        [| exact Hempty].
      unfold retrieved in *.
      destruct (retrieve userQuery memories language w) as [outcome w'].
      cbn [fst snd] in *. by subst outcome. }
    split; [rewrite Hqb; by destruct language |].
    intros c Hc Hsyn. rewrite Hqb in Hc. cbn [snd] in Hc.
    rewrite Hcalls in Hc.
    apply elem_of_app in Hc as [Hc | Hc]; [done |].
    destruct Hsyn as (q & k & ctx & lang & ->).
    apply elem_of_cons in Hc as [Hc | Hc]; [discriminate |].
    destruct long; [| inversion Hc].
    apply elem_of_cons in Hc as [Hc | Hc]; [discriminate | inversion Hc].
  - intros long Hfilter Htest. rewrite Hfilter, Htest in Hrun.
    destruct Hrun as (keywords & relevant & second & _ & Hres & Harrays & _
                      & Hlen & _).
    exists (S (length (memoryArrays w))). split; [exact Hres |].
    simpl in Hlen. destruct relevant; [| discriminate].
    rewrite Harrays. apply lookup_second_new.
Qed.

Lemma empty_result_short_circuit_witness :
  memoryArrays sampleWorld !! 0%nat = Some [pastaNote; reactNote] /\
  (queryBrain
     (rt := answers (intent "" (VString "Gardening") [] VNull VNull))
     "show gardening notes" 0 en sampleWorld).1
  = Some
      {| fields :=
           [("answer",
             VString
               "Sorry, I couldn't find any memories matching those filters.");
            ("relatedIds", VArray [])];
         usedFilters :=
           Some (intent "" (VString "Gardening") [] VNull VNull) |}.
Proof.
  split; [reflexivity |].
  destruct (empty_result_short_circuit
              (answers (intent "" (VString "Gardening") [] VNull VNull))
              sampleWorld "show gardening notes" 0 en [pastaNote; reactNote]
              eq_refl) as (Hshort & Hempty).
  destruct (Hempty false eq_refl eq_refl) as (relevantMemories & Hsome & Hnone).
  destruct (Hshort _ _ Hsome) as (_ & Hrun).
  destruct (Hrun Hnone) as [Hresult _].
  rewrite Hresult. reflexivity.
Defined.

(** The claim as stated fails when the model's output parses to
    [null]: on an empty collection the candidate list is empty (the
    filter's callback is never called), but reading [parsed.keywords]
    in step 3 throws, [queryBrain] rejects, and no canned answer is
    returned. *)
Lemma empty_result_short_circuit_counterexample :
  (parseSearchIntent (rt := answers VNull) "anything" [] en (worldOf [])).1
  = VNull /\
  JS.filterM (hardFilter (rt := answers VNull) VNull) [] = Some [] /\
  (queryBrain (rt := answers VNull) "anything" 0 en (worldOf [])).1 = None.
Proof. repeat split; reflexivity. Qed.

(** C9.  [queryBrain] leaves every array of notes that existed before
    the call as it was: the store of the final world is the initial one
    followed by freshly allocated arrays (the filtered copy, which is
    the only array of notes sorted in place, and the ranked slice), so
    the input [memories] still holds the same notes in the same order. *)
Theorem note_collection_read_only (rt : Runtime) (w : World)
    (userQuery : str) (memories : nat) (language : Language)
    (notes : list Memory.t) :
  memoryArrays w !! memories = Some notes ->
  (exists fresh,
     memoryArrays (queryBrain userQuery memories language w).2
     = memoryArrays w ++ fresh) /\
  memoryArrays (queryBrain userQuery memories language w).2 !! memories
  = Some notes.
Proof.
  intros Hnotes.
  destruct (retrieve_memoryArrays rt userQuery memories language w notes Hnotes)
    as (fresh & Harrays).
  rewrite queryBrain_memoryArrays, Harrays.
  split; [by eexists |]. by apply lookup_app_l_Some.
Qed.

Lemma note_collection_read_only_witness :
  memoryArrays sampleWorld !! 0%nat = Some [pastaNote; reactNote] /\
  (exists fresh,
     memoryArrays
       (queryBrain (rt := embedsAs [1%float]) "pasta" 0 en sampleWorld).2
     = memoryArrays sampleWorld ++ fresh) /\
  memoryArrays
    (queryBrain (rt := embedsAs [1%float]) "pasta" 0 en sampleWorld).2 !! 0%nat
  = Some [pastaNote; reactNote].
Proof.
  split; [reflexivity |].
  exact (note_collection_read_only (embedsAs [1%float]) sampleWorld "pasta" 0 en
           [pastaNote; reactNote] eq_refl).
Defined.

(** ** Cosine similarity in binary64 *)

Lemma accumulate_zero_normA (vecA vecB : list float) (dotProduct normB : float) :
  Forall isZero vecA ->
  (accumulate vecA vecB dotProduct 0%float normB).1.2 = 0%float.
Proof.
  intros Hz. revert vecB dotProduct normB.
  induction Hz as [| a vecA Ha Hz IH]; intros vecB dotProduct normB;
    [reflexivity |].
  destruct vecB as [| b vecB]; [reflexivity |]. simpl.
  replace (PrimFloat.add 0 (PrimFloat.mul a a)) with 0%float
    by (destruct Ha as [-> | ->]; reflexivity).
  apply IH.
Qed.

Lemma accumulate_zero_normB (vecA vecB : list float) (dotProduct normA : float) :
  Forall isZero vecB ->
  (accumulate vecA vecB dotProduct normA 0%float).2 = 0%float.
Proof.
  intros Hz. revert vecA dotProduct normA.
  induction Hz as [| b vecB Hb Hz IH]; intros vecA dotProduct normA;
    [by destruct vecA |].
  destruct vecA as [| a vecA]; [reflexivity |]. simpl.
  replace (PrimFloat.add 0 (PrimFloat.mul b b)) with 0%float
    by (destruct Hb as [-> | ->]; reflexivity).
  apply IH.
Qed.

(** The degenerate cases: the result is exactly 0 when a vector is
    missing, when the lengths differ and when a vector is all zeros (of
    either sign). *)
Lemma cosineSimilarity_missing (vec : option (list float)) :
  cosineSimilarity None vec = 0%float /\ cosineSimilarity vec None = 0%float.
Proof. by destruct vec. Qed.

Lemma cosineSimilarity_zero_vector (vecA vecB : list float) :
  Forall isZero vecA \/ Forall isZero vecB ->
  cosineSimilarity (Some vecA) (Some vecB) = 0%float.
Proof.
  intros Hz. unfold cosineSimilarity.
  destruct (negb (length vecA =? length vecB)%nat); [reflexivity |].
  change (accumulate vecA vecB zero zero zero)
    with (accumulate vecA vecB 0%float 0%float 0%float).
  destruct Hz as [Hz | Hz].
  - pose proof (accumulate_zero_normA vecA vecB 0%float 0%float Hz) as Hn.
    destruct (accumulate vecA vecB 0%float 0%float 0%float) as [[d nA] nB].
    simpl in Hn. subst nA. reflexivity.
  - pose proof (accumulate_zero_normB vecA vecB 0%float 0%float Hz) as Hn.
    destruct (accumulate vecA vecB 0%float 0%float 0%float) as [[d nA] nB].
    simpl in Hn. subst nB. simpl. by rewrite orb_true_r.
Qed.

Lemma cosineSimilarity_length_mismatch {num} `{Arithmetic num}
    (vecA vecB : list num) :
  length vecA <> length vecB ->
  cosineSimilarity (Some vecA) (Some vecB) = zero.
Proof.
  intros Hne. unfold cosineSimilarity.
  by replace (length vecA =? length vecB)%nat with false
    by (symmetry; by apply Nat.eqb_neq).
Qed.

(** On a vector against itself the three accumulators are one number,
    the sum of the squares as the loop rounds it, and the result is
    this number divided by the square of its rounded square root. *)
Lemma accumulate_self (v : list float) (x : float) :
  accumulate v v x x x
  = ((accumulate v v x x x).2, (accumulate v v x x x).2,
     (accumulate v v x x x).2).
Proof.
  revert x. induction v as [| a v IH]; intros x; [reflexivity |].
  simpl. apply IH.
Qed.

Lemma cosineSimilarity_self (v : list float) :
  let sumOfSquares := (accumulate v v 0%float 0%float 0%float).2 in
  cosineSimilarity (Some v) (Some v)
  = if PrimFloat.eqb sumOfSquares 0 then 0%float
    else (sumOfSquares
          / (PrimFloat.sqrt sumOfSquares * PrimFloat.sqrt sumOfSquares))%float.
Proof.
  intros sumOfSquares. unfold cosineSimilarity.
  rewrite Nat.eqb_refl. simpl negb. cbv iota.
  change (accumulate v v zero zero zero)
    with (accumulate v v 0%float 0%float 0%float).
  rewrite accumulate_self. fold sumOfSquares.
  change (eqb sumOfSquares zero) with (PrimFloat.eqb sumOfSquares 0).
  by destruct (PrimFloat.eqb sumOfSquares 0).
Qed.

(** C7.  The code breaks the range that the claim and the function's
    own documentation give.  The similarity of [1, 1, 1] with itself is
    3 / (sqrt 3 * sqrt 3), which is rounded to the double just above 1
    (1.0000000000000002): the result is not in [-1, 1].  On [2^600]
    against itself the squared norms overflow and the result is NaN. *)
Theorem cosine_similarity_exceeds_one :
  cosineSimilarity (Some [1%float; 1%float; 1%float])
                   (Some [1%float; 1%float; 1%float])
  = 0x1.0000000000001p+0%float /\
  PrimFloat.leb
    (cosineSimilarity (Some [1%float; 1%float; 1%float])
                      (Some [1%float; 1%float; 1%float])) 1%float = false /\
  PrimFloat.is_nan
    (cosineSimilarity (Some [0x1p+600%float]) (Some [0x1p+600%float])) = true.
Proof. repeat split; vm_compute; reflexivity. Qed.


(** ** Symmetry of the similarity *)

Section Symmetry.
Context {num : Type} `{Arithmetic num}.
Hypothesis mul_comm : forall x y : num, mul x y = mul y x.

Lemma accumulate_swap (vecA vecB : list num) (dotProduct normA normB : num) :
  accumulate vecB vecA dotProduct normB normA
  = let '(d, nA, nB) := accumulate vecA vecB dotProduct normA normB in
    (d, nB, nA).
Proof.
  revert vecB dotProduct normA normB.
  induction vecA as [| a vecA IH]; intros [| b vecB] d nA nB; try reflexivity.
  simpl. rewrite IH. by rewrite (mul_comm b a).
Qed.

Lemma cosineSimilarity_swap (vecA vecB : option (list num)) :
  cosineSimilarity vecA vecB = cosineSimilarity vecB vecA.
Proof.
  destruct vecA as [vecA |], vecB as [vecB |]; try reflexivity.
  unfold cosineSimilarity.
  rewrite (Nat.eqb_sym (length vecB) (length vecA)).
  destruct (negb (length vecA =? length vecB)%nat); [reflexivity |].
  rewrite (accumulate_swap vecA vecB).
  destruct (accumulate vecA vecB zero zero zero) as [[d nA] nB].
  rewrite (orb_comm (eqb nB zero)).
  destruct (eqb nA zero || eqb nB zero); [reflexivity |].
  by rewrite (mul_comm (sqrt nB)).
Qed.
End Symmetry.

(** Multiplication of binary64 numbers is commutative, bit for bit. *)
Lemma SFmul_comm prec emax (x y : SpecFloat.spec_float) :
  SpecFloat.SFmul prec emax x y = SpecFloat.SFmul prec emax y x.
Proof.
  destruct x as [sx | sx | | sx mx ex], y as [sy | sy | | sy my ey]; simpl;
    try reflexivity; try (by rewrite xorb_comm).
  by rewrite xorb_comm, Pos.mul_comm, Z.add_comm.
Qed.

Lemma float_mul_comm (x y : float) : PrimFloat.mul x y = PrimFloat.mul y x.
Proof.
  apply FloatAxioms.Prim2SF_inj.
  rewrite !FloatAxioms.mul_spec. apply SFmul_comm.
Qed.

(** X12.  [cosineSimilarity] is symmetric, in the program's binary64
    arithmetic (bit for bit, rounding included) as in every arithmetic
    whose multiplication is commutative, exact arithmetic among them:
    scoring a note against the query gives the same number as scoring
    the query against the note. *)
Theorem cosine_similarity_is_symmetric :
  (forall vecA vecB : option (list float),
     cosineSimilarity vecA vecB = cosineSimilarity vecB vecA) /\
  (forall (num : Type) (arithmetic : Arithmetic num),
     (forall x y : num, mul x y = mul y x) ->
     forall vecA vecB : option (list num),
       cosineSimilarity vecA vecB = cosineSimilarity vecB vecA).
Proof.
  split.
  - intros vecA vecB. apply cosineSimilarity_swap. exact float_mul_comm.
  - intros num arithmetic Hcomm vecA vecB. by apply cosineSimilarity_swap.
Qed.

(** X25.  In binary64 the score depends on the length of the vectors,
    not only on their direction: [3, 3, 3] against [1, 1, 1] scores
    exactly 1, while [1, 1, 1] against itself, the same direction,
    scores 1.0000000000000002; so a stored embedding can outrank its
    own multiple. *)
Theorem cosine_similarity_depends_on_scale :
  cosineSimilarity (Some [3%float; 3%float; 3%float])
                   (Some [1%float; 1%float; 1%float]) = 1%float /\
  cosineSimilarity (Some [1%float; 1%float; 1%float])
                   (Some [1%float; 1%float; 1%float])
  = 0x1.0000000000001p+0%float /\
  byScore
    {| memory := alignedNote;
       score := cosineSimilarity (Some [3%float; 3%float; 3%float])
                                 (Some [1%float; 1%float; 1%float]) |}
    {| memory := alignedNote;
       score := cosineSimilarity (Some [1%float; 1%float; 1%float])
                                 (Some [1%float; 1%float; 1%float]) |}
  = Gt.
Proof. repeat split; vm_compute; reflexivity. Qed.

(** * More of the service *)

(** ** Object literals *)

Lemma lookup_set_eq k v props : Obj.lookup k (Obj.set k v props) = v.
Proof.
  induction props as [| [k' v'] props IH]; simpl.
  - by rewrite eqb_refl.
  - destruct (JS.eqb k k') eqn:E; simpl; by rewrite ?eqb_refl, ?E.
Qed.

Lemma lookup_set_ne k k' v props :
  k <> k' -> Obj.lookup k' (Obj.set k v props) = Obj.lookup k' props.
Proof.
  intros Hne.
  assert (Hk : JS.eqb k' k = false) by (apply eqb_neq; congruence).
  induction props as [| [k0 v0] props IH]; simpl.
  - by rewrite Hk.
  - destruct (JS.eqb k k0) eqn:E; simpl.
    + apply eqb_eq in E as <-. by rewrite Hk.
    + destruct (JS.eqb k' k0); [reflexivity | exact IH].
Qed.

Lemma lookup_remove_eq k props : Obj.lookup k (Obj.remove k props) = VUndefined.
Proof.
  unfold Obj.remove. induction props as [| [k' v'] props IH]; simpl;
    [reflexivity |].
  destruct (JS.eqb k k') eqn:E; simpl; [exact IH | by rewrite E].
Qed.

Lemma lookup_remove_ne k k' props :
  k <> k' -> Obj.lookup k' (Obj.remove k props) = Obj.lookup k' props.
Proof.
  intros Hne. unfold Obj.remove.
  assert (Hk : JS.eqb k' k = false) by (apply eqb_neq; congruence).
  induction props as [| [k0 v0] props IH]; simpl; [reflexivity |].
  destruct (JS.eqb k k0) eqn:E; simpl.
  - apply eqb_eq in E as <-. by rewrite Hk.
  - destruct (JS.eqb k' k0); [reflexivity | exact IH].
Qed.

(** ** [cleanBase64] *)

Lemma cleanBase64_header mime payload :
  In mime ["png"; "jpeg"; "jpg"; "webp"] ->
  cleanBase64 ("data:image/" ++ mime ++ ";base64," ++ payload) = payload.
Proof.
  intros Hmime. simpl in Hmime.
  destruct Hmime as [<- | [<- | [<- | [<- | []]]]]; reflexivity.
Qed.

(** X1.  [cleanBase64] removes the data-URL header of a PNG, JPEG, JPG
    or WebP image and returns the payload unchanged, whatever the
    payload is (a second header inside it stays); a string that starts
    with none of the four headers is returned as it is. *)
Theorem cleanBase64_removes_the_header :
  (forall mime payload,
     In mime ["png"; "jpeg"; "jpg"; "webp"] ->
     cleanBase64 ("data:image/" ++ mime ++ ";base64," ++ payload) = payload) /\
  (forall data,
     (forall mime, In mime ["png"; "jpeg"; "jpg"; "webp"] ->
        JS.startsWith ("data:image/" ++ mime ++ ";base64,") data = false) ->
     cleanBase64 data = data).
Proof.
  split.
  - exact cleanBase64_header.
  - intros data Hnone.
    assert (Hpng : JS.startsWith "data:image/png;base64," data = false)
      by (apply (Hnone "png"); simpl; auto).
    assert (Hjpeg : JS.startsWith "data:image/jpeg;base64," data = false)
      by (apply (Hnone "jpeg"); simpl; auto).
    assert (Hjpg : JS.startsWith "data:image/jpg;base64," data = false)
      by (apply (Hnone "jpg"); simpl; auto).
    assert (Hwebp : JS.startsWith "data:image/webp;base64," data = false)
      by (apply (Hnone "webp"); simpl; auto 6).
    unfold cleanBase64. by rewrite Hpng, Hjpeg, Hjpg, Hwebp.
Qed.

Lemma cleanBase64_removes_the_header_witness :
  cleanBase64 "data:image/png;base64,iVBORw0KGgo=" = "iVBORw0KGgo=" /\
  cleanBase64 "data:image/gif;base64,R0lGODlh" = "data:image/gif;base64,R0lGODlh".
Proof.
  destruct cleanBase64_removes_the_header as [Hstrip Hkeep]. split.
  - apply (Hstrip "png" "iVBORw0KGgo="). simpl. auto.
  - apply Hkeep. intros mime Hmime. simpl in Hmime.
    destruct Hmime as [<- | [<- | [<- | [<- | []]]]]; reflexivity.
Defined.

(** X24.  An attached image is sent to the annotator without its
    data-URL header and always labelled [image/jpeg], whichever of the
    four formats the header names; the request is the prompt, then the
    text when there is one, then the image. *)
Theorem images_are_sent_as_jpeg_payloads (text mime payload : str)
    (existingCategories : list str) (language : Language) :
  In mime ["png"; "jpeg"; "jpg"; "webp"] ->
  analysisParts text
    (Some ("data:image/" ++ mime ++ ";base64," ++ payload))
    existingCategories language
  = [PromptPart (AnalysisPrompt existingCategories language)]
    ++ (if JS.truthy text then [TextPart text] else [])
    ++ [InlineDataPart "image/jpeg" payload].
Proof.
  intros Hmime.
  assert (Htruthy :
    JS.truthy ("data:image/" ++ mime ++ ";base64," ++ payload) = true)
    by reflexivity.
  unfold analysisParts, truthyText.
  by rewrite Htruthy, (cleanBase64_header mime payload Hmime).
Qed.

Lemma images_are_sent_as_jpeg_payloads_witness :
  analysisParts "" (Some "data:image/png;base64,iVBORw0KGgo=") [] en
  = [PromptPart (AnalysisPrompt [] en);
     InlineDataPart "image/jpeg" "iVBORw0KGgo="].
Proof.
  apply (images_are_sent_as_jpeg_payloads "" "png" "iVBORw0KGgo=" [] en).
  simpl. auto.
Defined.

(** ** [analyzeContent] when the annotation succeeds *)

(** The annotation whose category is an object with an own [toString]
    property: the interpolation of the category throws, the fallback is
    returned and no embedding is requested. *)
Example opaque_annotation_falls_back :
  analyzeContent (rt := annotatesAs opaqueAnnotation [1%float])
    longNote None [] en sampleWorld
  = (degradedResult longNote,
     {| memoryArrays := [[pastaNote; reactNote]];
        scoredArrays := [];
        calls := [GenerateContent (analysisParts longNote None [] en)];
        clock := 5000 |}).
Proof. reflexivity. Qed.

(** The run of [analyzeContent] on a response that parses. *)
Lemma analyzeContent_parsed (rt : Runtime) text base64Image existingCategories
    language w responseText result :
  generateContent (analysisParts text base64Image existingCategories language)
  = Fulfilled (Some responseText) ->
  responseText <> [] ->
  JSON_parse responseText = Some result ->
  analyzeContent text base64Image existingCategories language w
  = let w1 :=
      {| memoryArrays := memoryArrays w;
         scoredArrays := scoredArrays w;
         calls := calls w ++
           [GenerateContent
              (analysisParts text base64Image existingCategories language)];
         clock := clock w |} in
    match
      category ← Obj.get result "category";
      categoryText ← ToString category;
      tags ← Obj.get result "tags";
      tagsText ← join tags ", ";
      summary ← Obj.get result "summary";
      summaryText ← ToString summary;
      Some (textToEmbed categoryText tagsText summaryText text)
    with
    | Some toEmbed =>
        (VObject
           (Obj.set "embedding"
              (embeddingValue (getEmbedding (VString toEmbed) w1).1)
              (Obj.own result)),
         {| memoryArrays := memoryArrays w;
            scoredArrays := scoredArrays w;
            calls := (calls w ++
              [GenerateContent
                 (analysisParts text base64Image existingCategories language)])
              ++ [EmbedContent (VString toEmbed)];
            clock := clock w |})
    | None => (degradedResult text, w1)
    end.
Proof.
  intros Hresp Htext Hparse.
  cbv [analyzeContent try_catch bind record ret await truthyText].
  rewrite Hresp.
  replace (JS.truthy responseText) with true
    by (symmetry; by apply truthy_true).
  rewrite Hparse. cbv zeta.
  destruct (Obj.get result "category") as [category |]; [| reflexivity].
  cbn [mbind option_bind].
  destruct (ToString category) as [categoryText |]; [| reflexivity].
  cbn [mbind option_bind].
  destruct (Obj.get result "tags") as [tags |]; [| reflexivity].
  cbn [mbind option_bind].
  destruct (join tags ", ") as [tagsText |]; [| reflexivity].
  cbn [mbind option_bind].
  destruct (Obj.get result "summary") as [summary |]; [| reflexivity].
  cbn [mbind option_bind].
  destruct (ToString summary) as [summaryText |]; [| reflexivity].
  cbn [mbind option_bind].
  rewrite getEmbedding_run. reflexivity.
Qed.

(** X2.  When the model answers with JSON that parses to an object
    whose [tags] is an array, and the category, the tags and the summary
    can be written in the text to embed, [analyzeContent] returns that
    object with the property [embedding] set to what [getEmbedding]
    produced for that text ([undefined] when the embedding failed: the
    annotation is kept), replacing an [embedding] the model may have
    sent; every other property is the model's. *)
Theorem annotation_success (rt : Runtime) (w : World) (text : str)
    (base64Image : option str) (existingCategories : list str)
    (language : Language) (responseText : str)
    (props : list (str * Value)) (elements : list Value)
    (categoryText tagsText summaryText : str) :
  generateContent (analysisParts text base64Image existingCategories language)
  = Fulfilled (Some responseText) ->
  responseText <> [] ->
  JSON_parse responseText = Some (VObject props) ->
  Obj.lookup "tags" props = VArray elements ->
  ToString (Obj.lookup "category" props) = Some categoryText ->
  joinElements ", " elements = Some tagsText ->
  ToString (Obj.lookup "summary" props) = Some summaryText ->
  exists embedding,
    embedding
    = (getEmbedding
         (VString
            ("Category: " ++ categoryText ++ ". Tags: " ++ tagsText
             ++ ". Content: " ++ summaryText ++ ". " ++ text))
         {| memoryArrays := memoryArrays w;
            scoredArrays := scoredArrays w;
            calls := calls w ++
              [GenerateContent
                 (analysisParts text base64Image existingCategories language)];
            clock := clock w |}).1 /\
    (analyzeContent text base64Image existingCategories language w).1
    = VObject (Obj.set "embedding" (embeddingValue embedding) props) /\
    Obj.get (analyzeContent text base64Image existingCategories language w).1
      "embedding" = Some (embeddingValue embedding) /\
    forall k, k <> "embedding" ->
      Obj.get (analyzeContent text base64Image existingCategories language w).1 k
      = Some (Obj.lookup k props).
Proof.
  intros Hresp Htext Hparse Htags Hcategory Hjoin Hsummary.
  eexists. split; [reflexivity |].
  rewrite (analyzeContent_parsed rt _ _ _ _ _ _ _ Hresp Htext Hparse).
  cbn [Obj.get mbind option_bind]. rewrite Hcategory.
  cbn [mbind option_bind]. rewrite Htags. cbn [join mbind option_bind].
  rewrite Hjoin. cbn [mbind option_bind]. rewrite Hsummary.
  cbn [mbind option_bind fst Obj.own].
  split; [reflexivity |]. split.
  - cbn [Obj.get]. by rewrite lookup_set_eq.
  - intros k Hk. cbn [Obj.get]. rewrite lookup_set_ne by congruence.
    reflexivity.
Qed.

Lemma annotation_success_witness :
  exists embedding,
    embedding = Some [1%float] /\
    (analyzeContent (rt := annotatesAs (VObject pastaAnnotation) [1%float])
       "Boil the pasta" None [] en sampleWorld).1
    = VObject (Obj.set "embedding" (embeddingValue embedding) pastaAnnotation) /\
    Obj.get
      (analyzeContent (rt := annotatesAs (VObject pastaAnnotation) [1%float])
         "Boil the pasta" None [] en sampleWorld).1 "embedding"
    = Some (embeddingValue embedding) /\
    forall k, k <> "embedding" ->
      Obj.get
        (analyzeContent (rt := annotatesAs (VObject pastaAnnotation) [1%float])
           "Boil the pasta" None [] en sampleWorld).1 k
      = Some (Obj.lookup k pastaAnnotation).
Proof.
  destruct (annotation_success (annotatesAs (VObject pastaAnnotation) [1%float])
              sampleWorld "Boil the pasta" None [] en "annotation"
              pastaAnnotation [VString "pasta"; VString "cooking"]
              "Cooking" "pasta, cooking" "How long to boil pasta")
    as (embedding & Hembedding & Hrest);
    [reflexivity | discriminate | reflexivity | reflexivity | reflexivity
     | reflexivity | reflexivity |].
  exists embedding. split; [exact Hembedding | exact Hrest].
Defined.

(** X3.  [analyzeContent] writes to no array and does not read the
    clock; it sends exactly one annotation request and at most one
    embedding request after it: none when the annotation fails or the
    text to embed cannot be built, exactly one, for that text, when the
    response parses to an object whose [tags] is an array and the
    category, the tags and the summary can be written in the text. *)
Theorem annotation_makes_one_attempt (rt : Runtime) (w : World) (text : str)
    (base64Image : option str) (existingCategories : list str)
    (language : Language) :
  memoryArrays (analyzeContent text base64Image existingCategories language w).2
  = memoryArrays w /\
  scoredArrays (analyzeContent text base64Image existingCategories language w).2
  = scoredArrays w /\
  clock (analyzeContent text base64Image existingCategories language w).2
  = clock w /\
  exists embedCalls,
    calls (analyzeContent text base64Image existingCategories language w).2
    = calls w ++
      GenerateContent
        (analysisParts text base64Image existingCategories language)
      :: embedCalls /\
    (annotationFails
       (generateContent
          (analysisParts text base64Image existingCategories language)) ->
     embedCalls = []) /\
    (forall responseText props elements categoryText tagsText summaryText,
       generateContent
         (analysisParts text base64Image existingCategories language)
       = Fulfilled (Some responseText) ->
       responseText <> [] ->
       JSON_parse responseText = Some (VObject props) ->
       Obj.lookup "tags" props = VArray elements ->
       ToString (Obj.lookup "category" props) = Some categoryText ->
       joinElements ", " elements = Some tagsText ->
       ToString (Obj.lookup "summary" props) = Some summaryText ->
       embedCalls
       = [EmbedContent
            (VString
               ("Category: " ++ categoryText ++ ". Tags: " ++ tagsText
                ++ ". Content: " ++ summaryText ++ ". " ++ text))]).
Proof.
  set (parts := analysisParts text base64Image existingCategories language).
  assert (Hquiet :
    analyzeContent text base64Image existingCategories language w
    = (degradedResult text,
       {| memoryArrays := memoryArrays w;
          scoredArrays := scoredArrays w;
          calls := calls w ++ [GenerateContent parts];
          clock := clock w |}) ->
    (forall responseText result toEmbed,
       generateContent parts = Fulfilled (Some responseText) ->
       responseText <> [] ->
       JSON_parse responseText = Some result ->
       (category ← Obj.get result "category";
        categoryText ← ToString category;
        tags ← Obj.get result "tags";
        tagsText ← join tags ", ";
        summary ← Obj.get result "summary";
        summaryText ← ToString summary;
        Some (textToEmbed categoryText tagsText summaryText text))
       = Some toEmbed -> False) ->
    memoryArrays
      (analyzeContent text base64Image existingCategories language w).2
    = memoryArrays w /\
    scoredArrays
      (analyzeContent text base64Image existingCategories language w).2
    = scoredArrays w /\
    clock (analyzeContent text base64Image existingCategories language w).2
    = clock w /\
    exists embedCalls,
      calls (analyzeContent text base64Image existingCategories language w).2
      = calls w ++ GenerateContent parts :: embedCalls /\
      (annotationFails (generateContent parts) -> embedCalls = []) /\
      (forall responseText props elements categoryText tagsText summaryText,
         generateContent parts = Fulfilled (Some responseText) ->
         responseText <> [] ->
         JSON_parse responseText = Some (VObject props) ->
         Obj.lookup "tags" props = VArray elements ->
         ToString (Obj.lookup "category" props) = Some categoryText ->
         joinElements ", " elements = Some tagsText ->
         ToString (Obj.lookup "summary" props) = Some summaryText ->
         embedCalls
         = [EmbedContent
              (VString
                 ("Category: " ++ categoryText ++ ". Tags: " ++ tagsText
                  ++ ". Content: " ++ summaryText ++ ". " ++ text))])).
  { intros -> Hnever. cbn [snd memoryArrays scoredArrays clock calls].
    split; [done |]. split; [done |]. split; [done |].
    exists []. split; [done |]. split; [done |].
    intros responseText props elements categoryText tagsText summaryText
      Hresp Htext Hparse Htags Hcategory Hjoin Hsummary.
    exfalso. eapply (Hnever _ _ _ Hresp Htext Hparse).
    cbn [Obj.get mbind option_bind]. rewrite Hcategory.
    cbn [mbind option_bind]. rewrite Htags. cbn [join mbind option_bind].
    rewrite Hjoin. cbn [mbind option_bind]. rewrite Hsummary.
    reflexivity. }
  destruct (generateContent parts) as [| [responseText |]] eqn:Hresp.
  1, 3: (apply Hquiet;
         [cbv [analyzeContent try_catch bind record ret await truthyText];
          fold parts; by rewrite Hresp
         | intros; discriminate]).
  destruct (JS.truthy responseText) eqn:Htruthy.
  2: { apply Hquiet.
       - cbv [analyzeContent try_catch bind record ret await truthyText].
         fold parts. by rewrite Hresp, Htruthy.
       - intros s result toEmbed [= <-] Hne. apply truthy_false in Htruthy.
         contradiction. }
  apply truthy_true in Htruthy.
  destruct (JSON_parse responseText) as [result |] eqn:Hparse.
  2: { apply Hquiet.
       - cbv [analyzeContent try_catch bind record ret await truthyText].
         fold parts. rewrite Hresp.
         replace (JS.truthy responseText) with true
           by (symmetry; by apply truthy_true).
         by rewrite Hparse.
       - intros s r toEmbed [= <-]. congruence. }
  pose proof (analyzeContent_parsed rt text base64Image existingCategories
                language w responseText result Hresp Htruthy Hparse) as Hrun.
  fold parts in Hrun. cbv zeta in Hrun.
  destruct (category ← Obj.get result "category";
            categoryText ← ToString category;
            tags ← Obj.get result "tags";
            tagsText ← join tags ", ";
            summary ← Obj.get result "summary";
            summaryText ← ToString summary;
            Some (textToEmbed categoryText tagsText summaryText text))
    as [toEmbed |] eqn:Hbuild.
  2: { apply Hquiet; [exact Hrun |].
       intros s r toEmbed [= <-] _ Hr. rewrite Hparse in Hr.
       injection Hr as <-. congruence. }
  fold parts. rewrite Hrun. cbn [snd memoryArrays scoredArrays clock calls].
  split; [done |]. split; [done |]. split; [done |].
  exists [EmbedContent (VString toEmbed)].
  split; [by rewrite <- app_assoc |]. split.
  - intros Hfail. exfalso.
    destruct Hfail as [Hfail | (s & v & [= <-] & Hv & Hnot)].
    + destruct Hfail as [Hf | [Hf | [Hf | (s & [= <-] & Hs)]]];
        try discriminate.
      * injection Hf as ->. by apply Htruthy.
      * congruence.
    + rewrite Hparse in Hv. injection Hv as <-.
      destruct (Obj.get result "category") as [category |] eqn:Hcategory;
        [| discriminate].
      cbn [mbind option_bind] in Hbuild.
      destruct (ToString category) as [categoryText |] eqn:HcategoryText;
        [| discriminate].
      cbn [mbind option_bind] in Hbuild.
      destruct (Obj.get result "tags") as [tags |] eqn:Htags;
        [| discriminate].
      cbn [mbind option_bind] in Hbuild.
      destruct (join tags ", ") as [tagsText |] eqn:HtagsText;
        [| discriminate].
      cbn [mbind option_bind] in Hbuild.
      destruct (Obj.get result "summary") as [summary |] eqn:Hsummary;
        [| discriminate].
      cbn [mbind option_bind] in Hbuild.
      destruct (ToString summary) as [summaryText |] eqn:HsummaryText;
        [| discriminate].
      destruct Hnot as
        [Hnone | [(c & Hc & HcText) | [(elements & He & Hjoin)
                                      | (s' & Hs & HsText)]]].
      * destruct tags; try discriminate. by apply (Hnone elements).
      * congruence.
      * injection He as ->. simpl in HtagsText. congruence.
      * congruence.
  - intros s props elements categoryText tagsText summaryText
      [= <-] _ Hp Htags Hcategory Hjoin Hsummary.
    rewrite Hparse in Hp. injection Hp as ->.
    cbn [Obj.get mbind option_bind] in Hbuild. rewrite Hcategory in Hbuild.
    cbn [mbind option_bind] in Hbuild. rewrite Htags in Hbuild.
    cbn [join mbind option_bind] in Hbuild. rewrite Hjoin in Hbuild.
    cbn [mbind option_bind] in Hbuild. rewrite Hsummary in Hbuild.
    cbn [mbind option_bind] in Hbuild. injection Hbuild as <-. reflexivity.
Qed.

(** ** The calls and the outcome of [queryBrain] *)

Lemma readIntent_keywords parsed intent :
  readIntent parsed = Some intent ->
  Obj.get parsed "keywords" = Some (VString (ParsedIntent.keywords intent)).
Proof.
  intros Hread.
  destruct (readIntent_inv _ _ Hread) as (props & -> & Hkeywords & _).
  simpl. by rewrite Hkeywords.
Qed.

(** On a value that reads as an intent the filter does not throw. *)
Lemma filterM_intent (rt : Runtime) parsed intent notes :
  readIntent parsed = Some intent ->
  exists candidates,
    JS.filterM (hardFilter parsed) notes = Some candidates /\
    sublist candidates notes /\
    forall m, m ∈ candidates <-> m ∈ notes /\ survives intent m.
Proof.
  intros Hread. apply filterM_total.
  intros m _. by apply hardFilter_survives.
Qed.



(** X5.  When notes were retrieved and the synthesis call fails (it is
    rejected, has no text, or its text is not JSON), [queryBrain] still
    returns: the answer is the apology in the requested language, no
    note is cited, and the result carries no [usedFilters], unlike the
    result for an empty retrieval. *)
Theorem synthesis_failure (rt : Runtime) (w : World) (userQuery : str)
    (memories : nat) (language : Language) (parsed : Value)
    (relevantMemories : nat) (relevant : list Memory.t)
    (keywords : Value) (keywordsText : str) :
  (retrieve userQuery memories language w).1
  = Some (parsed, relevantMemories) ->
  memoryArrays (retrieve userQuery memories language w).2 !! relevantMemories
  = Some relevant ->
  relevant <> [] ->
  Obj.get parsed "keywords" = Some keywords ->
  ToString keywords = Some keywordsText ->
  callFails
    (generateContent
       [PromptPart
          (AnswerPrompt userQuery keywordsText (map contextEntry relevant)
             language)]) ->
  (queryBrain userQuery memories language w).1
  = Some
      {| fields :=
           [("answer",
             VString
               match language with
               | zh => "抱歉，生成回答时出错了。"
               | en => "Sorry, I had trouble processing your request."
               end);
            ("relatedIds", VArray [])];
         usedFilters := None |}.
Proof.
  intros Hsome Hrel Hne Hkeywords HkeywordsText Hfail.
  destruct (retrieve userQuery memories language w) as [outcome w'] eqn:Hret.
  cbn [fst snd] in *. subst outcome.
  rewrite (queryBrain_synthesis rt _ _ _ _ _ _ _ _ _ _ Hret Hrel Hne
             Hkeywords HkeywordsText).
  cbn [fst].
  destruct Hfail as [-> | [-> | [-> | (text & -> & Hparse)]]];
    try by destruct language.
  rewrite Hparse. by destruct (JS.truthy text), language.
Qed.

Lemma synthesis_failure_witness :
  (queryBrain (rt := offline) "pasta" 0 en sampleWorld).1
  = Some
      {| fields :=
           [("answer", VString "Sorry, I had trouble processing your request.");
            ("relatedIds", VArray [])];
         usedFilters := None |}.
Proof.
  apply (synthesis_failure offline sampleWorld "pasta" 0 en
           (fallbackIntent "pasta") 2 [pastaNote; reactNote]
           (VString "pasta") "pasta");
    [reflexivity | reflexivity | discriminate | reflexivity | reflexivity
     | by left].
Defined.

(** X6.  When notes were retrieved and the synthesis response parses,
    its properties are returned as they are (nothing checks them against
    a schema or against the retrieved notes), except [usedFilters]: the
    result always carries the parsed intent there, whatever the model
    put under that name. *)
Theorem synthesis_success (rt : Runtime) (w : World) (userQuery : str)
    (memories : nat) (language : Language) (parsed : Value)
    (relevantMemories : nat) (relevant : list Memory.t)
    (keywords : Value) (keywordsText : str)
    (responseText : str) (res : Value) :
  (retrieve userQuery memories language w).1
  = Some (parsed, relevantMemories) ->
  memoryArrays (retrieve userQuery memories language w).2 !! relevantMemories
  = Some relevant ->
  relevant <> [] ->
  Obj.get parsed "keywords" = Some keywords ->
  ToString keywords = Some keywordsText ->
  generateContent
    [PromptPart
       (AnswerPrompt userQuery keywordsText (map contextEntry relevant)
          language)]
  = Fulfilled (Some responseText) ->
  responseText <> [] ->
  JSON_parse responseText = Some res ->
  exists result,
    (queryBrain userQuery memories language w).1 = Some result /\
    usedFilters result = Some parsed /\
    Obj.lookup "usedFilters" (fields result) = VUndefined /\
    forall k, k <> "usedFilters" ->
      Obj.lookup k (fields result) = Obj.lookup k (Obj.own res).
Proof.
  intros Hsome Hrel Hne Hkeywords HkeywordsText Hresp Htext Hparse.
  destruct (retrieve userQuery memories language w) as [outcome w'] eqn:Hret.
  cbn [fst snd] in *. subst outcome.
  rewrite (queryBrain_synthesis rt _ _ _ _ _ _ _ _ _ _ Hret Hrel Hne
             Hkeywords HkeywordsText).
  cbn [fst]. rewrite Hresp.
  replace (JS.truthy responseText) with true
    by (symmetry; by apply truthy_true).
  rewrite Hparse. eexists. split; [reflexivity |]. cbn [fields usedFilters].
  split; [done |]. split; [apply lookup_remove_eq |].
  intros k Hk. by apply lookup_remove_ne.
Qed.

Lemma synthesis_success_witness :
  exists result,
    (queryBrain (rt := answersWith cookingIntent pastaAnswer)
       "how long do I boil pasta" 0 en sampleWorld).1 = Some result /\
    usedFilters result = Some cookingIntent /\
    Obj.lookup "answer" (fields result) = VString "Nine minutes.".
Proof.
  destruct (synthesis_success (answersWith cookingIntent pastaAnswer)
              sampleWorld "how long do I boil pasta" 0 en cookingIntent 2
              [pastaNote] (VString "") "" "answer" pastaAnswer)
    as (result & Hresult & Hfilters & _ & Hfields);
    [reflexivity | reflexivity | discriminate | reflexivity | reflexivity
     | reflexivity | discriminate | reflexivity |].
  exists result. split; [exact Hresult |]. split; [exact Hfilters |].
  rewrite (Hfields "answer") by discriminate. reflexivity.
Defined.

(** ** Categories *)

Lemma str_eq_dec (x y : str) : {x = y} + {x <> y}.
Proof.
  destruct (JS.eqb x y) eqn:E; [left; by apply eqb_eq | right; by apply eqb_neq].
Qed.

Lemma distinct_elem_of seen l x :
  x ∈ JS.distinct seen l <-> x ∈ l /\ x ∉ seen.
Proof.
  revert seen. induction l as [| y l IH]; intros seen; simpl.
  - split; [intros H; inversion H | intros [H _]; inversion H].
  - destruct (JS.includes seen y) eqn:Hy.
    + apply includes_elem_of in Hy. rewrite IH, elem_of_cons.
      split; [intros [? ?]; auto |].
      intros [[-> | ?] ?]; [contradiction | auto].
    + assert (Hy' : y ∉ seen)
        by (intros Hin; apply includes_elem_of in Hin; congruence).
      rewrite !elem_of_cons, IH, not_elem_of_cons.
      split.
      * intros [-> | (? & ? & ?)]; auto.
      * intros [[-> | ?] ?]; [auto |].
        destruct (str_eq_dec x y) as [-> | ?]; auto.
Qed.

Lemma distinct_NoDup seen l : NoDup (JS.distinct seen l).
Proof.
  revert seen. induction l as [| y l IH]; intros seen; simpl.
  - constructor.
  - destruct (JS.includes seen y); [apply IH |].
    constructor; [| apply IH].
    rewrite distinct_elem_of, not_elem_of_cons. intros (_ & Hne & _). done.
Qed.

Lemma distinct_sublist seen l : sublist (JS.distinct seen l) l.
Proof.
  revert seen. induction l as [| y l IH]; intros seen; simpl.
  - constructor.
  - destruct (JS.includes seen y); [apply sublist_cons | apply sublist_skip];
      apply IH.
Qed.

Lemma firstIndex_elem_of x l : x ∈ l -> exists i, firstIndex x l = Some i.
Proof.
  induction l as [| y l IH]; intros Hx; [inversion Hx |]. simpl.
  destruct (JS.eqb x y) eqn:E; [by exists O |].
  apply eqb_neq in E. apply elem_of_cons in Hx as [-> | Hx]; [done |].
  destruct (IH Hx) as (i & ->). by exists (S i).
Qed.

(** The distinct elements stand in the order of their first
    occurrences. *)
Lemma distinct_order seen l i j c d :
  JS.distinct seen l !! i = Some c ->
  JS.distinct seen l !! j = Some d ->
  (i < j)%nat ->
  exists i' j',
    firstIndex c l = Some i' /\ firstIndex d l = Some j' /\ (i' < j')%nat.
Proof.
  revert seen i j. induction l as [| y l IH]; intros seen i j; simpl;
    [intros H; inversion H |].
  assert (Hskip : forall seen' i0 j0,
            JS.distinct seen' l !! i0 = Some c ->
            JS.distinct seen' l !! j0 = Some d ->
            y ∈ seen' -> (i0 < j0)%nat ->
            exists i' j',
              (if JS.eqb c y then Some O
               else match firstIndex c l with
                    | Some k => Some (S k)
                    | None => None
                    end) = Some i' /\
              (if JS.eqb d y then Some O
               else match firstIndex d l with
                    | Some k => Some (S k)
                    | None => None
                    end) = Some j' /\ (i' < j')%nat).
  { intros seen' i0 j0 Hc Hd Hy Hlt.
    destruct (IH seen' i0 j0 Hc Hd Hlt) as (i' & j' & Hi & Hj & Hij).
    apply list_elem_of_lookup_2, distinct_elem_of in Hc as [_ Hc].
    apply list_elem_of_lookup_2, distinct_elem_of in Hd as [_ Hd].
    replace (JS.eqb c y) with false
      by (symmetry; apply eqb_neq; intros ->; contradiction).
    replace (JS.eqb d y) with false
      by (symmetry; apply eqb_neq; intros ->; contradiction).
    rewrite Hi, Hj. exists (S i'), (S j'). split; [done |]. split; [done | lia]. }
  destruct (JS.includes seen y) eqn:Hy.
  - intros Hc Hd Hlt. apply includes_elem_of in Hy.
    by apply (Hskip seen i j).
  - intros Hc Hd Hlt. destruct j as [| j]; [lia |]. simpl in Hd.
    destruct i as [| i]; simpl in Hc.
    + injection Hc as <-. rewrite eqb_refl.
      apply list_elem_of_lookup_2, distinct_elem_of in Hd as [Hdl Hd].
      apply not_elem_of_cons in Hd as [Hd _].
      replace (JS.eqb d y) with false by (symmetry; by apply eqb_neq).
      destruct (firstIndex_elem_of d l Hdl) as (j' & ->).
      exists O, (S j'). split; [done |]. split; [done | lia].
    + apply (Hskip (y :: seen) i j Hc Hd); [by left | lia].
Qed.

(** X7.  The categories handed to the intent parser ([uniqueCategories])
    and shown on the board are the categories of the notes, each once,
    in the order of their first note: of two categories of the list the
    one that comes first is the one whose first note comes first.  The
    [categories] memo is ["All"] followed by that list; the categories
    offered to the annotator ([existingCats]) are the memo's without
    ["All"], so a category that is itself named "All" is never
    offered. *)
Theorem categories_are_the_distinct_ones (notes : list Memory.t) :
  NoDup (JS.distinct [] (map Memory.category notes)) /\
  sublist (JS.distinct [] (map Memory.category notes))
          (map Memory.category notes) /\
  (forall c,
     c ∈ JS.distinct [] (map Memory.category notes)
     <-> exists m, m ∈ notes /\ Memory.category m = c) /\
  (forall i j c d,
     JS.distinct [] (map Memory.category notes) !! i = Some c ->
     JS.distinct [] (map Memory.category notes) !! j = Some d ->
     (i < j)%nat ->
     exists i' j',
       firstIndex c (map Memory.category notes) = Some i' /\
       firstIndex d (map Memory.category notes) = Some j' /\
       (i' < j')%nat) /\
  App.categories notes
  = "All" :: JS.distinct [] (map Memory.category notes) /\
  (forall c,
     c ∈ App.categories notes
     <-> c = "All" \/ exists m, m ∈ notes /\ Memory.category m = c) /\
  App.existingCats (App.categories notes)
  = List.filter (fun c => negb (JS.eqb c "All"))
      (JS.distinct [] (map Memory.category notes)) /\
  NoDup (App.existingCats (App.categories notes)) /\
  (forall c,
     c ∈ App.existingCats (App.categories notes)
     <-> c <> "All" /\ exists m, m ∈ notes /\ Memory.category m = c).
Proof.
  assert (Hcats : forall c,
            c ∈ JS.distinct [] (map Memory.category notes)
            <-> exists m, m ∈ notes /\ Memory.category m = c).
  { intros c. rewrite distinct_elem_of, list_elem_of_fmap.
    split.
    - intros [(m & -> & Hm) _]. eauto.
    - intros (m & Hm & <-). split; [eauto | apply not_elem_of_nil]. }
  assert (Hexisting : App.existingCats (App.categories notes)
            = List.filter (fun c => negb (JS.eqb c "All"))
                (JS.distinct [] (map Memory.category notes)))
    by reflexivity.
  split; [apply distinct_NoDup |]. split; [apply distinct_sublist |].
  split; [exact Hcats |].
  split; [intros i j c d; apply distinct_order |].
  split; [reflexivity |].
  split.
  { intros c. unfold App.categories. rewrite elem_of_cons, Hcats. tauto. }
  split; [exact Hexisting |].
  split.
  { rewrite Hexisting.
    eapply sublist_NoDup; [apply distinct_NoDup | apply sublist_filter_bool]. }
  intros c. rewrite Hexisting, elem_of_filter_bool, Hcats.
  rewrite negb_true_iff, eqb_neq. tauto.
Qed.

(** ** Ranking candidates that have no embedding *)

Lemma sort_no_swap {A} (cmp : A -> A -> comparison) (l : list A) :
  (forall x y, x ∈ l -> y ∈ l -> cmp x y <> Gt) -> JS.sort cmp l = l.
Proof.
  induction l as [| x l IH]; intros Hcmp; [reflexivity |].
  change (JS.sort cmp (x :: l)) with (JS.insert cmp x (JS.sort cmp l)).
  rewrite IH by (intros; apply Hcmp; by right).
  destruct l as [| y l']; [reflexivity |]. simpl.
  destruct (cmp x y) eqn:Hxy; try reflexivity.
  exfalso. apply (Hcmp x y); [by left | right; by left | done].
Qed.

(** X8.  When the keywords are longer than one character (UTF-16 code
    unit) and no candidate has a stored embedding, the semantic ranking
    changes nothing: every candidate gets the score -1, the stable sort
    leaves the list as it is, and [relevantMemories] is the first 10
    candidates in the order of the note collection, whether or not the
    keyword embedding succeeds. *)
Theorem unscored_candidates_keep_their_order (rt : Runtime) (w : World)
    (parsed : Value) (keywords : str) (filteredMemories : nat)
    (candidates : list Memory.t) :
  Obj.get parsed "keywords" = Some (VString keywords) ->
  (1 < length keywords)%nat ->
  memoryArrays w !! filteredMemories = Some candidates ->
  Forall (fun m => Memory.embedding m = None) candidates ->
  exists relevantMemories,
    (rankMemories parsed filteredMemories w).1 = Some relevantMemories /\
    memoryArrays (rankMemories parsed filteredMemories w).2 !! relevantMemories
    = Some (take 10 candidates).
Proof.
  intros Hkeywords Hlong Hcand Hnone.
  assert (Htest : keywordsTest parsed = Some true).
  { rewrite (keywordsTest_string rt _ _ Hkeywords). f_equal.
    apply Nat.ltb_lt. lia. }
  rewrite (rank_by_score_run rt _ _ _ _ _ Hkeywords Htest Hcand). cbn [fst snd].
  exists (length (memoryArrays w)). split; [reflexivity |].
  destruct ((getEmbedding (VString keywords) w).1)
    as [queryEmbedding |]; [| apply lookup_new].
  destruct candidates as [| c cs] eqn:Hcs; [apply lookup_new |].
  rewrite <- Hcs in *. cbn [memoryArrays].
  rewrite sort_no_swap.
  - rewrite <- firstn_map, map_memory_withScore. apply lookup_new.
  - intros x y Hx Hy.
    apply list_elem_of_fmap in Hx as (mx & -> & Hmx).
    apply list_elem_of_fmap in Hy as (my & -> & Hmy).
    rewrite Forall_forall in Hnone.
    unfold byScore, withScore.
    rewrite (Hnone _ Hmx), (Hnone _ Hmy). simpl. discriminate.
Qed.

Lemma unscored_candidates_keep_their_order_witness :
  exists relevantMemories,
    (rankMemories (rt := embedsAs [1%float]) (fallbackIntent "意大利面") 0
       sampleWorld).1 = Some relevantMemories /\
    memoryArrays
      (rankMemories (rt := embedsAs [1%float]) (fallbackIntent "意大利面") 0
         sampleWorld).2
      !! relevantMemories
    = Some [pastaNote; reactNote].
Proof.
  apply (unscored_candidates_keep_their_order (embedsAs [1%float]) sampleWorld
           (fallbackIntent "意大利面") "意大利面" 0 [pastaNote; reactNote]).
  - reflexivity.
  - vm_compute. lia.
  - reflexivity.
  - repeat constructor.
Defined.

(** ** The hard filter as a conjunction *)

(** The filter on an intent written with a string or [null] category,
    strings as tags and numbers or [null] as dates: it does not throw,
    and it is the conjunction of four tests. *)
Lemma hardFilter_intent (rt : Runtime) (keywords : str) (category : option str)
    (tags : list str) (startDate endDate : option float) (m : Memory.t) :
  hardFilter
    (intent keywords (orNull VString category) tags
       (orNull VNumber startDate) (orNull VNumber endDate)) m
  = Some
      (negb match category with
            | Some c =>
                JS.truthy c
                && negb (JS.eqb (toLowerCase (Memory.category m))
                           (toLowerCase c))
            | None => false
            end
       && negb ((0 <? length tags)%nat
                && negb (existsb
                           (fun t => JS.includes (Memory.tags m) (toLowerCase t))
                           tags))
       && negb match startDate with
               | Some s => Number.truthy s && Number.lt (Memory.createdAt m) s
               | None => false
               end
       && negb match endDate with
               | Some e => Number.truthy e && Number.gt (Memory.createdAt m) e
               | None => false
               end).
Proof.
  unfold hardFilter, intent. cbn [Obj.get].
  change (Obj.lookup "category" _) with (orNull VString category).
  change (Obj.lookup "tags" _) with (VArray (map VString tags)).
  change (Obj.lookup "startDate" _) with (orNull VNumber startDate).
  change (Obj.lookup "endDate" _) with (orNull VNumber endDate).
  cbn [mbind option_bind].
  assert (Hc : (if truthyValue (orNull VString category)
                then
                  requested ← callToLowerCase (orNull VString category);
                  Some (negb (JS.eqb (toLowerCase (Memory.category m))
                                requested))
                else Some false)
               = Some match category with
                      | Some c =>
                          JS.truthy c
                          && negb (JS.eqb (toLowerCase (Memory.category m))
                                     (toLowerCase c))
                      | None => false
                      end).
  { destruct category as [c |]; simpl; [by destruct (JS.truthy c) | done]. }
  rewrite Hc. clear Hc. cbn [mbind option_bind].
  destruct (match category with
            | Some c => _
            | None => false
            end); [done |].
  cbn [negb andb lengthGreaterThan mbind option_bind callSome].
  rewrite length_map, someM_strings.
  destruct (0 <? length tags)%nat; cbn [mbind option_bind andb negb].
  - destruct (existsb _ tags); cbn [negb]; [| done].
    destruct startDate as [s |], endDate as [e |]; simpl;
      unfold lessThan, greaterThan; simpl;
      repeat match goal with
             | |- context [Number.truthy ?x] => destruct (Number.truthy x)
             | |- context [Number.lt ?z ?x] => destruct (Number.lt z x)
             | |- context [Number.gt ?z ?x] => destruct (Number.gt z x)
             end; reflexivity.
  - destruct startDate as [s |], endDate as [e |]; simpl;
      unfold lessThan, greaterThan; simpl;
      repeat match goal with
             | |- context [Number.truthy ?x] => destruct (Number.truthy x)
             | |- context [Number.lt ?z ?x] => destruct (Number.lt z x)
             | |- context [Number.gt ?z ?x] => destruct (Number.gt z x)
             end; reflexivity.
Qed.

(** X9.  The hard filter is the conjunction of its four tests, each of
    which reads one field of the intent and ignores the keywords: a note
    is a candidate if and only if it passes the category filter alone,
    the tag filter alone, the start-date filter alone and the end-date
    filter alone. *)
Theorem hard_filter_is_a_conjunction (rt : Runtime) (keywords keywords' : str)
    (category : option str) (tags : list str)
    (startDate endDate : option float) (m : Memory.t) :
  exists byCategory byTags byStart byEnd : bool,
    hardFilter
      (intent keywords' (orNull VString category) [] VNull VNull) m
    = Some byCategory /\
    hardFilter (intent keywords' VNull tags VNull VNull) m = Some byTags /\
    hardFilter
      (intent keywords' VNull [] (orNull VNumber startDate) VNull) m
    = Some byStart /\
    hardFilter
      (intent keywords' VNull [] VNull (orNull VNumber endDate)) m
    = Some byEnd /\
    hardFilter
      (intent keywords (orNull VString category) tags
         (orNull VNumber startDate) (orNull VNumber endDate)) m
    = Some (byCategory && byTags && byStart && byEnd).
Proof.
  pose proof (hardFilter_intent rt keywords' category [] None None m) as H1.
  pose proof (hardFilter_intent rt keywords' None tags None None m) as H2.
  pose proof (hardFilter_intent rt keywords' None [] startDate None m) as H3.
  pose proof (hardFilter_intent rt keywords' None [] None endDate m) as H4.
  cbn [orNull length] in H1, H2, H3, H4.
  change (0 <? 0)%nat with false in H1, H3, H4.
  cbn [andb negb] in H1, H2, H3, H4.
  exists (negb match category with
               | Some c =>
                   JS.truthy c
                   && negb (JS.eqb (toLowerCase (Memory.category m))
                              (toLowerCase c))
               | None => false
               end),
         (negb ((0 <? length tags)%nat
                && negb (existsb
                           (fun t => JS.includes (Memory.tags m) (toLowerCase t))
                           tags))),
         (negb match startDate with
               | Some s => Number.truthy s && Number.lt (Memory.createdAt m) s
               | None => false
               end),
         (negb match endDate with
               | Some e => Number.truthy e && Number.gt (Memory.createdAt m) e
               | None => false
               end).
  split; [rewrite H1; by rewrite !andb_true_r |].
  split; [rewrite H2; by rewrite !andb_true_r |].
  split; [rewrite H3; by rewrite ?andb_true_r |].
  split; [exact H4 |]. apply hardFilter_intent.
Qed.

(** X10.  Asking for more tags never loses a candidate: the tag filter
    is a disjunction over the requested tags, so a note that passes for
    a non-empty tag list passes for every longer one. *)
Theorem more_requested_tags_keep_candidates (rt : Runtime) (keywords : str)
    (category : Value) (tags more : list str)
    (startDate endDate : Value) (m : Memory.t) :
  tags <> [] ->
  hardFilter (intent keywords category tags startDate endDate) m = Some true ->
  hardFilter (intent keywords category (tags ++ more) startDate endDate) m
  = Some true.
Proof.
  intros Hne. unfold hardFilter, intent. cbn [Obj.get].
  change (Obj.lookup "category" _) with category.
  change (Obj.lookup "tags"
            [("keywords", VString keywords); ("category", category);
             ("tags", VArray (map VString tags)); ("startDate", startDate);
             ("endDate", endDate)])
    with (VArray (map VString tags)).
  change (Obj.lookup "tags" _) with (VArray (map VString (tags ++ more))).
  change (Obj.lookup "startDate" _) with startDate.
  change (Obj.lookup "endDate" _) with endDate.
  cbn [mbind option_bind].
  destruct (if truthyValue category then _ else Some false) as [[|] |];
    cbn [mbind option_bind]; [done | | done].
  cbn [lengthGreaterThan mbind option_bind callSome].
  rewrite !length_map, !someM_strings, existsb_app.
  destruct tags as [| t tags']; [done |].
  cbn [length app]. change (0 <? S _)%nat with true.
  cbn [mbind option_bind].
  destruct (existsb _ (t :: tags')); [| done].
  cbn [orb negb]. done.
Qed.

Lemma more_requested_tags_keep_candidates_witness :
  hardFilter (rt := offline)
    (intent "" VNull (["pasta"] ++ ["react"]) VNull VNull) pastaNote
  = Some true.
Proof.
  apply (more_requested_tags_keep_candidates offline "" VNull ["pasta"]
           ["react"] VNull VNull pastaNote); [discriminate | reflexivity].
Defined.

(** X11.  A request whose intent has an inverted date range (both
    bounds set and not 0, the end before the start) retrieves nothing:
    no note passes the hard filter, so [queryBrain] answers with the
    canned "no memories" text, cites no note and reports the parsed
    intent as [usedFilters]. *)
Theorem inverted_date_range_finds_nothing (rt : Runtime) (w : World)
    (userQuery : str) (memories : nat) (language : Language)
    (notes : list Memory.t) (intent : ParsedIntent.t) (startDate endDate : Z) :
  memoryArrays w !! memories = Some notes ->
  readIntent
    (parseSearchIntent userQuery
       (JS.distinct [] (map Memory.category notes)) language w).1
  = Some intent ->
  ParsedIntent.startDate intent = Some startDate ->
  ParsedIntent.endDate intent = Some endDate ->
  startDate <> 0 ->
  endDate <> 0 ->
  endDate < startDate ->
  (queryBrain userQuery memories language w).1
  = Some
      {| fields := [("answer", VString (noMatches language));
                    ("relatedIds", VArray [])];
         usedFilters :=
           Some (parseSearchIntent userQuery
                   (JS.distinct [] (map Memory.category notes)) language w).1 |}.
Proof.
  intros Hnotes Hread Hstart Hend Hne0 Hne Hlt.
  pose proof (retrieve_run rt userQuery memories language w notes Hnotes)
    as Hrun.
  cbv zeta in Hrun.
  set (parsed := (parseSearchIntent userQuery
                    (JS.distinct [] (map Memory.category notes)) language w).1)
    in *.
  destruct (filterM_intent rt parsed intent notes Hread)
    as (candidates & Hfilter & _ & Hin).
  assert (Hnone : candidates = []).
  { destruct candidates as [| m candidates']; [reflexivity |]. exfalso.
    destruct (proj1 (Hin m)) as (_ & _ & _ & Hs & He); [by left |].
    unfold startCondition in Hs. unfold endCondition in He.
    rewrite Hstart in Hs. rewrite Hend in He. lia. }
  subst candidates.
  rewrite Hfilter,
    (keywordsTest_string rt _ _ (readIntent_keywords _ _ Hread)) in Hrun.
  destruct Hrun as (keywords & relevant & second & _ & Hres & Harrays & _
                    & Hlen & _).
  simpl in Hlen. destruct relevant; [| discriminate].
  destruct (retrieve userQuery memories language w) as [outcome w'] eqn:Hret.
  cbn [fst snd] in *. subst outcome.
  rewrite (queryBrain_no_matches rt _ _ _ _ _ _ _ Hret); [reflexivity |].
  rewrite Harrays. apply lookup_second_new.
Qed.

Lemma inverted_date_range_finds_nothing_witness :
  (queryBrain
     (rt := answers
              (intent "pasta" VNull [] (VNumber 3000%float)
                 (VNumber 500%float)))
     "pasta between tomorrow and yesterday" 0 en sampleWorld).1
  = Some
      {| fields :=
           [("answer",
             VString
               "Sorry, I couldn't find any memories matching those filters.");
            ("relatedIds", VArray [])];
         usedFilters :=
           Some (intent "pasta" VNull [] (VNumber 3000%float)
                   (VNumber 500%float)) |}.
Proof.
  apply (inverted_date_range_finds_nothing
           (answers
              (intent "pasta" VNull [] (VNumber 3000%float)
                 (VNumber 500%float)))
           sampleWorld "pasta between tomorrow and yesterday" 0 en
           [pastaNote; reactNote]
           (ParsedIntent.mk "pasta" None [] (Some 3000) (Some 500)) 3000 500);
    [reflexivity | vm_compute; reflexivity | reflexivity | reflexivity
     | lia | lia | lia].
Defined.

(** * The application *)

(** ** Saving a note ([App.handleSubmit]) *)

(** [analyzeContent] always resolves to an object, sends the annotation
    request first and leaves the arrays and the clock alone. *)
Lemma analyzeContent_run (rt : Runtime) text base64Image existingCategories
    language w :
  exists props embedCalls,
    analyzeContent text base64Image existingCategories language w
    = (VObject props,
       {| memoryArrays := memoryArrays w;
          scoredArrays := scoredArrays w;
          calls := calls w ++
            GenerateContent
              (analysisParts text base64Image existingCategories language)
            :: embedCalls;
          clock := clock w |}) /\
    (annotationFails
       (generateContent
          (analysisParts text base64Image existingCategories language)) ->
     VObject props = degradedResult text).
Proof.
  set (parts := analysisParts text base64Image existingCategories language).
  assert (Hdegraded :
    analyzeContent text base64Image existingCategories language w
    = (degradedResult text,
       {| memoryArrays := memoryArrays w; scoredArrays := scoredArrays w;
          calls := calls w ++ [GenerateContent parts]; clock := clock w |}) ->
    exists props embedCalls,
      analyzeContent text base64Image existingCategories language w
      = (VObject props,
         {| memoryArrays := memoryArrays w; scoredArrays := scoredArrays w;
            calls := calls w ++ GenerateContent parts :: embedCalls;
            clock := clock w |}) /\
      (annotationFails (generateContent parts) ->
       VObject props = degradedResult text))
    by (intros ->; eexists _, []; split; [reflexivity | done]).
  destruct (generateContent parts) as [| [responseText |]] eqn:Hresp.
  1, 3: (apply Hdegraded;
         cbv [analyzeContent try_catch bind record ret await truthyText];
         fold parts; by rewrite Hresp).
  destruct (JS.truthy responseText) eqn:Htruthy.
  2: { apply Hdegraded.
       cbv [analyzeContent try_catch bind record ret await truthyText].
       fold parts. by rewrite Hresp, Htruthy. }
  destruct (JSON_parse responseText) as [result |] eqn:Hparse.
  2: { apply Hdegraded.
       cbv [analyzeContent try_catch bind record ret await truthyText].
       fold parts. by rewrite Hresp, Htruthy, Hparse. }
  apply truthy_true in Htruthy.
  pose proof (analyzeContent_parsed rt text base64Image existingCategories
                language w responseText result Hresp Htruthy Hparse) as Hrun.
  fold parts in Hrun. cbv zeta in Hrun.
  destruct (category ← Obj.get result "category";
            categoryText ← ToString category;
            tags ← Obj.get result "tags";
            tagsText ← join tags ", ";
            summary ← Obj.get result "summary";
            summaryText ← ToString summary;
            Some (textToEmbed categoryText tagsText summaryText text))
    as [toEmbed |] eqn:Hbuild; [| by apply Hdegraded].
  clear Hdegraded. rewrite Hrun.
  eexists _, [EmbedContent (VString toEmbed)].
  split; [by rewrite <- app_assoc |].
  intros Hfail. exfalso.
  destruct Hfail as [Hfail | (s & v & [= <-] & Hv & Hnot)].
  - destruct Hfail as [Hf | [Hf | [Hf | (s & [= <-] & Hs)]]];
      try discriminate.
    + injection Hf as ->. by apply Htruthy.
    + congruence.
  - rewrite Hparse in Hv. injection Hv as <-.
    destruct (Obj.get result "category") as [category |] eqn:Hcategory;
      [| discriminate].
    cbn [mbind option_bind] in Hbuild.
    destruct (ToString category) as [categoryText |] eqn:HcategoryText;
      [| discriminate].
    cbn [mbind option_bind] in Hbuild.
    destruct (Obj.get result "tags") as [tags |] eqn:Htags;
      [| discriminate].
    cbn [mbind option_bind] in Hbuild.
    destruct (join tags ", ") as [tagsText |] eqn:HtagsText;
      [| discriminate].
    cbn [mbind option_bind] in Hbuild.
    destruct (Obj.get result "summary") as [summary |] eqn:Hsummary;
      [| discriminate].
    cbn [mbind option_bind] in Hbuild.
    destruct (ToString summary) as [summaryText |] eqn:HsummaryText;
      [| discriminate].
    destruct Hnot as
      [Hnone | [(c & Hc & HcText) | [(elements & He & Hjoin)
                                    | (s' & Hs & HsText)]]].
    + destruct tags; try discriminate. by apply (Hnone elements).
    + congruence.
    + injection He as ->. simpl in HtagsText. congruence.
    + congruence.
Qed.

(** The whole of [handleSubmit] when the file, if any, can be read. *)
Lemma handleSubmit_run (rt : Runtime) (casts : Casts) id st categories text
    image w :
  image <> Some Unreadable ->
  exists props embedCalls,
    analyzeContent text
      match image with
      | Some (Readable dataURL) => Some dataURL
      | _ => None
      end
      (App.existingCats categories) (App.language st) w
    = (VObject props,
       {| memoryArrays := memoryArrays w;
          scoredArrays := scoredArrays w;
          calls := calls w ++
            GenerateContent
              (analysisParts text
                 match image with
                 | Some (Readable dataURL) => Some dataURL
                 | _ => None
                 end
                 (App.existingCats categories) (App.language st))
            :: embedCalls;
          clock := clock w |}) /\
    App.handleSubmit id st categories text image w
    = (({| App.memories := length (memoryArrays w);
           App.isProcessing := false;
           App.selectedCategory := App.selectedCategory st;
           App.showChat := App.showChat st;
           App.highlightedIds := App.highlightedIds st;
           App.language := App.language st |}, false),
       {| memoryArrays :=
            memoryArrays w ++
            [{| Memory.id := id;
                Memory.originalContent :=
                  if JS.truthy text then text
                  else match image with
                       | Some _ => "Image Upload"
                       | None => ""
                       end;
                Memory.type :=
                  match image with Some _ => IMAGE | None => TEXT end;
                Memory.imageData :=
                  truthyText
                    match image with
                    | Some (Readable dataURL) => Some dataURL
                    | _ => None
                    end;
                Memory.summary := asString (Obj.lookup "summary" props);
                Memory.tags := asStringArray (Obj.lookup "tags" props);
                Memory.category := asString (Obj.lookup "category" props);
                Memory.createdAt := clock w;
                Memory.embedding := None |}
             :: default [] (memoryArrays w !! App.memories st)];
          scoredArrays := scoredArrays w;
          calls := calls w ++
            GenerateContent
              (analysisParts text
                 match image with
                 | Some (Readable dataURL) => Some dataURL
                 | _ => None
                 end
                 (App.existingCats categories) (App.language st))
            :: embedCalls;
          clock := clock w |}).
Proof.
  intros Hreadable.
  destruct (analyzeContent_run rt text
              match image with
              | Some (Readable dataURL) => Some dataURL
              | _ => None
              end
              (App.existingCats categories) (App.language st) w)
    as (props & embedCalls & Hrun & _).
  exists props, embedCalls. split; [exact Hrun |].
  unfold App.handleSubmit.
  destruct image as [[| dataURL] |]; [done | |];
    cbv [bind readMemories Date_now newMemories ret];
    rewrite Hrun; reflexivity.
Qed.

(** X13.  Saving a note whose file (if any) can be read raises no alert
    and puts exactly one new note in front of the collection, in a new
    array (the previous array is left as it was).  The note has the id
    handed out, the clock's time, the type [IMAGE] exactly when a file
    was attached, the typed text as content (for an image without text,
    "Image Upload"), and never an embedding: the vector computed by the
    annotator is not stored.  The other parts of the page state are
    kept and [isProcessing] is reset. *)
Theorem saved_note (rt : Runtime) (casts : Casts) (id : str)
    (st : App.State) (categories : list str) (text : str)
    (image : option File) (w : World) (prev : list Memory.t) :
  image <> Some Unreadable ->
  memoryArrays w !! App.memories st = Some prev ->
  exists note,
    memoryArrays (App.handleSubmit id st categories text image w).2
    = memoryArrays w ++ [note :: prev] /\
    (App.handleSubmit id st categories text image w).1
    = ({| App.memories := length (memoryArrays w);
          App.isProcessing := false;
          App.selectedCategory := App.selectedCategory st;
          App.showChat := App.showChat st;
          App.highlightedIds := App.highlightedIds st;
          App.language := App.language st |}, false) /\
    Memory.id note = id /\
    Memory.createdAt note = clock w /\
    Memory.embedding note = None /\
    Memory.type note = match image with Some _ => IMAGE | None => TEXT end /\
    Memory.originalContent note
    = match text, image with
      | [], Some _ => "Image Upload"
      | _, _ => text
      end.
Proof.
  intros Hreadable Hprev.
  destruct (handleSubmit_run rt casts id st categories text image w Hreadable)
    as (props & embedCalls & _ & Hrun).
  rewrite Hrun, Hprev. cbn [fst snd memoryArrays default from_option].
  eexists. split; [reflexivity |]. split; [reflexivity |].
  cbn [Memory.id Memory.createdAt Memory.embedding Memory.type
       Memory.originalContent].
  repeat split. by destruct text, image.
Qed.

Lemma saved_note_witness :
  exists note,
    memoryArrays
      (App.handleSubmit (rt := annotatesAs (VObject pastaAnnotation) [1%float])
         (casts := exactCasts) "n3" freshApp ["All"; "Cooking"; "Coding"]
         "Boil the pasta" None sampleWorld).2
    = [[pastaNote; reactNote]; [note; pastaNote; reactNote]] /\
    Memory.embedding note = None.
Proof.
  destruct (saved_note (annotatesAs (VObject pastaAnnotation) [1%float])
              exactCasts "n3" freshApp ["All"; "Cooking"; "Coding"]
              "Boil the pasta" None sampleWorld [pastaNote; reactNote])
    as (note & Harrays & _ & _ & _ & Hembedding & _);
    [discriminate | reflexivity |].
  exists note. split; [exact Harrays | exact Hembedding].
Defined.

(** X14.  [handleSubmit] alerts exactly when the attached file cannot
    be read.  In that case nothing else happens: no model is called, no
    array is allocated and the collection is the one before. *)
Theorem alert_only_for_an_unreadable_file (rt : Runtime) (casts : Casts)
    (id : str) (st : App.State) (categories : list str) (text : str)
    (image : option File) (w : World) :
  ((App.handleSubmit id st categories text image w).1.2 = true
   <-> image = Some Unreadable) /\
  (App.handleSubmit id st categories text (Some Unreadable) w).2 = w /\
  App.memories
    (App.handleSubmit id st categories text (Some Unreadable) w).1.1
  = App.memories st.
Proof.
  split; [| by split]. split.
  - intros Halert.
    assert (Hcases : image = Some Unreadable \/ image <> Some Unreadable)
      by (destruct image as [[| dataURL] |]; auto; right; discriminate).
    destruct Hcases as [| Hreadable]; [done |].
    destruct (handleSubmit_run rt casts id st categories text image w
                Hreadable)
      as (props & embedCalls & _ & Hrun).
    rewrite Hrun in Halert. discriminate.
  - by intros ->.
Qed.

(** X15.  When the annotation fails, the note is saved all the same,
    with the degraded annotation: the first 50 characters (UTF-16 code
    units) of the text followed by "..." as summary, the single tag
    "uncategorized" and the category "General".  The categories listed
    in the failed request are those of the [categories] memo that the
    handler holds, without "All".  (The casts are the identity on
    values of the declared types.) *)
Theorem failed_annotation_saves_a_degraded_note (rt : Runtime) (casts : Casts)
    (id : str) (st : App.State) (categories : list str) (text : str)
    (image : option File) (w : World) (prev : list Memory.t) :
  (forall s, asString (VString s) = s) ->
  (forall l, asStringArray (VArray (map VString l)) = l) ->
  image <> Some Unreadable ->
  memoryArrays w !! App.memories st = Some prev ->
  annotationFails
    (generateContent
       (analysisParts text
          match image with
          | Some (Readable dataURL) => Some dataURL
          | _ => None
          end
          (List.filter (fun c => negb (JS.eqb c "All")) categories)
          (App.language st))) ->
  exists note,
    memoryArrays (App.handleSubmit id st categories text image w).2
      !! App.memories (App.handleSubmit id st categories text image w).1.1
    = Some (note :: prev) /\
    Memory.summary note = take 50 text ++ "..." /\
    Memory.tags note = ["uncategorized"] /\
    Memory.category note = "General".
Proof.
  intros HasString HasArray Hreadable Hprev Hfail.
  destruct (handleSubmit_run rt casts id st categories text image w Hreadable)
    as (props & embedCalls & Hanalysis & Hrun).
  destruct (analyzeContent_run rt text
              match image with
              | Some (Readable dataURL) => Some dataURL
              | _ => None
              end
              (App.existingCats categories) (App.language st) w)
    as (props' & embedCalls' & Hanalysis' & Hdegraded).
  rewrite Hanalysis in Hanalysis'. injection Hanalysis' as <- _.
  specialize (Hdegraded Hfail). injection Hdegraded as ->.
  rewrite Hrun, Hprev. cbn [fst snd memoryArrays App.memories].
  eexists. split; [apply lookup_new |].
  cbn [Memory.summary Memory.tags Memory.category].
  split; [apply HasString |]. split; [| apply HasString].
  exact (HasArray ["uncategorized"]).
Qed.

Lemma failed_annotation_saves_a_degraded_note_witness :
  exists note,
    memoryArrays
      (App.handleSubmit (rt := offline) (casts := exactCasts) "n3" freshApp
         ["All"; "Cooking"; "Coding"] chineseNote None sampleWorld).2
      !! App.memories
           (App.handleSubmit (rt := offline) (casts := exactCasts) "n3"
              freshApp ["All"; "Cooking"; "Coding"] chineseNote None
              sampleWorld).1.1
    = Some [note; pastaNote; reactNote] /\
    Memory.summary note = take 50 chineseNote ++ "..." /\
    Memory.tags note = ["uncategorized"] /\
    Memory.category note = "General".
Proof.
  apply (failed_annotation_saves_a_degraded_note offline exactCasts "n3"
           freshApp ["All"; "Cooking"; "Coding"] chineseNote None sampleWorld
           [pastaNote; reactNote]).
  - reflexivity.
  - intros l. simpl. rewrite map_map. apply map_id.
  - discriminate.
  - reflexivity.
  - left. left. reflexivity.
Defined.

(** The request lists the categories in the order of the memo, which
    was computed before the board sorted the collection in place: with
    the notes stored oldest first, the memo is Cooking, Coding, and it
    stays so after the board has put the Coding note first. *)
Example request_lists_the_categories_of_the_memo :
  let categories := App.categories [pastaNote; reactNote] in
  let sorted := (App.filteredMemories 0 "All" sampleWorld).2 in
  memoryArrays sorted = [[reactNote; pastaNote]] /\
  calls
    (App.handleSubmit (rt := offline) (casts := exactCasts) "n3" freshApp
       categories "Boil the pasta" None sorted).2
  = [GenerateContent
       [PromptPart (AnalysisPrompt ["Cooking"; "Coding"] en);
        TextPart "Boil the pasta"]].
Proof. split; reflexivity. Qed.

(** ** The board ([filteredMemories], [handleHighlight]) *)

Lemma sort_byRecency_sorted (l : list Memory.t) :
  StronglySorted (fun x y => Memory.createdAt y <= Memory.createdAt x)
    (JS.sort byRecency l).
Proof.
  eapply StronglySorted_weaken;
    [| apply sort_StronglySorted, byRecency_Consistent].
  intros x y. apply byRecency_mayPrecede.
Qed.

(** X16.  With the category "All" the board does not copy the
    collection: it sorts the state array itself, in place, and shows
    that same array.  Afterwards the collection holds the same notes,
    most recent first, and every other array is as before. *)
Theorem board_sorts_the_collection_in_place (w : World) (memories : nat)
    (notes : list Memory.t) :
  memoryArrays w !! memories = Some notes ->
  exists shown,
    App.filteredMemories memories "All" w
    = (memories,
       {| memoryArrays := <[memories := shown]> (memoryArrays w);
          scoredArrays := scoredArrays w;
          calls := calls w; clock := clock w |}) /\
    shown ≡ₚ notes /\
    StronglySorted (fun x y => Memory.createdAt y <= Memory.createdAt x) shown /\
    memoryArrays (App.filteredMemories memories "All" w).2 !! memories
    = Some shown /\
    forall a, a <> memories ->
      memoryArrays (App.filteredMemories memories "All" w).2 !! a
      = memoryArrays w !! a.
Proof.
  intros Hnotes. exists (JS.sort byRecency notes).
  assert (Hrun : App.filteredMemories memories "All" w
                 = (memories,
                    {| memoryArrays :=
                         <[memories := JS.sort byRecency notes]> (memoryArrays w);
                       scoredArrays := scoredArrays w;
                       calls := calls w; clock := clock w |})).
  { unfold App.filteredMemories.
    change (negb (JS.eqb "All" "All")) with false. cbv iota.
    unfold bind at 1, ret. by apply sortMemories_run. }
  rewrite Hrun. cbn [fst snd memoryArrays].
  split; [done |]. split; [apply sort_Permutation |].
  split; [apply sort_byRecency_sorted |].
  split.
  - apply list_lookup_insert_eq. by eapply lookup_lt_Some.
  - intros a Ha. by apply list_lookup_insert_ne.
Qed.

Lemma board_sorts_the_collection_in_place_witness :
  exists shown,
    App.filteredMemories 0 "All" sampleWorld
    = (0%nat,
       {| memoryArrays := <[0%nat := shown]> (memoryArrays sampleWorld);
          scoredArrays := []; calls := []; clock := 5000 |}) /\
    shown ≡ₚ [pastaNote; reactNote] /\
    StronglySorted (fun x y => Memory.createdAt y <= Memory.createdAt x) shown /\
    memoryArrays (App.filteredMemories 0 "All" sampleWorld).2 !! 0%nat
    = Some shown /\
    forall a, a <> 0%nat ->
      memoryArrays (App.filteredMemories 0 "All" sampleWorld).2 !! a
      = memoryArrays sampleWorld !! a.
Proof.
  exact (board_sorts_the_collection_in_place sampleWorld 0
           [pastaNote; reactNote] eq_refl).
Defined.

(** X17.  With any other category selected the board shows a fresh
    array and leaves the collection as it is.  The notes shown are
    exactly the notes whose category is the selected one, compared as
    it is spelled (the board's filter is case-sensitive, unlike the
    hard filter of [queryBrain]), most recent first. *)
Theorem board_of_a_category (w : World) (memories : nat)
    (notes : list Memory.t) (selectedCategory : str) :
  memoryArrays w !! memories = Some notes ->
  selectedCategory <> "All" ->
  exists shown,
    App.filteredMemories memories selectedCategory w
    = (length (memoryArrays w),
       {| memoryArrays := memoryArrays w ++ [shown];
          scoredArrays := scoredArrays w;
          calls := calls w; clock := clock w |}) /\
    (forall m, m ∈ shown <-> m ∈ notes /\ Memory.category m = selectedCategory) /\
    shown ⊆+ notes /\
    StronglySorted (fun x y => Memory.createdAt y <= Memory.createdAt x) shown.
Proof.
  intros Hnotes Hcategory.
  exists (JS.sort byRecency
            (List.filter
               (fun m => JS.eqb (Memory.category m) selectedCategory) notes)).
  split.
  - unfold App.filteredMemories.
    replace (JS.eqb selectedCategory "All") with false
      by (symmetry; by apply eqb_neq).
    cbn [negb]. unfold bind at 1.
    rewrite (filterMemories_run _ _ _ _ Hnotes).
    erewrite sortMemories_run by (cbn [memoryArrays]; apply lookup_new).
    cbn [memoryArrays scoredArrays calls clock]. by rewrite insert_new.
  - split.
    + intros m. rewrite sort_Permutation, elem_of_filter_bool.
      by rewrite eqb_eq.
    + split; [| apply sort_byRecency_sorted].
      rewrite sort_Permutation. apply sublist_submseteq, sublist_filter_bool.
Qed.

Lemma board_of_a_category_witness :
  exists shown,
    App.filteredMemories 0 "Cooking" sampleWorld
    = (1%nat,
       {| memoryArrays := [[pastaNote; reactNote]; shown];
          scoredArrays := []; calls := []; clock := 5000 |}) /\
    (forall m,
       m ∈ shown
       <-> m ∈ [pastaNote; reactNote] /\ Memory.category m = "Cooking").
Proof.
  destruct (board_of_a_category sampleWorld 0 [pastaNote; reactNote] "Cooking")
    as (shown & Hrun & Hshown & _); [reflexivity | discriminate |].
  exists shown. split; [exact Hrun | exact Hshown].
Defined.

(** X18.  After [handleHighlight] with at least one id the board shows
    the whole collection, whatever category was selected before, so
    every cited note that exists is on the board; with no id the
    selected category is kept and only the highlights are cleared. *)
Theorem highlighted_notes_are_on_the_board (w : World) (st : App.State)
    (ids : list str) (notes : list Memory.t) :
  memoryArrays w !! App.memories st = Some notes ->
  App.highlightedIds (App.handleHighlight ids st) = ids /\
  App.memories (App.handleHighlight ids st) = App.memories st /\
  (ids = [] ->
   App.selectedCategory (App.handleHighlight ids st) = App.selectedCategory st) /\
  (ids <> [] ->
   exists shown,
     memoryArrays
       (App.filteredMemories (App.memories (App.handleHighlight ids st))
          (App.selectedCategory (App.handleHighlight ids st)) w).2
       !! (App.filteredMemories (App.memories (App.handleHighlight ids st))
             (App.selectedCategory (App.handleHighlight ids st)) w).1
     = Some shown /\
     forall m, m ∈ notes -> m ∈ shown).
Proof.
  intros Hnotes. split; [done |]. split; [done |]. split; [by intros -> |].
  intros Hids. exists (JS.sort byRecency notes).
  assert (Hall : App.selectedCategory (App.handleHighlight ids st) = "All")
    by (destruct ids; [done | reflexivity]).
  rewrite Hall. cbn [App.handleHighlight App.memories].
  unfold App.filteredMemories.
  change (negb (JS.eqb "All" "All")) with false. cbv iota.
  unfold bind, ret. rewrite (sortMemories_run _ _ _ _ Hnotes).
  cbn [fst snd memoryArrays].
  split; [apply list_lookup_insert_eq; by eapply lookup_lt_Some |].
  intros m Hm. by rewrite sort_Permutation.
Qed.

Lemma highlighted_notes_are_on_the_board_witness :
  exists shown,
    memoryArrays (App.filteredMemories 0 "All" sampleWorld).2
      !! (App.filteredMemories 0 "All" sampleWorld).1
    = Some shown /\
    forall m, m ∈ [pastaNote; reactNote] -> m ∈ shown.
Proof.
  destruct (highlighted_notes_are_on_the_board sampleWorld freshApp ["n2"]
              [pastaNote; reactNote] eq_refl) as (_ & _ & _ & Hshown).
  exact (Hshown ltac:(discriminate)).
Defined.



(** ** The chat ([ChatInterface.handleSend], [renderFilters]) *)

Lemma trimStart_blank s : JSString.trimStart s = [] <-> blank s = true.
Proof.
  unfold blank. induction s as [| c s IH]; simpl; [done |].
  destruct (JSString.isWhiteSpace c); simpl; [exact IH | done].
Qed.

Lemma trimEnd_blank s : JSString.trimEnd s = [] <-> blank s = true.
Proof.
  unfold blank. induction s as [| c s IH]; simpl; [done |].
  destruct (JSString.trimEnd s) as [| d rest].
  - destruct (JSString.isWhiteSpace c); simpl; [| done].
    split; intros _; [by apply IH | done].
  - split; [done |]. intros Hall. apply andb_true_iff in Hall as [_ Hall].
    by apply IH in Hall.
Qed.

Lemma trimStart_head s :
  match JSString.trimStart s with
  | [] => True
  | c :: _ => JSString.isWhiteSpace c = false
  end.
Proof.
  induction s as [| c s IH]; simpl; [done |].
  destruct (JSString.isWhiteSpace c) eqn:Hc; [exact IH | exact Hc].
Qed.

(** [trim] leaves nothing exactly when the text is blank. *)
Lemma trim_blank s : JS.truthy (JSString.trim s) = false <-> blank s = true.
Proof.
  rewrite truthy_false. unfold JSString.trim.
  rewrite trimEnd_blank, <- (trimStart_blank s).
  pose proof (trimStart_head s) as Hhead.
  destruct (JSString.trimStart s) as [| c rest]; [done |].
  unfold blank. simpl. rewrite Hhead. done.
Qed.


(** X19.  A message made of white space only (any of the white space
    and line terminator characters of ECMAScript, or nothing) is not
    sent, and nothing is sent while an answer is awaited: the chat, the
    page and the world stay as they are (no message is added, no model
    is called). *)
Theorem blank_message_is_not_sent (rt : Runtime) (casts : Casts)
    (st : ChatInterface.State) (app : App.State) (w : World) :
  blank (ChatInterface.input st) = true \/ ChatInterface.isLoading st = true ->
  ChatInterface.handleSend st app w = ((st, app), w).
Proof.
  intros Hidle. unfold ChatInterface.handleSend.
  replace (negb (JS.truthy (JSString.trim (ChatInterface.input st)))
           || ChatInterface.isLoading st) with true; [reflexivity |].
  symmetry. apply orb_true_iff.
  destruct Hidle as [Hblank | Hloading]; [left | by right].
  apply negb_true_iff. by apply trim_blank.
Qed.

Lemma blank_message_is_not_sent_witness :
  ChatInterface.handleSend (rt := offline) (casts := exactCasts)
    (idleChat "　 ") freshApp sampleWorld
  = ((idleChat "　 ", freshApp), sampleWorld).
Proof.
  apply (blank_message_is_not_sent offline exactCasts (idleChat "　 ")
           freshApp sampleWorld).
  left. reflexivity.
Defined.



(** A turn in which the parser's output is [null]: [queryBrain] rejects
    and the chat shows the generic error message. *)
Example chat_turn_on_a_null_intent :
  ChatInterface.messages
    (ChatInterface.handleSend (rt := answers VNull) (casts := exactCasts)
       (idleChat "pasta") freshApp sampleWorld).1.1
  = ChatInterface.messages (idleChat "pasta")
    ++ [{| ChatInterface.msg_role := ChatInterface.user;
           ChatInterface.msg_text := "pasta";
           ChatInterface.msg_relatedMemoryIds := None;
           ChatInterface.msg_usedFilters := None |};
        {| ChatInterface.msg_role := ChatInterface.model;
           ChatInterface.msg_text := "Something went wrong.";
           ChatInterface.msg_relatedMemoryIds := None;
           ChatInterface.msg_usedFilters := None |}].
Proof. reflexivity. Qed.

(** A turn in which the answer's [relatedIds] is an object whose
    [length] cannot be converted to a number: the model's message is
    shown, the test on the ids throws, and the generic error message
    follows. *)
Example chat_turn_on_uncountable_ids :
  map ChatInterface.msg_text
    (ChatInterface.messages
       (ChatInterface.handleSend
          (rt := answersWith cookingIntent
                   (VObject
                      [("answer", VString "Nine minutes.");
                       ("relatedIds",
                        VObject
                          [("length",
                            VObject [("toString", VNumber 0%float)])])]))
          (casts := exactCasts) (idleChat "how long do I boil pasta")
          freshApp sampleWorld).1.1)
  = [welcomeMessage en; "how long do I boil pasta"; "Nine minutes.";
     "Something went wrong."].
Proof. reflexivity. Qed.

(** X21.  The chips under an answer tell the truth about the hard
    filter: [renderFilters] draws nothing for an intent exactly when the
    hard filter lets every note through.  Both read the category and the
    dates by truthiness and the tags by their number.  (Lower-casing
    returns an empty string for the empty string only.) *)
Theorem no_chip_means_no_filter (rt : Runtime) (parsed : Value)
    (intent : ParsedIntent.t) :
  (forall s, JS.truthy (toLowerCase s) = JS.truthy s) ->
  readIntent parsed = Some intent ->
  ChatInterface.renderFilters (Some intent) = None
  <-> forall m, hardFilter parsed m = Some true.
Proof.
  intros Hlower Hread.
  assert (Hfilter : forall m, hardFilter parsed m = Some true <-> survives intent m).
  { intros m.
    destruct (hardFilter_survives parsed intent m Hread) as (keep & -> & Hkeep).
    rewrite <- Hkeep. split; [by intros [= ->] | by intros ->]. }
  destruct intent as [keywords category tags startDate endDate].
  unfold ChatInterface.renderFilters.
  cbn [ParsedIntent.category ParsedIntent.tags ParsedIntent.startDate
       ParsedIntent.endDate].
  split.
  - intros Hnone m. apply Hfilter.
    unfold survives, categoryCondition, tagCondition, startCondition,
      endCondition.
    cbn [ParsedIntent.category ParsedIntent.tags ParsedIntent.startDate
         ParsedIntent.endDate].
    assert (Hc : match category with Some c => JS.truthy c | None => false end
                 = false)
      by (destruct (match category with
                    | Some c => JS.truthy c
                    | None => false
                    end); [discriminate | done]).
    rewrite Hc in Hnone. cbn [negb andb] in Hnone.
    assert (Hs : match startDate with Some d => negb (d =? 0) | None => false end
                 = false)
      by (destruct (match startDate with
                    | Some d => negb (d =? 0)
                    | None => false
                    end); [discriminate | done]).
    rewrite Hs in Hnone. cbn [orb] in Hnone.
    assert (He : match endDate with Some d => negb (d =? 0) | None => false end
                 = false)
      by (destruct (match endDate with
                    | Some d => negb (d =? 0)
                    | None => false
                    end); [discriminate | done]).
    rewrite He in Hnone. cbn [negb andb] in Hnone.
    assert (Ht : tags = [])
      by (destruct tags; [done | discriminate]).
    split; [destruct category as [c |]; [left; by apply truthy_false | done] |].
    split; [by left |].
    split.
    + destruct startDate as [s |]; [| done]. left.
      apply negb_false_iff in Hs. by apply Z.eqb_eq.
    + destruct endDate as [e |]; [| done]. left.
      apply negb_false_iff in He. by apply Z.eqb_eq.
  - intros Hall.
    assert (Hsurvives : forall m,
              survives (ParsedIntent.mk keywords category tags startDate endDate)
                m)
      by (intros m; apply Hfilter, Hall).
    unfold survives, categoryCondition, tagCondition, startCondition,
      endCondition in Hsurvives.
    cbn [ParsedIntent.category ParsedIntent.tags ParsedIntent.startDate
         ParsedIntent.endDate] in Hsurvives.
    assert (Hcategory :
      match category with Some c => JS.truthy c | None => false end = false).
    { destruct category as [c |]; [| done].
      destruct (Hsurvives (Memory.mk [] [] TEXT None [] [] [] 0 None))
        as ([-> | Hsame] & _); [done |].
      unfold sameIgnoringCase in Hsame. cbn [Memory.category] in Hsame.
      rewrite <- (Hlower c), <- Hsame, Hlower. done. }
    assert (Htags : tags = []).
    { destruct (Hsurvives (Memory.mk [] [] TEXT None [] [] [] 0 None))
        as (_ & [Ht | (t & _ & Hin)] & _); [done |].
      cbn [Memory.tags] in Hin. inversion Hin. }
    assert (Hstart :
      match startDate with Some d => negb (d =? 0) | None => false end = false).
    { destruct startDate as [s |]; [| done].
      destruct (Hsurvives (Memory.mk [] [] TEXT None [] [] [] (s - 1) None))
        as (_ & _ & [-> | Hle] & _); [done |].
      cbn [Memory.createdAt] in Hle. lia. }
    assert (Hend :
      match endDate with Some d => negb (d =? 0) | None => false end = false).
    { destruct endDate as [e |]; [| done].
      destruct (Hsurvives (Memory.mk [] [] TEXT None [] [] [] (e + 1) None))
        as (_ & _ & _ & [-> | Hle]); [done |].
      cbn [Memory.createdAt] in Hle. lia. }
    rewrite Hcategory, Hstart, Hend, Htags. reflexivity.
Qed.

Lemma no_chip_means_no_filter_witness :
  ChatInterface.renderFilters
    (Some (ParsedIntent.mk "pasta" (Some "") [] (Some 0) None)) = None /\
  hardFilter (rt := offline)
    (intent "pasta" (VString "") [] (VNumber 0%float) VNull) pastaNote
  = Some true.
Proof.
  destruct (no_chip_means_no_filter offline
              (intent "pasta" (VString "") [] (VNumber 0%float) VNull)
              (ParsedIntent.mk "pasta" (Some "") [] (Some 0) None))
    as [Hnone _]; [intros s; by destruct s | reflexivity |].
  split; [reflexivity |]. apply Hnone. reflexivity.
Defined.

(** ** The card of a note ([MemoryCard]) *)

(** X22.  A card shows the first three tags of its note and counts the
    others: the tags shown followed by the tags not shown are the tags
    of the note, the badge is there exactly when some tag is not shown,
    and its number is the number of tags not shown. *)
Theorem card_shows_three_tags_and_counts_the_rest (m : Memory.t) :
  MemoryCard.shownTags m ++ drop 3 (Memory.tags m) = Memory.tags m /\
  (length (MemoryCard.shownTags m) <= 3)%nat /\
  (MemoryCard.moreTags m = None <-> MemoryCard.shownTags m = Memory.tags m) /\
  (forall n,
     MemoryCard.moreTags m = Some n ->
     (0 < n)%nat /\ n = length (drop 3 (Memory.tags m)) /\
     (length (MemoryCard.shownTags m) + n)%nat = length (Memory.tags m)).
Proof.
  unfold MemoryCard.shownTags, MemoryCard.moreTags.
  split; [apply take_drop |].
  split; [rewrite length_take; lia |].
  destruct (Nat.ltb_spec 3 (length (Memory.tags m))) as [Hmore | Hfew].
  - split.
    + split; [discriminate |]. intros Hall.
      apply (f_equal length) in Hall. rewrite length_take in Hall. lia.
    + intros n [= <-]. rewrite length_drop, length_take. lia.
  - split; [| discriminate].
    split; [intros _; by apply take_ge | done].
Qed.

(** ** The composer ([InputArea.handleSubmit]) *)

(** X23.  The composer submits nothing when the text is blank (white
    space of ECMAScript only, or nothing) and no file is attached: no
    note is saved, no model is called and the composer keeps its
    content.  Otherwise it hands the text as typed and the file to
    [App.handleSubmit] and then empties itself, also when the
    submission ended in an alert. *)
Theorem composer_submits_unless_blank (rt : Runtime) (casts : Casts)
    (id : str) (st : InputArea.State) (app : App.State)
    (categories : list str) (w : World) :
  (blank (InputArea.text st) = true -> InputArea.image st = None ->
   InputArea.handleSubmit id st app categories w = ((st, app, false), w)) /\
  (blank (InputArea.text st) = false \/ InputArea.image st <> None ->
   InputArea.handleSubmit id st app categories w
   = (({| InputArea.text := []; InputArea.image := None |},
       (App.handleSubmit id app categories (InputArea.text st)
          (InputArea.image st) w).1.1,
       (App.handleSubmit id app categories (InputArea.text st)
          (InputArea.image st) w).1.2),
      (App.handleSubmit id app categories (InputArea.text st)
         (InputArea.image st) w).2)).
Proof.
  unfold InputArea.handleSubmit. split.
  - intros Hblank Himage. apply trim_blank in Hblank.
    by rewrite Hblank, Himage.
  - intros Hsome.
    assert (Hrun : forall submitted : App.State * bool * World,
              (let (a, w') := submitted in
               ({| InputArea.text := []; InputArea.image := None |}, a.1, a.2, w'))
              = ({| InputArea.text := []; InputArea.image := None |},
                 submitted.1.1, submitted.1.2, submitted.2))
      by (by intros [[? ?] ?]).
    destruct (JS.truthy (JSString.trim (InputArea.text st))) eqn:Htrim.
    + unfold bind, ret. apply Hrun.
    + destruct (InputArea.image st) as [file |] eqn:Himage.
      * unfold bind, ret. apply Hrun.
      * apply trim_blank in Htrim. destruct Hsome; congruence.
Qed.

Lemma composer_submits_unless_blank_witness :
  InputArea.handleSubmit (rt := offline) (casts := exactCasts) "n3"
    {| InputArea.text := "　"; InputArea.image := None |} freshApp
    ["All"; "Cooking"; "Coding"] sampleWorld
  = (({| InputArea.text := "　"; InputArea.image := None |}, freshApp, false),
     sampleWorld).
Proof.
  destruct (composer_submits_unless_blank offline exactCasts "n3"
              {| InputArea.text := "　"; InputArea.image := None |} freshApp
              ["All"; "Cooking"; "Coding"] sampleWorld) as [Hblank _].
  apply Hblank; reflexivity.
Defined.
